(** * fst-claude-proxy: fingerprint routing and credential injection

    A shallow embedding of the Python sources of the proxy core
    (utils.py, registry/agent_hashes.py, hooks/oauth_hook.py and
    hooks/callbacks.py) together with the properties of the
    specification that were checked against them.

    Python values are modelled as follows:
    - [str] is a list of Unicode code points ([N]);
    - [bytes] is a list of octets ([N] below 256);
    - a raised exception is the [Raise] branch of [result];
    - a [dict] is an insertion-ordered association list. *)

From Stdlib Require Import String Ascii NArith ZArith Bool Lia List.
Import ListNotations.

Set Implicit Arguments.
Set Warnings "-register-all".
Open Scope N_scope.

(** ** Exceptions and the error monad *)

Inductive exn : Type :=
| AttributeError
| TypeError
| KeyError
| IndexError
| ValueError
| UnicodeEncodeError
| UnicodeDecodeError
| JSONDecodeError
| OSError
| FileNotFoundError
| PermissionError.

Inductive result (A : Type) : Type :=
| Ok (a : A)
| Raise (e : exn).

Arguments Ok {A} a.
Arguments Raise {A} e.

Definition bind {A B : Type} (m : result A) (k : A -> result B) : result B :=
  match m with
  | Ok a => k a
  | Raise e => Raise e
  end.

Notation "x <- m ;; k" := (bind m (fun x => k))
  (at level 61, m at next level, right associativity).

(** ** Python strings *)

Module PyStr.

Definition codepoint := N.
Definition pystr := list codepoint.
Definition bytes := list N.

(** A literal of the source, written as an ASCII string. *)
Definition lit (s : string) : pystr :=
  map N_of_ascii (list_ascii_of_string s).

Fixpoint eqb (a b : pystr) : bool :=
  match a, b with
  | [], [] => true
  | x :: a', y :: b' => N.eqb x y && eqb a' b'
  | _, _ => false
  end.

(** [s.startswith(pre)] *)
Fixpoint startswith (pre s : pystr) : bool :=
  match pre, s with
  | [], _ => true
  | p :: pre', c :: s' => N.eqb p c && startswith pre' s'
  | _ :: _, [] => false
  end.

(** [sub in s] *)
Fixpoint contains (sub s : pystr) : bool :=
  startswith sub s ||
  match s with
  | [] => false
  | _ :: s' => contains sub s'
  end.

(** [s.split(sep)]: the pieces between the non-overlapping occurrences
    of [sep], found from left to right.  [skip] counts the characters of
    a matched separator that are still to be consumed, [cur] is the
    current piece, reversed. *)
Fixpoint split_from (sep : pystr) (skip : nat) (cur s : pystr) : list pystr :=
  match s with
  | [] => [rev cur]
  | c :: s' =>
      match skip with
      | S k => split_from sep k cur s'
      | O =>
          if startswith sep s
          then rev cur :: split_from sep (length sep - 1)%nat [] s'
          else split_from sep 0 (c :: cur) s'
      end
  end.

Definition split (sep s : pystr) : result (list pystr) :=
  match sep with
  | [] => Raise ValueError
  | _ :: _ => Ok (split_from sep 0 [] s)
  end.

(** [sep.join(parts)] *)
Fixpoint join (sep : pystr) (parts : list pystr) : pystr :=
  match parts with
  | [] => []
  | [p] => p
  | p :: rest => p ++ sep ++ join sep rest
  end.

(** [s.replace(old, new)] for a non-empty [old]: every non-overlapping
    occurrence, from left to right. *)
Fixpoint replace_from (old new : pystr) (skip : nat) (s : pystr) : pystr :=
  match s with
  | [] => []
  | c :: s' =>
      match skip with
      | S k => replace_from old new k s'
      | O =>
          if startswith old s
          then new ++ replace_from old new (length old - 1)%nat s'
          else c :: replace_from old new 0 s'
      end
  end.

Definition replace (old new s : pystr) : pystr :=
  replace_from old new 0 s.

(** [xs[0]] *)
Definition getitem0 {A : Type} (xs : list A) : result A :=
  match xs with
  | [] => Raise IndexError
  | x :: _ => Ok x
  end.

(** [str.isspace] on one character: the code points CPython's
    [_PyUnicode_IsWhitespace] accepts. *)
Definition isspace (c : codepoint) : bool :=
  ((9 <=? c) && (c <=? 13)) ||
  ((28 <=? c) && (c <=? 32)) ||
  (c =? 133) || (c =? 160) || (c =? 5760) ||
  ((8192 <=? c) && (c <=? 8202)) ||
  (c =? 8232) || (c =? 8233) || (c =? 8239) || (c =? 8287) || (c =? 12288).

Fixpoint lstrip (s : pystr) : pystr :=
  match s with
  | [] => []
  | c :: s' => if isspace c then lstrip s' else s
  end.

Definition rstrip (s : pystr) : pystr := rev (lstrip (rev s)).

(** [s.strip()] *)
Definition strip (s : pystr) : pystr := rstrip (lstrip s).

(** UTF-8 encoding of one code point; surrogates cannot be encoded. *)
Definition encode_char (c : codepoint) : result bytes :=
  if c <? 128 then Ok [c]
  else if c <? 2048 then
    Ok [192 + N.shiftr c 6; 128 + N.land c 63]
  else if (55296 <=? c) && (c <=? 57343) then Raise UnicodeEncodeError
  else if c <? 65536 then
    Ok [224 + N.shiftr c 12; 128 + N.land (N.shiftr c 6) 63; 128 + N.land c 63]
  else if c <? 1114112 then
    Ok [240 + N.shiftr c 18; 128 + N.land (N.shiftr c 12) 63;
        128 + N.land (N.shiftr c 6) 63; 128 + N.land c 63]
  else Raise UnicodeEncodeError.

(** [s.encode("utf-8")] *)
Fixpoint encode (s : pystr) : result bytes :=
  match s with
  | [] => Ok []
  | c :: s' =>
      b <- encode_char c ;;
      bs <- encode s' ;;
      Ok (b ++ bs)
  end.




End PyStr.

Import PyStr.

(** ** hashlib.sha256 (FIPS 180-4) *)

Module SHA256.

Definition mask32 : N := 4294967295.
Definition add32 (a b : N) : N := N.land (a + b) mask32.
Definition rotr (n x : N) : N :=
  N.lor (N.shiftr x n) (N.land (N.shiftl x (32 - n)) mask32).
Definition not32 (x : N) : N := N.lxor x mask32.

Definition Ch (x y z : N) : N := N.lxor (N.land x y) (N.land (not32 x) z).
Definition Maj (x y z : N) : N :=
  N.lxor (N.land x y) (N.lxor (N.land x z) (N.land y z)).
Definition BSig0 (x : N) : N := N.lxor (rotr 2 x) (N.lxor (rotr 13 x) (rotr 22 x)).
Definition BSig1 (x : N) : N := N.lxor (rotr 6 x) (N.lxor (rotr 11 x) (rotr 25 x)).
Definition SSig0 (x : N) : N := N.lxor (rotr 7 x) (N.lxor (rotr 18 x) (N.shiftr x 3)).
Definition SSig1 (x : N) : N := N.lxor (rotr 17 x) (N.lxor (rotr 19 x) (N.shiftr x 10)).

(** The round constants are the first 32 bits of the fractional parts
    of the cube roots of the first 64 primes, the initial hash value
    those of the square roots of the first 8 primes. *)
Definition is_prime (p : N) : bool :=
  (2 <=? p) &&
  forallb (fun d => negb (p mod N.of_nat d =? 0)) (seq 2 (N.to_nat p - 2)).

Fixpoint first_primes (fuel count : nat) (p : N) : list N :=
  match fuel, count with
  | S f, S c =>
      if is_prime p then p :: first_primes f c (p + 1)
      else first_primes f count (p + 1)
  | _, _ => []
  end.

(** The largest [r'] above [r], built from the [bits] low bits, whose
    cube does not exceed [x]. *)
Fixpoint cube_root (bits : nat) (x r : N) : N :=
  match bits with
  | O => r
  | S b =>
      let r' := r + 2 ^ N.of_nat b in
      if r' * r' * r' <=? x then cube_root b x r' else cube_root b x r
  end.

Definition K : list N :=
  Eval vm_compute in
    map (fun p => N.land (cube_root 36 (p * 2 ^ 96) 0) mask32)
        (first_primes 400 64 2).

Definition H0 : list N :=
  Eval vm_compute in
    map (fun p => N.land (N.sqrt (p * 2 ^ 64)) mask32) (first_primes 400 8 2).

(** Big-endian octets of the low [n] bytes of [x]. *)
Fixpoint be_bytes (n : nat) (x : N) : list N :=
  match n with
  | O => []
  | S k => N.land (N.shiftr x (8 * N.of_nat k)) 255 :: be_bytes k x
  end.

(** Padding: a one bit, zeros up to 56 mod 64, the bit length on 64 bits. *)
Definition pad (msg : bytes) : bytes :=
  let len := N.of_nat (length msg) in
  let zeros := N.to_nat ((119 - len mod 64) mod 64) in
  msg ++ [128] ++ repeat 0 zeros ++ be_bytes 8%nat (8 * len).

Fixpoint words (bs : bytes) : list N :=
  match bs with
  | a :: b :: c :: d :: rest =>
      (N.shiftl a 24 + N.shiftl b 16 + N.shiftl c 8 + d) :: words rest
  | _ => []
  end.

(** The message schedule, most recent word first; [recent] starts as the
    sixteen words of the block, reversed. *)
Fixpoint schedule (n : nat) (recent : list N) : list N :=
  match n with
  | O => recent
  | S k =>
      let w := add32 (add32 (SSig1 (nth 1%nat recent 0)) (nth 6%nat recent 0))
                     (add32 (SSig0 (nth 14%nat recent 0)) (nth 15%nat recent 0)) in
      schedule k (w :: recent)
  end.

Definition round (st : list N) (kw : N * N) : list N :=
  match st with
  | [a; b; c; d; e; f; g; h] =>
      let t1 := add32 (add32 (add32 h (BSig1 e)) (add32 (Ch e f g) (fst kw))) (snd kw) in
      let t2 := add32 (BSig0 a) (Maj a b c) in
      [add32 t1 t2; a; b; c; add32 d t1; e; f; g]
  | _ => st
  end.

Definition compress (h : list N) (block : list N) : list N :=
  let w := rev (schedule 48%nat (rev block)) in
  let st := fold_left round (combine K w) h in
  map (fun p => add32 (fst p) (snd p)) (combine h st).

Fixpoint blocks (fuel : nat) (h : list N) (ws : list N) : list N :=
  match fuel with
  | O => h
  | S k =>
      match ws with
      | [] => h
      | _ => blocks k (compress h (firstn 16%nat ws)) (skipn 16%nat ws)
      end
  end.

(** [hashlib.sha256(msg).digest()] *)
Definition digest (msg : bytes) : bytes :=
  let ws := words (pad msg) in
  flat_map (be_bytes 4%nat) (blocks (length ws) H0 ws).

Definition hexdigit (n : N) : codepoint :=
  if n <? 10 then 48 + n else 87 + n.

(** [hashlib.sha256(msg).hexdigest()] *)
Definition hexdigest (msg : bytes) : pystr :=
  flat_map (fun b => [hexdigit (N.shiftr b 4); hexdigit (N.land b 15)]) (digest msg).

End SHA256.

(** ** utils.py *)

Module Utils.

Definition NOTES_SEPARATORS : list pystr :=
  [ [10; 10; 78; 111; 116; 101; 115; 58];
    [10; 78; 111; 116; 101; 115; 58];
    [78; 111; 116; 101; 115; 58] ].

(** The [for separator in ...: if separator in prompt: ...; break] loop. *)
Fixpoint strip_notes_loop (separators : list pystr) (prompt : pystr) : result pystr :=
  match separators with
  | [] => Ok prompt
  | separator :: rest =>
      if contains separator prompt
      then parts <- split separator prompt ;; getitem0 parts
      else strip_notes_loop rest prompt
  end.

Definition compute_agent_hash (prompt : pystr) (strip_notes : bool) : result pystr :=
  prompt' <- (if strip_notes then strip_notes_loop NOTES_SEPARATORS prompt
              else Ok prompt) ;;
  data <- encode (strip prompt') ;;
  Ok (firstn 16%nat (SHA256.hexdigest data)).

End Utils.

(** ** Python values

    The values [json.load] produces, and the dictionaries built from them.
    JSON numbers are modelled as integers.  Dictionary keys are the
    hashable scalars up to Python's equality ([True == 1], [False == 0]);
    a JSON object has [KStr] keys only. *)

Module Py.

Inductive pykey : Type :=
| KNone
| KNum (z : Z)
| KStr (s : pystr).

Inductive pyval : Type :=
| PNone
| PBool (b : bool)
| PInt (z : Z)
| PStr (s : pystr)
| PList (l : list pyval)
| PDict (d : list (pykey * pyval)).

Definition pydict := list (pykey * pyval).

Definition key_eqb (a b : pykey) : bool :=
  match a, b with
  | KNone, KNone => true
  | KNum x, KNum y => Z.eqb x y
  | KStr x, KStr y => PyStr.eqb x y
  | _, _ => false
  end.

(** [hash(v)]: lists and dictionaries are unhashable. *)
Definition to_key (v : pyval) : result pykey :=
  match v with
  | PNone => Ok KNone
  | PBool b => Ok (KNum (if b then 1 else 0)%Z)
  | PInt z => Ok (KNum z)
  | PStr s => Ok (KStr s)
  | PList _ | PDict _ => Raise TypeError
  end.

(** [bool(v)] *)
Definition truthy (v : pyval) : bool :=
  match v with
  | PNone => false
  | PBool b => b
  | PInt z => negb (Z.eqb z 0)
  | PStr s => match s with [] => false | _ => true end
  | PList l => match l with [] => false | _ => true end
  | PDict d => match d with [] => false | _ => true end
  end.

(** [a or b] *)
Definition por (a b : pyval) : pyval := if truthy a then a else b.

(** [v == "s"] for a string literal *)
Definition eq_str (v : pyval) (s : pystr) : bool :=
  match v with
  | PStr t => PyStr.eqb t s
  | _ => false
  end.

Fixpoint dict_get (k : pykey) (d : pydict) : option pyval :=
  match d with
  | [] => None
  | (k', v) :: d' => if key_eqb k k' then Some v else dict_get k d'
  end.

(** [k in d] *)
Definition dict_mem (k : pykey) (d : pydict) : bool :=
  match dict_get k d with
  | Some _ => true
  | None => false
  end.

(** [d[k] = v]: an existing key keeps its position. *)
Fixpoint dict_set (k : pykey) (v : pyval) (d : pydict) : pydict :=
  match d with
  | [] => [(k, v)]
  | (k', v') :: d' =>
      if key_eqb k k' then (k', v) :: d' else (k', v') :: dict_set k v d'
  end.

(** [del d[k]] for a key that is present *)
Fixpoint dict_del (k : pykey) (d : pydict) : pydict :=
  match d with
  | [] => []
  | (k', v') :: d' => if key_eqb k k' then d' else (k', v') :: dict_del k d'
  end.

(** [v.get(k, default)]: only dictionaries have [get]. *)
Definition get (v : pyval) (k : pystr) (default : pyval) : result pyval :=
  match v with
  | PDict d =>
      Ok (match dict_get (KStr k) d with Some x => x | None => default end)
  | _ => Raise AttributeError
  end.

(** [v[k]] for a string [k] *)
Definition getitem (v : pyval) (k : pystr) : result pyval :=
  match v with
  | PDict d =>
      match dict_get (KStr k) d with
      | Some x => Ok x
      | None => Raise KeyError
      end
  | _ => Raise TypeError
  end.

(** [k in v] for a string [k]: key membership in a dictionary, element
    membership in a list, substring test in a string. *)
Definition contains_str (k : pystr) (v : pyval) : result bool :=
  match v with
  | PDict d => Ok (dict_mem (KStr k) d)
  | PList l => Ok (existsb (fun x => eq_str x k) l)
  | PStr s => Ok (PyStr.contains k s)
  | _ => Raise TypeError
  end.

(** A file of the backing store as one call observes it. *)
Inductive file : Type :=
| Absent
| Unreadable (e : exn)
| Content (v : pyval).

(** [os.path.exists(path)] *)
Definition exists_ (f : file) : bool :=
  match f with
  | Absent => false
  | _ => true
  end.

(** [with open(path) as f: json.load(f)] *)
Definition open_json (f : file) : result pyval :=
  match f with
  | Absent => Raise FileNotFoundError
  | Unreadable e => Raise e
  | Content v => Ok v
  end.

(** [isinstance(e, OSError)] *)
Definition is_OSError (e : exn) : bool :=
  match e with
  | OSError | FileNotFoundError | PermissionError => true
  | _ => false
  end.

End Py.

Import Py.

(** ** registry/agent_hashes.py *)

Module AgentHashes.

Record state : Type := mkState {
  _AGENT_REGISTRY : pyval;
  _REGISTRY_LOADED : bool
}.

Definition initial : state := mkState (PDict []) false.

(** What one call does: its return value (or the exception it raises),
    the module state it leaves, and how often it opened the backing
    file. *)
Record outcome : Type := mkOutcome {
  ret : result pyval;
  after : state;
  reads : nat
}.

(** [len(v)] is defined on strings, lists and dictionaries. *)
Definition sized (v : pyval) : bool :=
  match v with
  | PStr _ | PList _ | PDict _ => true
  | _ => false
  end.

Definition load_registry (st : state) (backing : file) : outcome :=
  if _REGISTRY_LOADED st then mkOutcome (Ok (_AGENT_REGISTRY st)) st 0
  else
    match open_json backing with
    | Ok data =>
        match get data (lit "mappings") (PDict []) with
        | Ok m =>
            (* both globals are assigned; the log line then takes
               [len(_AGENT_REGISTRY)] *)
            if sized m then mkOutcome (Ok m) (mkState m true) 1
            else mkOutcome (Raise TypeError) (mkState m true) 1
        | Raise e => mkOutcome (Raise e) st 1
        end
    | Raise FileNotFoundError =>
        mkOutcome (Ok (PDict [])) (mkState (PDict []) true) 1
    | Raise JSONDecodeError =>
        mkOutcome (Ok (PDict [])) (mkState (PDict []) true) 1
    | Raise e => mkOutcome (Raise e) st 1
    end.

Definition reload_registry (st : state) (backing : file) : outcome :=
  load_registry (mkState (_AGENT_REGISTRY st) false) backing.

Definition get_registry (st : state) (backing : file) : outcome :=
  load_registry st backing.

Definition get_model_for_hash (agent_hash : pystr) (st : state) (backing : file)
  : outcome :=
  let o := get_registry st backing in
  match ret o with
  | Ok registry => mkOutcome (get registry agent_hash PNone) (after o) (reads o)
  | Raise e => o
  end.

(** The calls a client of the module can make. *)
Inductive call : Type :=
| LoadRegistry
| GetRegistry
| GetModelForHash (agent_hash : pystr)
| ReloadRegistry.

Definition perform (c : call) (st : state) (backing : file) : outcome :=
  match c with
  | LoadRegistry => load_registry st backing
  | GetRegistry => get_registry st backing
  | GetModelForHash h => get_model_for_hash h st backing
  | ReloadRegistry => reload_registry st backing
  end.

(** A sequence of calls, each seeing the backing file as it is then. *)
Fixpoint run (st : state) (calls : list (call * file)) : list outcome :=
  match calls with
  | [] => []
  | (c, backing) :: rest =>
      let o := perform c st backing in
      o :: run (after o) rest
  end.

End AgentHashes.

(** ** hooks/oauth_hook.py *)

Module OauthHook.

Record state : Type := mkState {
  _OAUTH_TOKEN : pyval;
  _LAST_LOAD_TIME : Z
}.

Definition _CACHE_TTL_SECONDS : Z := 60.

Definition initial : state := mkState PNone 0.

Definition is_None (v : pyval) : bool :=
  match v with
  | PNone => true
  | _ => false
  end.

(** [load_oauth_credentials(force)] called when [time.time()] reads
    [current_time] and the credentials file is [credentials]. *)
Definition load_oauth_credentials
    (force : bool) (st : state) (current_time : Z) (credentials : file)
  : result pyval * state :=
  if negb force && negb (is_None (_OAUTH_TOKEN st))
     && (current_time - _LAST_LOAD_TIME st <? _CACHE_TTL_SECONDS)%Z
  then (Ok (_OAUTH_TOKEN st), st)
  else
    match open_json credentials with
    | Ok data =>
        match get data (lit "claudeAiOauth") PNone with
        | Ok tok =>
            let st' := mkState tok current_time in
            if truthy tok
            then match get tok (lit "expiresAt") (PInt 0) with
                 | Ok _ => (Ok tok, st')
                 | Raise e => (Raise e, st')
                 end
            else (Ok tok, st')
        | Raise e => (Raise e, st)
        end
    | Raise FileNotFoundError => (Ok PNone, st)
    | Raise JSONDecodeError => (Ok PNone, st)
    | Raise e => if is_OSError e then (Ok PNone, st) else (Raise e, st)
    end.

Definition invalidate_credential_cache (st : state) : state :=
  mkState PNone 0.

End OauthHook.

(** ** hooks/callbacks.py *)

Module Callbacks.

Definition ZAI_MODEL_MAP : list (pystr * pystr) :=
  [ (lit "zai-haiku", lit "anthropic/claude-3-5-haiku-20241022");
    (lit "zai-sonnet", lit "anthropic/claude-sonnet-4-20250514");
    (lit "zai-opus", lit "anthropic/claude-opus-4-5-20251101") ].

Definition MODEL_ALIAS_MAP : list (pystr * pystr) :=
  [ (lit "haiku", lit "claude-3-5-haiku-20241022");
    (lit "sonnet", lit "claude-sonnet-4-20250514");
    (lit "opus", lit "claude-opus-4-5-20251101") ].

Definition ZAI_API_BASE : pystr := lit "https://api.z.ai/api/anthropic".

Definition _OAUTH_CACHE_TTL : Z := 60.

(** [table.get(k)] on one of the constant alias tables *)
Fixpoint table_get (table : list (pystr * pystr)) (k : pystr) : option pystr :=
  match table with
  | [] => None
  | (k', v) :: rest => if PyStr.eqb k k' then Some v else table_get rest k
  end.

Definition of_key (k : pykey) : pyval :=
  match k with
  | KNone => PNone
  | KNum z => PInt z
  | KStr s => PStr s
  end.

(** [for x in v]: the items a [for] loop over [v] visits. *)
Definition iter (v : pyval) : result (list pyval) :=
  match v with
  | PList l => Ok l
  | PStr s => Ok (map (fun c => PStr [c]) s)
  | PDict d => Ok (map (fun kv => of_key (fst kv)) d)
  | _ => Raise TypeError
  end.

(** [d[k] = x] on a value *)
Definition setitem (v : pyval) (k : pystr) (x : pyval) : result pyval :=
  match v with
  | PDict d => Ok (PDict (dict_set (KStr k) x d))
  | _ => Raise TypeError
  end.

(** *** load_agent_registry *)

(** [{a["hash"]: a.get("model", "sonnet") for a in agents}] *)
Fixpoint agents_dict (agents : list pyval) (acc : pydict) : result pydict :=
  match agents with
  | [] => Ok acc
  | a :: rest =>
      h <- getitem a (lit "hash") ;;
      m <- get a (lit "model") (PStr (lit "sonnet")) ;;
      k <- to_key h ;;
      agents_dict rest (dict_set k m acc)
  end.

Definition load_agent_registry (registry_file : file) : pyval :=
  if exists_ registry_file then
    match
      (data <- open_json registry_file ;;
       match data with
       | PDict d =>
           if dict_mem (KStr (lit "mappings")) d then
             getitem data (lit "mappings")
           else if dict_mem (KStr (lit "agents")) d then
             agents <- getitem data (lit "agents") ;;
             items <- iter agents ;;
             m <- agents_dict items [] ;;
             Ok (PDict m)
           else Ok data
       | _ => Ok data
       end)
    with
    | Ok registry => registry
    | Raise _ => PDict []
    end
  else PDict [].

(** *** load_oauth_credentials *)

Record state : Type := mkState {
  _OAUTH_TOKEN_CACHE : pyval;
  _OAUTH_USER_ID_CACHE : pyval;
  _OAUTH_ACCOUNT_UUID_CACHE : pyval;
  _OAUTH_CACHE_TIME : Z
}.

Definition initial : state := mkState PNone PNone PNone 0.

(** The files the loader looks at: the credentials file and the three
    places of Claude Code's own configuration. *)
Record disk : Type := mkDisk {
  credentials : file;
  home_claude_json : file;
  root_claude_json : file;
  app_claude_json : file
}.

Definition load_token (d : disk) : result pyval :=
  if exists_ (credentials d) then
    creds <- open_json (credentials d) ;;
    oauth_data <- get creds (lit "claudeAiOauth") creds ;;
    get oauth_data (lit "accessToken") PNone
  else Ok PNone.

Definition claude_json (d : disk) : file :=
  if exists_ (home_claude_json d) then home_claude_json d
  else if exists_ (root_claude_json d) then root_claude_json d
  else app_claude_json d.

Definition load_identity (d : disk) : result (pyval * pyval) :=
  if exists_ (claude_json d) then
    claude_config <- open_json (claude_json d) ;;
    user_id <- get claude_config (lit "userID") PNone ;;
    oauth_account <- get claude_config (lit "oauthAccount") (PDict []) ;;
    account_uuid <- get oauth_account (lit "accountUuid") PNone ;;
    Ok (user_id, account_uuid)
  else Ok (PNone, PNone).

(** [a or b] with [b] evaluated only when needed *)
Definition or_else (a : pyval) (b : result pyval) : result pyval :=
  if truthy a then Ok a else b.

Definition fallback_identity (d : disk) (user_id account_uuid : pyval)
  : result (pyval * pyval) :=
  if negb (truthy user_id) && exists_ (credentials d) then
    creds <- open_json (credentials d) ;;
    oauth_data <- get creds (lit "claudeAiOauth") creds ;;
    u <- get oauth_data (lit "userId") PNone ;;
    user_id' <- or_else u (get creds (lit "userId") PNone) ;;
    a <- or_else account_uuid (get oauth_data (lit "accountUuid") PNone) ;;
    account_uuid' <- or_else a (get creds (lit "accountUuid") PNone) ;;
    Ok (user_id', account_uuid')
  else Ok (user_id, account_uuid).

Definition is_None (v : pyval) : bool :=
  match v with
  | PNone => true
  | _ => false
  end.

(** [print(f"...")] with the values [vs] inserted.  Standard output is
    UTF-8, so the call raises [UnicodeEncodeError] when an inserted string
    has a lone surrogate; what [str] gives for a value that is not a
    string escapes them, and the literal parts are ASCII. *)
Fixpoint print (vs : list pyval) : result unit :=
  match vs with
  | [] => Ok tt
  | PStr s :: rest => data <- encode s ;; print rest
  | _ :: rest => print rest
  end.

(** [v[:n]] *)
Definition slice (n : nat) (v : pyval) : result pyval :=
  match v with
  | PStr s => Ok (PStr (firstn n s))
  | PList l => Ok (PList (firstn n l))
  | _ => Raise TypeError
  end.

(** The progress message after the cache update: it slices
    [user_id[:20]] and prints it with [account_uuid]. *)
Definition progress_message (user_id account_uuid : pyval) : result unit :=
  shown <- slice 20 user_id ;;
  print [shown; account_uuid].

(** The statements of the [try] block up to the cache update. *)
Definition read_credentials (d : disk) : result (pyval * pyval * pyval) :=
  token <- load_token d ;;
  ids <- load_identity d ;;
  ids' <- fallback_identity d (fst ids) (snd ids) ;;
  let user_id := if truthy (fst ids') then fst ids' else PStr (lit "anonymous") in
  let account_uuid := if truthy (snd ids') then snd ids' else PStr (lit "default") in
  Ok (token, user_id, account_uuid).

Definition load_oauth_credentials
    (force : bool) (st : state) (current_time : Z) (d : disk)
  : (pyval * pyval * pyval) * state :=
  if negb force && negb (is_None (_OAUTH_TOKEN_CACHE st))
     && (current_time - _OAUTH_CACHE_TIME st <? _OAUTH_CACHE_TTL)%Z
  then ((_OAUTH_TOKEN_CACHE st, _OAUTH_USER_ID_CACHE st,
         _OAUTH_ACCOUNT_UUID_CACHE st), st)
  else
    match read_credentials d with
    | Ok (token, user_id, account_uuid) =>
        if truthy token then
          let st' := mkState token user_id account_uuid current_time in
          match progress_message user_id account_uuid with
          | Ok _ => ((token, user_id, account_uuid), st')
          | Raise _ => ((PNone, PNone, PNone), st')
          end
        else ((token, user_id, account_uuid), st)
    | Raise _ => ((PNone, PNone, PNone), st)
    end.

Definition load_oauth_token (force : bool) (st : state) (current_time : Z) (d : disk)
  : pyval * state :=
  let r := load_oauth_credentials force st current_time d in
  (fst (fst (fst r)), snd r).

Definition invalidate_credential_cache (st : state) : state :=
  mkState PNone (_OAUTH_USER_ID_CACHE st) (_OAUTH_ACCOUNT_UUID_CACHE st) 0.

(** *** Fingerprint, routing and request normalisation

    [repr] stands for Python's [str(v)] on a value that is not itself a
    string; [_SESSION_ID] is the random token drawn when the module is
    imported. *)

Section Runtime.

Variable repr : pyval -> pystr.
Variable _SESSION_ID : pystr.

(** [str(v)], also what an f-string inserts *)
Definition str_of (v : pyval) : pystr :=
  match v with
  | PStr s => s
  | _ => repr v
  end.

(** The texts [block.get("text", "")] of the blocks that are
    dictionaries of type ["text"]; [join] rejects a text that is not a
    string. *)
Fixpoint text_blocks (blocks : list pyval) : result (list pystr) :=
  match blocks with
  | [] => Ok []
  | block :: rest =>
      match block with
      | PDict _ =>
          ty <- get block (lit "type") PNone ;;
          if eq_str ty (lit "text") then
            text <- get block (lit "text") (PStr []) ;;
            match text with
            | PStr t => ts <- text_blocks rest ;; Ok (t :: ts)
            | _ => Raise TypeError
            end
          else text_blocks rest
      | _ => text_blocks rest
      end
  end.

Definition join_text_blocks (blocks : list pyval) : result pystr :=
  ts <- text_blocks blocks ;; Ok (join (lit " ") ts).

Definition compute_agent_hash (system_prompt : pyval) : result pystr :=
  system_prompt <-
    match system_prompt with
    | PList blocks => s <- join_text_blocks blocks ;; Ok (PStr s)
    | _ => Ok system_prompt
    end ;;
  let system_prompt :=
    match system_prompt with
    | PStr s => s
    | _ => if truthy system_prompt then repr system_prompt else []
    end in
  system_prompt <-
    (if contains (lit "Notes:") system_prompt
     then parts <- split (lit "Notes:") system_prompt ;; getitem0 parts
     else Ok system_prompt) ;;
  data <- encode system_prompt ;;
  Ok (firstn 16%nat (SHA256.hexdigest data)).

Fixpoint extract_from (msgs : list pyval) : result pyval :=
  match msgs with
  | [] => Ok PNone
  | msg :: rest =>
      role <- get msg (lit "role") PNone ;;
      if eq_str role (lit "system") then
        content <- get msg (lit "content") (PStr []) ;;
        match content with
        | PStr _ => Ok content
        | PList blocks => s <- join_text_blocks blocks ;; Ok (PStr s)
        | _ => extract_from rest
        end
      else extract_from rest
  end.

Definition extract_system_prompt (messages : pyval) : result pyval :=
  msgs <- iter messages ;; extract_from msgs.

(** The tuple [(api_base_url, model_to_use, api_key_or_none)]. *)
Record routing : Type := mkRouting {
  api_base : pystr;
  model : pyval;
  api_key : option pystr
}.

Definition default_api_base : pystr := lit "https://api.anthropic.com/v1/messages".

(** [not os.environ.get("ZAI_API_KEY")] *)
Definition key_missing (k : option pystr) : bool :=
  match k with
  | None => true
  | Some [] => true
  | Some _ => false
  end.

(** The system prompt the hash is computed from: the top-level
    ["system"] field, else the first system message. *)
Definition system_prompt_of (body : pyval) : result pyval :=
  system_prompt <- get body (lit "system") PNone ;;
  if negb (truthy system_prompt) then
    messages <- get body (lit "messages") (PList []) ;;
    extract_system_prompt messages
  else Ok system_prompt.

Definition determine_routing
    (body agent_registry : pyval) (ZAI_API_KEY : option pystr) : result routing :=
  original_model <- get body (lit "model") (PStr (lit "claude-sonnet-4-20250514")) ;;
  system_prompt <- system_prompt_of body ;;
  if negb (truthy system_prompt) || negb (truthy agent_registry) then
    Ok (mkRouting default_api_base original_model None)
  else
    agent_hash <- compute_agent_hash system_prompt ;;
    found <- contains_str agent_hash agent_registry ;;
    if negb found then
      Ok (mkRouting default_api_base original_model None)
    else
      target_alias <- getitem agent_registry agent_hash ;;
      match target_alias with
      | PStr target_alias =>
          if startswith (lit "zai-") target_alias then
            if key_missing ZAI_API_KEY then
              let standard_alias := replace (lit "zai-") [] target_alias in
              let resolved_model :=
                match table_get MODEL_ALIAS_MAP standard_alias with
                | Some m => PStr m
                | None => original_model
                end in
              Ok (mkRouting default_api_base resolved_model None)
            else
              match table_get ZAI_MODEL_MAP target_alias with
              | None => Ok (mkRouting default_api_base original_model None)
              | Some resolved_model =>
                  Ok (mkRouting ZAI_API_BASE (PStr resolved_model) ZAI_API_KEY)
              end
          else
            let resolved_model :=
              match table_get MODEL_ALIAS_MAP target_alias with
              | Some m => PStr m
              | None => original_model
              end in
            Ok (mkRouting default_api_base resolved_model None)
      | _ => Raise AttributeError
      end.

(** *** Outbound headers *)

Definition headers := list (pystr * pystr).

Fixpoint hget (k : pystr) (h : headers) : option pystr :=
  match h with
  | [] => None
  | (k', v) :: h' => if PyStr.eqb k k' then Some v else hget k h'
  end.

Fixpoint hset (k v : pystr) (h : headers) : headers :=
  match h with
  | [] => [(k, v)]
  | (k', v') :: h' =>
      if PyStr.eqb k k' then (k', v) :: h' else (k', v') :: hset k v h'
  end.

Definition forward_headers : list pystr :=
  [ lit "user-agent"; lit "x-app"; lit "anthropic-beta";
    lit "anthropic-dangerous-direct-browser-access";
    lit "anthropic-version";
    lit "x-stainless-arch"; lit "x-stainless-lang"; lit "x-stainless-os";
    lit "x-stainless-package-version"; lit "x-stainless-retry-count";
    lit "x-stainless-runtime"; lit "x-stainless-runtime-version";
    lit "x-stainless-timeout" ].

(** [for h in forward_headers: if h in request_headers: headers[h] = ...] *)
Fixpoint forward_loop (names : list pystr) (request_headers hs : headers) : headers :=
  match names with
  | [] => hs
  | h :: rest =>
      match hget h request_headers with
      | Some v => forward_loop rest request_headers (hset h v hs)
      | None => forward_loop rest request_headers hs
      end
  end.

(** [if request_headers:] is false for [None] and for an empty dict. *)
Definition given (request_headers : option headers) : option headers :=
  match request_headers with
  | Some ((_ :: _) as h) => Some h
  | _ => None
  end.

Definition oauth_headers (request_headers : option headers) (oauth_token : pyval)
  : headers :=
  let hs :=
    match given request_headers with
    | Some rh => forward_loop forward_headers rh []
    | None => []
    end in
  let hs := hset (lit "authorization") (lit "Bearer " ++ str_of oauth_token) hs in
  let hs :=
    hset (lit "anthropic-version")
      match given request_headers with
      | Some rh =>
          match hget (lit "anthropic-version") rh with
          | Some v => v
          | None => lit "2023-06-01"
          end
      | None => lit "2023-06-01"
      end hs in
  let hs := hset (lit "content-type") (lit "application/json") hs in
  let hs := hset (lit "accept") (lit "application/json") hs in
  let existing_beta :=
    match hget (lit "anthropic-beta") hs with
    | Some v => v
    | None => []
    end in
  if negb (contains (lit "oauth-2025-04-20") existing_beta) then
    match existing_beta with
    | _ :: _ => hset (lit "anthropic-beta") (lit "oauth-2025-04-20," ++ existing_beta) hs
    | [] => hset (lit "anthropic-beta") (lit "oauth-2025-04-20") hs
    end
  else hs.

Definition zai_headers (zai_api_key : pystr) : headers :=
  [ (lit "x-api-key", zai_api_key);
    (lit "anthropic-version", lit "2023-06-01");
    (lit "Content-Type", lit "application/json") ].

(** *** Body normalisation on the OAuth route *)

Definition CLAUDE_CODE_SYSTEM_PREFIX : pystr :=
  lit "You are Claude Code, Anthropic's official CLI for Claude.".

Definition needs_injection (system_prompt : pyval) : result bool :=
  if negb (truthy system_prompt) then Ok true
  else
    match system_prompt with
    | PList [] => Ok true
    | PList (first_block :: _) =>
        match first_block with
        | PDict _ =>
            text <- get first_block (lit "text") (PStr []) ;;
            match text with
            | PStr t => Ok (negb (startswith CLAUDE_CODE_SYSTEM_PREFIX t))
            | _ => Raise AttributeError
            end
        | _ => Ok true
        end
    | PStr s => Ok (negb (startswith CLAUDE_CODE_SYSTEM_PREFIX s))
    | _ => Ok false
    end.

Definition claude_code_block : pyval :=
  PDict [ (KStr (lit "type"), PStr (lit "text"));
          (KStr (lit "text"), PStr CLAUDE_CODE_SYSTEM_PREFIX);
          (KStr (lit "cache_control"),
           PDict [ (KStr (lit "type"), PStr (lit "ephemeral")) ]) ].

Definition inject (system_prompt body : pyval) : result pyval :=
  if negb (truthy system_prompt) then
    setitem body (lit "system") (PList [claude_code_block])
  else
    match system_prompt with
    | PList blocks =>
        setitem body (lit "system") (PList (claude_code_block :: blocks))
    | PStr s =>
        setitem body (lit "system")
          (PList [ claude_code_block;
                   PDict [ (KStr (lit "type"), PStr (lit "text"));
                           (KStr (lit "text"), PStr s) ] ])
    | _ => Ok body
    end.

(** [del v[k]] *)
Definition delitem (v : pyval) (k : pystr) : result pyval :=
  match v with
  | PDict d =>
      if dict_mem (KStr k) d then Ok (PDict (dict_del (KStr k) d))
      else Raise KeyError
  | _ => Raise TypeError
  end.

(** The system prompt, [tools] and [temperature] steps. *)
Definition normalize_fields (body : pyval) : result pyval :=
  system_prompt <- get body (lit "system") PNone ;;
  needs <- needs_injection system_prompt ;;
  body <- (if needs then inject system_prompt body else Ok body) ;;
  has_tools <- contains_str (lit "tools") body ;;
  body <- (if has_tools then Ok body else setitem body (lit "tools") (PList [])) ;;
  has_temperature <- contains_str (lit "temperature") body ;;
  if has_temperature then delitem body (lit "temperature") else Ok body.

Definition metadata_user_id (user_id account_uuid : pyval) : pystr :=
  lit "user_" ++ str_of user_id ++ lit "_account_" ++ str_of account_uuid
  ++ lit "_session_" ++ _SESSION_ID.

(** The [metadata.user_id] step; it asks the credential cache again. *)
Definition inject_metadata (body : pyval) (st : state) (current_time : Z) (d : disk)
  : result pyval * state :=
  match
    (has_metadata <- contains_str (lit "metadata") body ;;
     body <- (if has_metadata then Ok body
              else setitem body (lit "metadata") (PDict [])) ;;
     metadata <- getitem body (lit "metadata") ;;
     has_user_id <- contains_str (lit "user_id") metadata ;;
     Ok (body, metadata, has_user_id))
  with
  | Raise e => (Raise e, st)
  | Ok (body, metadata, has_user_id) =>
      if has_user_id then (Ok body, st)
      else
        let r := load_oauth_credentials false st current_time d in
        let user_id := por (snd (fst (fst r))) (PStr (lit "anonymous")) in
        let account_uuid := por (snd (fst r)) (PStr (lit "default")) in
        (metadata <- setitem metadata (lit "user_id")
                       (PStr (metadata_user_id user_id account_uuid)) ;;
         body <- setitem body (lit "metadata") metadata ;;
         (* the new [user_id] is printed *)
         shown <- print [PStr (metadata_user_id user_id account_uuid)] ;;
         Ok body,
         snd r)
  end.

Definition normalize_body (body : pyval) (st : state) (current_time : Z) (d : disk)
  : result pyval * state :=
  match normalize_fields body with
  | Ok body => inject_metadata body st current_time d
  | Raise e => (Raise e, st)
  end.

(** *** _handle_messages_request, up to the outbound call *)

Inductive response : Type :=
| JSONResponse (status_code : Z) (error_type : pystr).

Record outbound : Type := mkOutbound {
  api_url : pystr;
  out_headers : headers;
  out_body : pyval;
  is_zai_route : bool;
  is_streaming : bool
}.

(** The [try: determine_routing(...) except Exception: ...] block; the
    message of the exception it prints is ASCII. *)
Definition route (body agent_registry : pyval) (ZAI_API_KEY : option pystr)
    (original_model : pyval) : routing :=
  match determine_routing body agent_registry ZAI_API_KEY with
  | Ok r => r
  | Raise _ => mkRouting default_api_base original_model None
  end.

Definition internal_error : response := JSONResponse 500 (lit "internal_error").

Definition streaming_of (body : pyval) : result bool :=
  s <- get body (lit "stream") (PBool false) ;; Ok (truthy s).

(** The debug print of the first 200 characters of the system prompt:
    of [str(system[0])] for a non-empty list, of [system] for a string. *)
Definition debug_system (body : pyval) : result unit :=
  system <- get body (lit "system") (PStr (lit "NO SYSTEM PROMPT")) ;;
  match system with
  | PList (PStr s :: _) => print [PStr (firstn 200 s)]
  | PStr s => print [PStr (firstn 200 s)]
  | _ => Ok tt
  end.

Definition _handle_messages_request
    (request_body : result pyval) (request_headers : option headers)
    (agent_registry : pyval) (ZAI_API_KEY : option pystr)
    (st : state) (current_time : Z) (d : disk)
  : (response + outbound) * state :=
  match
    (body <- request_body ;;
     original_model <- get body (lit "model") (PStr (lit "claude-sonnet-4-20250514")) ;;
     shown <- print [original_model] ;;
     shown <- debug_system body ;;
     let r := route body agent_registry ZAI_API_KEY original_model in
     body <- setitem body (lit "model") (model r) ;;
     shown <- print [model r] ;;
     Ok (body, r, original_model))
  with
  | Raise _ => (inl internal_error, st)
  | Ok (body, r, original_model) =>
      match api_key r with
      | Some zai_api_key =>
          match streaming_of body with
          | Ok s =>
              (inr (mkOutbound (api_base r ++ lit "/v1/messages")
                      (zai_headers zai_api_key) body true s), st)
          | Raise _ => (inl internal_error, st)
          end
      | None =>
          match print [original_model; model r] with
          | Raise _ => (inl internal_error, st)
          | Ok _ =>
              let c := load_oauth_credentials false st current_time d in
              let oauth_token := fst (fst (fst c)) in
              if negb (truthy oauth_token) then
                (inl (JSONResponse 401 (lit "authentication_error")), snd c)
              else
                match print [snd (fst c)] with
                | Raise _ => (inl internal_error, snd c)
                | Ok _ =>
                    let hs := oauth_headers request_headers oauth_token in
                    let n := normalize_body body (snd c) current_time d in
                    match (body <- fst n ;; s <- streaming_of body ;; Ok (body, s)) with
                    | Ok (body, s) =>
                        (inr (mkOutbound (api_base r) hs body false s), snd n)
                    | Raise _ => (inl internal_error, snd n)
                    end
                end
          end
      end
  end.

End Runtime.

(** *** stream_response

    The async generator as a machine that is resumed by its consumer.
    [upstream] says how the HTTP client behaves during the call. *)



Inductive item : Type :=
| Chunk (b : bytes)                                   (* [yield chunk] *)
| ErrorEvent (status : Z) (message : pystr)           (* the event of the status check *)
| StreamingError (e : exn).                           (* the event of the [except] clause *)











End Callbacks.

(** ** The specification's fingerprint and registry shapes

    Definitions that follow the words of the specification, to be
    compared with the functions of the source. *)

Module Spec.

(** Index of the first occurrence of [marker] in [text]. *)
Fixpoint find (marker text : pystr) : option nat :=
  if startswith marker text then Some 0%nat
  else
    match text with
    | [] => None
    | _ :: rest => option_map S (find marker rest)
    end.

(** The volatile-section markers in precedence order: two-newline-prefixed,
    single-newline-prefixed, bare. *)
Definition marker : pystr := lit "Notes:".
Definition newline : codepoint := 10.
Arguments marker : simpl never.
Arguments newline : simpl never.
Definition markers : list pystr :=
  [ newline :: newline :: marker; newline :: marker; marker ].

(** The markers that take precedence over [m]. *)
Fixpoint earlier (ms : list pystr) (m : pystr) : list pystr :=
  match ms with
  | [] => []
  | x :: rest => if PyStr.eqb x m then [] else x :: earlier rest m
  end.

(** Truncate at the first occurrence of the first marker that matches;
    the full text if none does. *)
Fixpoint strip_volatile (ms : list pystr) (text : pystr) : pystr :=
  match ms with
  | [] => text
  | m :: rest =>
      match find m text with
      | Some i => firstn i text
      | None => strip_volatile rest text
      end
  end.

(** Trim, encode, hash, and keep the first sixteen hexadecimal digits. *)
Definition fingerprint (prompt : pystr) : result pystr :=
  data <- encode (strip (strip_volatile markers prompt)) ;;
  Ok (firstn 16%nat (SHA256.hexdigest data)).

(** The map an array of [{hash, model}] records denotes: the model of
    the last record with the given hash, the quality tier ["sonnet"]
    when the record names none. *)
Fixpoint agents_map (records : list (pykey * option pyval)) (k : pykey)
  : option pyval :=
  match records with
  | [] => None
  | (h, m) :: rest =>
      match agents_map rest k with
      | Some v => Some v
      | None =>
          if key_eqb k h
          then Some (match m with Some v => v | None => PStr (lit "sonnet") end)
          else None
      end
  end.

(** The text before the first occurrence of [m], all of it if there is
    none. *)
Definition before (m t : pystr) : pystr :=
  match find m t with
  | Some i => firstn i t
  | None => t
  end.

Definition newlines (v : pystr) : Prop := Forall (fun c => c = newline) v.

Definition spaces (v : pystr) : Prop := Forall (fun c => isspace c = true) v.

(** A record of the [agents] array: a dictionary whose ["hash"] can be
    a key, with or without a ["model"]. *)
Definition is_record (a : pyval) (r : pykey * option pyval) : Prop :=
  exists fields h,
    a = PDict fields /\
    dict_get (KStr (lit "hash")) fields = Some h /\
    to_key h = Ok (fst r) /\
    dict_get (KStr (lit "model")) fields = snd r.

(** The answer a call gets from a cached mapping [m]. *)
Definition cached_answer (m : pyval) (c : AgentHashes.call) : result pyval :=
  match c with
  | AgentHashes.GetModelForHash h => get m h PNone
  | _ => Ok m
  end.

Definition is_reload (c : AgentHashes.call) : bool :=
  match c with
  | AgentHashes.ReloadRegistry => true
  | _ => false
  end.

(** Stripping a prefix: [s] without its leading [pre], [s] itself when
    it does not start with [pre]. *)
Definition removeprefix (pre s : pystr) : pystr :=
  if startswith pre s then skipn (length pre) s else s.


(** A registry hit: the prompt's fingerprint is a key of the registry
    and maps to the alias [target_alias]. *)
Definition registry_hit (repr : pyval -> pystr) (body agent_registry : pyval)
    (target_alias : pystr) : Prop :=
  exists system_prompt agent_hash,
    Callbacks.system_prompt_of body = Ok system_prompt /\
    truthy system_prompt = true /\
    truthy agent_registry = true /\
    Callbacks.compute_agent_hash repr system_prompt = Ok agent_hash /\
    contains_str agent_hash agent_registry = Ok true /\
    getitem agent_registry agent_hash = Ok (PStr target_alias).

(** [request_headers.get(k)] where no headers count as none. *)
Definition lookup (k : pystr) (request_headers : option Callbacks.headers)
  : option pystr :=
  match request_headers with
  | Some h => Callbacks.hget k h
  | None => None
  end.

(** The system field begins with the canonical sentence: as the start
    of the string, or as the text of the first segment of the list. *)
Definition begins_with_prefix (system : pyval) : Prop :=
  match system with
  | PStr s => startswith Callbacks.CLAUDE_CODE_SYSTEM_PREFIX s = true
  | PList (PDict block :: _) =>
      exists t, dict_get (KStr (lit "text")) block = Some (PStr t) /\
                startswith Callbacks.CLAUDE_CODE_SYSTEM_PREFIX t = true
  | _ => False
  end.

(** The shapes of the system field: absent (or null), a string, a list. *)
Definition system_shape (body : pyval) : bool :=
  match get body (lit "system") PNone with
  | Ok PNone | Ok (PStr _) | Ok (PList _) => true
  | _ => false
  end.

(** The first segment of a list, when a dictionary, has a string for
    its text (or no text). *)
Definition first_text_ok (system : pyval) : bool :=
  match system with
  | PList (PDict block :: _) =>
      match dict_get (KStr (lit "text")) block with
      | Some (PStr _) | None => true
      | Some _ => false
      end
  | _ => true
  end.

Definition system_of (d : pydict) : pyval :=
  match dict_get (KStr (lit "system")) d with
  | Some v => v
  | None => PNone
  end.




(** The tokens of a list-valued header such as [anthropic-beta]: the
    comma-separated items, trimmed. *)
Definition header_tokens (v : pystr) : list pystr :=
  match split (lit ",") v with
  | Ok items => map strip items
  | Raise _ => []
  end.

(** The header value lists the token. *)
Definition has_token (token v : pystr) : bool :=
  existsb (PyStr.eqb token) (header_tokens v).

(** A stand-in for [str] on values that are not strings, for the
    examples: the three constants it prints without digits. *)
Definition repr_sample (v : pyval) : pystr :=
  match v with
  | PNone => lit "None"
  | PBool true => lit "True"
  | PBool false => lit "False"
  | _ => []
  end.

End Spec.

(** ** hooks/agent_routing_hook.py *)

Module AgentRoutingHook.

Section Runtime.

(** [str(v)] on a value that is not a string, as in callbacks.py. *)
Variable repr : pyval -> pystr.

(** [[m for m in messages if m.get("role") == "system"]] *)
Fixpoint filter_system (msgs : list pyval) : result (list pyval) :=
  match msgs with
  | [] => Ok []
  | m :: rest =>
      role <- get m (lit "role") PNone ;;
      kept <- filter_system rest ;;
      Ok (if eq_str role (lit "system") then m :: kept else kept)
  end.

Definition extract_system_messages (messages : pyval) : result (list pyval) :=
  msgs <- Callbacks.iter messages ;; filter_system msgs.

(** The strings [" ".join(...)] is given for a list content: the text of
    a dictionary item, [str(item)] of any other; [join] rejects a text
    that is not a string. *)
Fixpoint content_texts (items : list pyval) : result (list pystr) :=
  match items with
  | [] => Ok []
  | item :: rest =>
      t <- match item with
           | PDict _ =>
               text <- get item (lit "text") (PStr []) ;;
               match text with
               | PStr s => Ok s
               | _ => Raise TypeError
               end
           | _ => Ok (Callbacks.str_of repr item)
           end ;;
      ts <- content_texts rest ;;
      Ok (t :: ts)
  end.

(** [if isinstance(content, list): content = " ".join(...)] *)
Definition flatten_content (content : pyval) : result pyval :=
  match content with
  | PList items => ts <- content_texts items ;; Ok (PStr (join (lit " ") ts))
  | _ => Ok content
  end.

(** [system_messages[i].get("content", "")] *)
Definition content_at (i : nat) (system_messages : list pyval) : result pyval :=
  match nth_error system_messages i with
  | Some m => get m (lit "content") (PStr [])
  | None => Raise IndexError
  end.

Definition is_claude_code_request (system_messages : list pyval) : result bool :=
  if (length system_messages <? 2)%nat then Ok false
  else
    first_content <- content_at 0 system_messages ;;
    first_content <- flatten_content first_content ;;
    contains_str (lit "Claude Code") first_content.

(** [compute_agent_hash(agent_content)] of utils.py on whatever the
    content is: only a string has [strip]; [in] fails on a number. *)
Definition hash_content (agent_content : pyval) : result pystr :=
  match agent_content with
  | PStr s => Utils.compute_agent_hash s true
  | PDict _ | PList _ => Raise AttributeError
  | _ => Raise TypeError
  end.

Definition extract_agent_hash (system_messages : list pyval)
  : result (option pystr) :=
  claude_code <- is_claude_code_request system_messages ;;
  if negb claude_code then Ok None
  else if (length system_messages <? 2)%nat then Ok None
  else
    agent_content <- content_at 1 system_messages ;;
    agent_content <- flatten_content agent_content ;;
    if negb (truthy agent_content) then Ok None
    else h <- hash_content agent_content ;; Ok (Some h).

(** What a call of the hook does: its return value, the request
    dictionary as the call leaves it (the hook updates it in place), the
    registry cache and the reads of the registry file. *)
Record outcome : Type := mkOutcome {
  ret : result pyval;
  data_after : pyval;
  registry_after : AgentHashes.state;
  reads : nat
}.

(** The three [data["metadata"][...] = ...] assignments. *)
Definition tag_metadata (data : pyval) (agent_hash : pystr) (original_model : pyval)
  : result pyval :=
  has_metadata <- contains_str (lit "metadata") data ;;
  data <- (if has_metadata then Ok data
           else Callbacks.setitem data (lit "metadata") (PDict [])) ;;
  metadata <- getitem data (lit "metadata") ;;
  metadata <- Callbacks.setitem metadata (lit "agent_hash") (PStr agent_hash) ;;
  metadata <- Callbacks.setitem metadata (lit "routed_from") original_model ;;
  metadata <- Callbacks.setitem metadata (lit "agent_routed") (PBool true) ;;
  Callbacks.setitem data (lit "metadata") metadata.

Definition async_pre_call_hook
    (data : pyval) (call_type : pystr)
    (st : AgentHashes.state) (backing : file) : outcome :=
  if negb (PyStr.eqb call_type (lit "completion")) then mkOutcome (Ok data) data st 0
  else
    match (messages <- get data (lit "messages") (PList []) ;;
           system_messages <- extract_system_messages messages ;;
           extract_agent_hash system_messages) with
    | Raise e => mkOutcome (Raise e) data st 0
    | Ok None => mkOutcome (Ok data) data st 0
    | Ok (Some []) => mkOutcome (Ok data) data st 0     (* [if not agent_hash] *)
    | Ok (Some ((_ :: _) as agent_hash)) =>
        (* get_model_for_agent *)
        let o := AgentHashes.load_registry st backing in
        match (registry <- AgentHashes.ret o ;;
               target_model <- get registry agent_hash PNone ;;
               original_model <- get data (lit "model") (PStr (lit "unknown")) ;;
               Ok (target_model, original_model)) with
        | Raise e => mkOutcome (Raise e) data (AgentHashes.after o) (AgentHashes.reads o)
        | Ok (target_model, original_model) =>
            if negb (truthy target_model) then
              mkOutcome (Ok data) data (AgentHashes.after o) (AgentHashes.reads o)
            else
              match Callbacks.setitem data (lit "model") target_model with
              | Raise e =>
                  mkOutcome (Raise e) data (AgentHashes.after o) (AgentHashes.reads o)
              | Ok data1 =>
                  match tag_metadata data1 agent_hash original_model with
                  | Ok data2 =>
                      mkOutcome (Ok data2) data2 (AgentHashes.after o)
                        (AgentHashes.reads o)
                  | Raise e =>
                      (* [data["model"]] is already assigned *)
                      mkOutcome (Raise e) data1
                        (AgentHashes.after o) (AgentHashes.reads o)
                  end
              end
        end
    end.

End Runtime.

End AgentRoutingHook.

(** ** generate_hashes.py *)

Module GenerateHashes.

(** [s.split(sep, maxsplit)]: at most [maxsplit] cuts, the rest of the
    text is the last piece. *)
Fixpoint split_max_from (sep : pystr) (maxsplit skip : nat) (cur s : pystr)
  : list pystr :=
  match s with
  | [] => [rev cur]
  | c :: s' =>
      match skip with
      | S k => split_max_from sep maxsplit k cur s'
      | O =>
          match maxsplit with
          | O => [rev cur ++ s]
          | S m =>
              if startswith sep s
              then rev cur :: split_max_from sep m (length sep - 1)%nat [] s'
              else split_max_from sep maxsplit 0 (c :: cur) s'
          end
      end
  end.

Definition split_max (sep : pystr) (maxsplit : nat) (s : pystr)
  : result (list pystr) :=
  match sep with
  | [] => Raise ValueError
  | _ :: _ => Ok (split_max_from sep maxsplit 0 [] s)
  end.

Definition extract_prompt_from_markdown (md_content : pystr) : result pystr :=
  parts <- split_max (lit "---") 2 md_content ;;
  if (length parts <? 3)%nat then Ok md_content
  else
    match nth_error parts 2 with
    | Some p => Ok (strip p)
    | None => Raise IndexError
    end.

End GenerateHashes.

(** ** Predicates of the properties below *)

Module Props.

(** A lowercase hexadecimal digit. *)
Definition is_hex (c : codepoint) : bool :=
  ((48 <=? c) && (c <=? 57)) || ((97 <=? c) && (c <=? 102)).

(** A Unicode scalar value: a code point that is not a surrogate. *)
Definition scalar (c : codepoint) : bool :=
  (c <? 55296) || ((57344 <=? c) && (c <? 1114112)).

(** A block the fingerprint of a list prompt reads: a dictionary of
    type ["text"]. *)
Definition is_text_block (block : pyval) : bool :=
  match block with
  | PDict d =>
      match dict_get (KStr (lit "type")) d with
      | Some ty => eq_str ty (lit "text")
      | None => false
      end
  | _ => false
  end.

(** A message [extract_system_prompt] passes over: a dictionary that is
    not a system message, or one whose content is neither a string nor a
    list. *)
Definition passed_over (msg : pyval) : bool :=
  match msg with
  | PDict d =>
      match dict_get (KStr (lit "role")) d with
      | Some role =>
          if eq_str role (lit "system") then
            match dict_get (KStr (lit "content")) d with
            | Some (PStr _) | Some (PList _) | None => false
            | Some _ => true
            end
          else true
      | None => true
      end
  | _ => false
  end.

(** The names an outbound request of the OAuth route can carry: the
    forwarded ones and the three the handler sets itself. *)
Definition oauth_header_names : list pystr :=
  Callbacks.forward_headers
  ++ [ lit "authorization"; lit "content-type"; lit "accept" ].

(** The fields of the body the handler may write on the OAuth route. *)
Definition normalized_keys : list pykey :=
  [ KStr (lit "model"); KStr (lit "system"); KStr (lit "tools");
    KStr (lit "temperature"); KStr (lit "metadata") ].

(** A dictionary has each key once. *)
Definition keys_unique (d : pydict) : Prop := NoDup (map fst d).

(** The credential cache of callbacks.py holds no token, or a token
    together with a user id and an account id. *)
Definition identified (st : Callbacks.state) : bool :=
  Callbacks.is_None (Callbacks._OAUTH_TOKEN_CACHE st)
  || (truthy (Callbacks._OAUTH_TOKEN_CACHE st)
      && truthy (Callbacks._OAUTH_USER_ID_CACHE st)
      && truthy (Callbacks._OAUTH_ACCOUNT_UUID_CACHE st)).

(** A record [load_agent_registry] cannot read: not a dictionary, or a
    dictionary without a ["hash"], or with one that cannot be a key. *)
Definition unreadable_record (a : pyval) : bool :=
  match (h <- getitem a (lit "hash") ;; to_key h) with
  | Ok _ => false
  | Raise _ => true
  end.

(** The prompt [extract_prompt_from_markdown] is to return: what
    follows the second ["---"], trimmed; the whole text, as it is, when
    there are fewer than two. *)
Definition after_frontmatter (md_content : pystr) : pystr :=
  match Spec.find (lit "---") md_content with
  | None => md_content
  | Some i =>
      let rest := skipn (i + 3) md_content in
      match Spec.find (lit "---") rest with
      | None => md_content
      | Some j => strip (skipn (j + 3) rest)
      end
  end.

(** A system message with the string [s] for its content. *)
Definition has_text (m : pyval) (s : pystr) : Prop :=
  get m (lit "content") (PStr []) = Ok (PStr s).

End Props.


(** * Properties *)

Import Spec.

(** ** Test vectors of the hash (FIPS 180-4, appendix B) *)

Example sha256_empty :
  SHA256.hexdigest []
  = lit "e3b0c44298fc1c149afbf4c8996fb92427ae41e4649b934ca495991b7852b855".
Proof. vm_compute. reflexivity. Qed.

Example sha256_abc :
  SHA256.hexdigest (lit "abc")
  = lit "ba7816bf8f01cfea414140de5dae2223b00361a396177a9cb410ff61f20015ad".
Proof. vm_compute. reflexivity. Qed.

Example sha256_two_blocks :
  SHA256.hexdigest
    (lit "abcdbcdecdefdefgefghfghighijhijkijkljklmklmnlmnomnopnopq")
  = lit "248d6a61d20638b8e5c026930c3e6039a33ce45964ff2167f6ecedd419db06c1".
Proof. vm_compute. reflexivity. Qed.

(** ** Strings *)

Section StringFacts.

Lemma eqb_refl (s : pystr) : PyStr.eqb s s = true.
Proof.
  induction s as [|c s IH]; simpl; [reflexivity|].
  now rewrite N.eqb_refl, IH.
Qed.

Lemma eqb_eq (a b : pystr) : PyStr.eqb a b = true <-> a = b.
Proof.
  split.
  - revert b; induction a as [|x a IH]; intros [|y b] H; simpl in H;
      try discriminate; [reflexivity|].
    apply andb_true_iff in H as [Hx Hr].
    apply N.eqb_eq in Hx. f_equal; auto.
  - intros ->. apply eqb_refl.
Qed.

Lemma eqb_neq (a b : pystr) : PyStr.eqb a b = false <-> a <> b.
Proof.
  split.
  - intros H E. apply eqb_eq in E. congruence.
  - intros H. destruct (PyStr.eqb a b) eqn:E; [|reflexivity].
    apply eqb_eq in E. contradiction.
Qed.

Lemma startswith_app (pre t : pystr) : startswith pre (pre ++ t) = true.
Proof.
  induction pre as [|c pre IH]; simpl; [reflexivity|].
  now rewrite N.eqb_refl, IH.
Qed.

Lemma startswith_inv (pre s : pystr) :
  startswith pre s = true -> exists t, s = pre ++ t.
Proof.
  revert s; induction pre as [|c pre IH]; intros s H.
  - now exists s.
  - destruct s as [|d s]; simpl in H; [discriminate|].
    apply andb_true_iff in H as [Hc Hr].
    apply N.eqb_eq in Hc; subst d.
    destruct (IH _ Hr) as [t ->]. now exists t.
Qed.

(** A match that runs over the end of [x] into a character the pattern
    does not have lies inside [x]. *)
Lemma startswith_boundary (n x y : pystr) (c : codepoint) :
  ~ In c n -> startswith n (x ++ c :: y) = true -> startswith n x = true.
Proof.
  revert x; induction n as [|a n IH]; intros x Hc H; [reflexivity|].
  destruct x as [|b x]; simpl in H.
  - apply andb_true_iff in H as [Ha _]. apply N.eqb_eq in Ha.
    exfalso. apply Hc. now left.
  - apply andb_true_iff in H as [Ha Hr]. simpl. rewrite Ha. simpl.
    apply IH; [|exact Hr]. intros Hin. apply Hc. now right.
Qed.

(** The same for a character that is the pattern's first one and occurs
    nowhere else in it: the match is inside [x] or [x] is empty. *)
Lemma startswith_no_overlap (a : codepoint) (n x y : pystr) :
  ~ In a n -> startswith (a :: n) (x ++ a :: y) = true ->
  x = [] \/ startswith (a :: n) x = true.
Proof.
  intros Ha H. destruct x as [|b x]; [now left|right].
  simpl in H. apply andb_true_iff in H as [Hb Hr].
  simpl. rewrite Hb. simpl. now apply startswith_boundary with (c := a) (y := y).
Qed.

Lemma contains_cons (sub : pystr) (c : codepoint) (s : pystr) :
  contains sub (c :: s) = startswith sub (c :: s) || contains sub s.
Proof. reflexivity. Qed.

Lemma contains_app_r (sub a b : pystr) :
  contains sub b = true -> contains sub (a ++ b) = true.
Proof.
  intros H. induction a as [|c a IH]; [exact H|].
  simpl app. rewrite contains_cons, IH. apply orb_true_r.
Qed.

Lemma contains_startswith (sub s : pystr) :
  startswith sub s = true -> contains sub s = true.
Proof. intros H. destruct s; simpl; rewrite H; reflexivity. Qed.

Lemma contains_mid (sub a b : pystr) : contains sub (a ++ sub ++ b) = true.
Proof. apply contains_app_r, contains_startswith, startswith_app. Qed.

Lemma contains_inv (sub s : pystr) :
  contains sub s = true -> exists a b, s = a ++ sub ++ b.
Proof.
  induction s as [|c s IH]; intros H.
  - simpl in H. rewrite orb_false_r in H.
    destruct (startswith_inv _ _ H) as [t Ht]. now exists [], t.
  - rewrite contains_cons in H. apply orb_true_iff in H as [H|H].
    + destruct (startswith_inv _ _ H) as [t Ht]. now exists [], t.
    + destruct (IH H) as (a & b & ->). now exists (c :: a), b.
Qed.

(** A text without [sub] has no part with [sub]. *)
Lemma contains_false_app (sub a b : pystr) :
  contains sub (a ++ b) = false -> contains sub a = false /\ contains sub b = false.
Proof.
  intros H. split.
  - destruct (contains sub a) eqn:E; [|reflexivity].
    destruct (contains_inv _ _ E) as (x & y & ->).
    rewrite <- !app_assoc in H. now rewrite contains_mid in H.
  - destruct (contains sub b) eqn:E; [|reflexivity].
    now rewrite contains_app_r in H.
Qed.

End StringFacts.

(** ** First occurrences and [split] *)

Section Occurrences.

Lemma find_contains (m t : pystr) :
  contains m t = match Spec.find m t with Some _ => true | None => false end.
Proof.
  induction t as [|c t IH].
  - simpl. destruct (startswith m []); reflexivity.
  - rewrite contains_cons. simpl Spec.find.
    destruct (startswith m (c :: t)); [reflexivity|].
    simpl. rewrite IH. destruct (Spec.find m t); reflexivity.
Qed.

Lemma find_none (m t : pystr) : Spec.find m t = None <-> contains m t = false.
Proof. rewrite find_contains. destruct (Spec.find m t); split; congruence. Qed.

Lemma before_cons (m : pystr) (c : codepoint) (t : pystr) :
  before m (c :: t) = if startswith m (c :: t) then [] else c :: before m t.
Proof.
  unfold before. simpl Spec.find.
  destruct (startswith m (c :: t)); [reflexivity|].
  destruct (Spec.find m t); reflexivity.
Qed.

Lemma before_absent (m t : pystr) : contains m t = false -> before m t = t.
Proof. intros H. apply find_none in H. unfold before. now rewrite H. Qed.

(** The first piece [split] returns is the text before the first
    occurrence of the separator. *)
Lemma split_from_head (sep cur s : pystr) :
  sep <> [] ->
  exists rest, split_from sep 0 cur s = (rev cur ++ before sep s) :: rest.
Proof.
  intros Hsep. revert cur; induction s as [|c s IH]; intros cur.
  - exists []. simpl. unfold before. simpl.
    destruct sep; [contradiction|]. simpl. now rewrite app_nil_r.
  - simpl split_from. rewrite before_cons.
    destruct (startswith sep (c :: s)).
    + eexists. now rewrite app_nil_r.
    + destruct (IH (c :: cur)) as [rest ->]. exists rest.
      simpl. now rewrite <- app_assoc.
Qed.

Lemma split_getitem0 (sep s : pystr) :
  sep <> [] ->
  (parts <- split sep s ;; getitem0 parts) = Ok (before sep s).
Proof.
  intros Hsep. destruct sep as [|a sep]; [contradiction|].
  unfold split. simpl bind.
  destruct (@split_from_head (a :: sep) [] s) as [rest ->]; [discriminate|].
  reflexivity.
Qed.

Lemma strip_notes_loop_spec (seps : list pystr) (prompt : pystr) :
  Forall (fun m => m <> []) seps ->
  Utils.strip_notes_loop seps prompt = Ok (Spec.strip_volatile seps prompt).
Proof.
  induction 1 as [|m seps Hm _ IH]; [reflexivity|].
  simpl. rewrite find_contains.
  destruct (Spec.find m prompt) as [i|] eqn:E.
  - rewrite (split_getitem0 prompt Hm). unfold before. now rewrite E.
  - exact IH.
Qed.

Lemma markers_nonempty : Forall (fun m : pystr => m <> []) Spec.markers.
Proof. repeat constructor; discriminate. Qed.

(** utils.py computes the specification's fingerprint. *)
Lemma utils_compute_agent_hash_spec (prompt : pystr) :
  Utils.compute_agent_hash prompt true = Spec.fingerprint prompt.
Proof.
  unfold Utils.compute_agent_hash, Spec.fingerprint.
  change Utils.NOTES_SEPARATORS with Spec.markers.
  now rewrite (strip_notes_loop_spec prompt markers_nonempty).
Qed.

End Occurrences.

(** ** The volatile section *)

Section Volatile.

Lemma before_startswith (m t : pystr) : startswith m t = true -> before m t = [].
Proof.
  intros H. unfold before. destruct t as [|c t]; simpl; rewrite H; reflexivity.
Qed.

Lemma newline_not_in_marker : ~ In newline marker.
Proof. cbv. intuition discriminate. Qed.

Lemma marker_no_overlap (x y : pystr) :
  startswith marker (x ++ marker ++ y) = true ->
  x = [] \/ startswith marker x = true.
Proof.
  apply (@startswith_no_overlap 78 (lit "otes:")).
  cbv. intuition discriminate.
Qed.

(** A separator cannot begin inside [q] when [q] has no marker and the
    separator's own marker would begin inside [q] too. *)
Lemma separator_inside (v q s : pystr) :
  startswith (v ++ marker) (q ++ marker ++ s) = true ->
  (length v < length q)%nat -> contains marker q = true.
Proof.
  revert q; induction v as [|c v IH]; intros q H Hlen.
  - destruct (marker_no_overlap _ _ H) as [->|Hq].
    + simpl in Hlen. lia.
    + now apply contains_startswith.
  - destruct q as [|b q]; [simpl in Hlen; lia|].
    simpl in H. apply andb_true_iff in H as [_ H].
    rewrite contains_cons. rewrite (IH q H); [apply orb_true_r|].
    simpl in Hlen. lia.
Qed.

(** Where [q] ends with the separator's newlines, the separator is first
    found right there. *)
Lemma before_separator (v x s : pystr) :
  contains marker (x ++ v) = false ->
  before (v ++ marker) (x ++ v ++ marker ++ s) = x.
Proof.
  intros Hq. induction x as [|c x IH].
  - apply before_startswith. rewrite app_nil_l, app_assoc. apply startswith_app.
  - rewrite <- app_comm_cons, before_cons.
    destruct (startswith (v ++ marker) (c :: x ++ v ++ marker ++ s)) eqn:E.
    + exfalso.
      assert (Hc : contains marker ((c :: x) ++ v) = true).
      { apply separator_inside with (v := v) (s := s).
        - now rewrite <- app_assoc.
        - rewrite length_app. simpl. lia. }
      congruence.
    + f_equal. apply IH.
      rewrite <- app_comm_cons, contains_cons in Hq.
      now apply orb_false_iff in Hq as [_ Hq].
Qed.

Lemma contains_skip (c : codepoint) (m n s : pystr) :
  ~ In c n -> contains (c :: m) (n ++ s) = contains (c :: m) s.
Proof.
  intros Hc. induction n as [|a n IH]; [reflexivity|].
  simpl app. rewrite contains_cons, IH.
  - simpl. destruct (N.eqb_spec c a) as [->|_]; [|reflexivity].
    exfalso. apply Hc. now left.
  - intros Hin. apply Hc. now right.
Qed.

(** With no separator in [s], one is found in [q ++ marker ++ s] only
    with its marker at the marker shown, so [q] ends with its newlines. *)
Lemma separator_found (v q s : pystr) :
  newlines v ->
  contains marker q = false ->
  contains (v ++ marker) s = false ->
  contains (v ++ marker) (q ++ marker ++ s) = true ->
  exists x, q = x ++ v.
Proof.
  intros Hv Hq Hs. induction q as [|b q IH]; intros H.
  - destruct v as [|c v]; [now exists []|].
    inversion Hv as [|? ? Hc _]; subst c.
    rewrite app_nil_l, <- app_comm_cons in H.
    rewrite (@contains_skip newline (v ++ marker) marker s newline_not_in_marker) in H.
    rewrite <- app_comm_cons in Hs. congruence.
  - rewrite <- app_comm_cons, contains_cons in H.
    rewrite contains_cons in Hq. apply orb_false_iff in Hq as [Hb Hq].
    destruct (startswith (v ++ marker) (b :: q ++ marker ++ s)) eqn:E.
    + (* the separator begins with [b :: q]: compare the lengths *)
      destruct (Nat.lt_ge_cases (length v) (length (b :: q))) as [Hl|Hl].
      * pose proof (@separator_inside v (b :: q) s E Hl) as Hc.
        rewrite contains_cons, Hb, Hq in Hc. discriminate.
      * destruct (startswith_inv _ _ E) as [t Ht].
        change (b :: q ++ marker ++ s) with ((b :: q) ++ marker ++ s) in Ht.
        rewrite <- app_assoc in Ht.
        apply app_eq_app in Ht as [l [[Hl1 Hl2]|[Hl1 Hl2]]].
        -- (* [b :: q = v ++ l] *)
           assert (l = []) as ->.
           { apply length_zero_iff_nil.
             apply (f_equal (@length _)) in Hl1. rewrite length_app in Hl1. lia. }
           exists []. now rewrite app_nil_r in Hl1.
        -- (* [v = (b :: q) ++ l] *)
           destruct l as [|c l].
           ++ exists []. now rewrite app_nil_r in Hl1.
           ++ exfalso. subst v.
              apply Forall_app in Hv as [_ Hv].
              inversion Hv as [|? ? Hc _]; subst c.
              cbv in Hl2. discriminate.
    + rewrite orb_false_l in H. destruct (IH Hq H) as [x ->]. now exists (b :: x).
Qed.

Lemma contains_marker_newlines (x v : pystr) :
  newlines v -> contains marker x = false -> contains marker (x ++ v) = false.
Proof.
  intros Hv Hx. induction x as [|b x IH].
  - rewrite app_nil_l. induction Hv as [|c v Hc _ IHv]; [reflexivity|].
    subst c. rewrite contains_cons, IHv. reflexivity.
  - rewrite <- app_comm_cons. rewrite contains_cons in *.
    apply orb_false_iff in Hx as [Hb Hx].
    rewrite (IH Hx), orb_false_r.
    destruct v as [|c v].
    + now rewrite app_nil_r.
    + inversion Hv as [|? ? Hc _]; subst c.
      destruct (startswith marker (b :: x ++ newline :: v)) eqn:E; [|reflexivity].
      change (b :: x ++ newline :: v) with ((b :: x) ++ newline :: v) in E.
      apply startswith_boundary in E; [congruence|apply newline_not_in_marker].
Qed.

(** [strip_volatile] through [contains] and [before]. *)
Lemma strip_volatile_cons (m : pystr) (ms : list pystr) (t : pystr) :
  strip_volatile (m :: ms) t =
  if contains m t then before m t else strip_volatile ms t.
Proof.
  simpl. rewrite find_contains. unfold before.
  destruct (find m t); reflexivity.
Qed.

(** Trailing whitespace does not survive [strip]. *)
Lemma lstrip_spaces (v z : pystr) : spaces v -> lstrip (v ++ z) = lstrip z.
Proof.
  induction 1 as [|c v Hc _ IH]; [reflexivity|]. simpl. now rewrite Hc.
Qed.

Lemma lstrip_app (x z : pystr) :
  lstrip (x ++ z) = match lstrip x with [] => lstrip z | y => y ++ z end.
Proof.
  induction x as [|c x IH]; simpl.
  - destruct (lstrip z); reflexivity.
  - destruct (isspace c); [exact IH|reflexivity].
Qed.

Lemma rstrip_spaces (y v : pystr) : spaces v -> rstrip (y ++ v) = rstrip y.
Proof.
  intros Hv. unfold rstrip. rewrite rev_app_distr.
  rewrite lstrip_spaces; [reflexivity|].
  now apply Forall_rev.
Qed.

Lemma strip_spaces (x v : pystr) : spaces v -> strip (x ++ v) = strip x.
Proof.
  intros Hv. unfold strip. rewrite lstrip_app.
  destruct (lstrip x) as [|c y] eqn:E.
  - rewrite <- (app_nil_r v), lstrip_spaces; [reflexivity|exact Hv].
  - now apply rstrip_spaces.
Qed.

Lemma newlines_spaces (v : pystr) : newlines v -> spaces v.
Proof. intros H. eapply Forall_impl; [|exact H]. now intros c ->. Qed.

(** Two texts that agree up to trailing newlines strip to the same. *)
Lemma strip_up_to_newlines (p w x v : pystr) :
  newlines w -> newlines v -> p ++ w = x ++ v -> strip x = strip p.
Proof.
  intros Hw Hv E.
  rewrite <- (@strip_spaces x v), <- (@strip_spaces p w);
    auto using newlines_spaces.
  now rewrite E.
Qed.

End Volatile.

(** ** Fingerprints *)

Section Fingerprints.

Lemma separator_has_marker (v p : pystr) :
  contains marker p = false -> contains (v ++ marker) p = false.
Proof.
  intros H. destruct (contains (v ++ marker) p) eqn:E; [|reflexivity].
  destruct (contains_inv _ _ E) as (a & b & ->).
  rewrite <- app_assoc, app_assoc, contains_mid in H. discriminate.
Qed.

Lemma strip_volatile_clean (p : pystr) :
  contains marker p = false -> strip_volatile markers p = p.
Proof.
  intros H. unfold markers. rewrite !strip_volatile_cons.
  pose proof (@separator_has_marker [newline; newline] p H) as H2.
  pose proof (@separator_has_marker [newline] p H) as H1.
  change ([newline; newline] ++ marker) with (newline :: newline :: marker) in H2.
  change ([newline] ++ marker) with (newline :: marker) in H1.
  now rewrite H2, H1, H.
Qed.

(** One separator of [q ++ marker ++ s]: found where [q] ends with its
    newlines, and nowhere else unless [s] has it. *)
Lemma separator_step (v q s : pystr) :
  newlines v ->
  contains marker q = false ->
  contains (v ++ marker) s = false \/ (exists x, q = x ++ v) ->
  if contains (v ++ marker) (q ++ marker ++ s)
  then exists x, q = x ++ v /\ before (v ++ marker) (q ++ marker ++ s) = x
  else True.
Proof.
  intros Hv Hq Hs.
  destruct (contains (v ++ marker) (q ++ marker ++ s)) eqn:E; [|exact I].
  assert (Hx : exists x, q = x ++ v).
  { destruct Hs as [Hs|Hx]; [|exact Hx].
    now apply separator_found with (s := s). }
  destruct Hx as [x ->]. exists x. split; [reflexivity|].
  rewrite <- app_assoc. now apply before_separator.
Qed.

Lemma newlines_1 : newlines [newline].
Proof. repeat constructor. Qed.

Lemma newlines_2 : newlines [newline; newline].
Proof. repeat constructor. Qed.

Lemma newlines_0 : newlines [].
Proof. constructor. Qed.

(** What is left of [p ++ m ++ s] is [p] up to trailing newlines. *)
Lemma strip_volatile_suffix (p m s : pystr) :
  In m markers ->
  contains marker p = false ->
  Forall (fun m' => contains m' s = false) (earlier markers m) ->
  exists x v w, newlines v /\ newlines w /\ p ++ w = x ++ v /\
                strip_volatile markers (p ++ m ++ s) = x.
Proof.
  intros Hm Hp Hs. unfold markers in Hm. simpl in Hm.
  destruct Hm as [<-|[<-|[<-|[]]]].
  - (* the two-newline separator *)
    exists p, [], []. repeat split; try apply newlines_0.
    unfold markers. rewrite strip_volatile_cons. rewrite contains_mid.
    change (p ++ (newline :: newline :: marker) ++ s)
      with (p ++ [newline; newline] ++ marker ++ s).
    apply (@before_separator [newline; newline]).
    apply contains_marker_newlines; [apply newlines_2|exact Hp].
  - (* the one-newline separator *)
    assert (H2 : contains ([newline; newline] ++ marker) s = false).
    { change (earlier markers (newline :: marker))
        with [newline :: newline :: marker] in Hs.
      now inversion Hs. }
    assert (Hq : contains marker (p ++ [newline]) = false).
    { apply contains_marker_newlines; [apply newlines_1|exact Hp]. }
    change (p ++ (newline :: marker) ++ s) with (p ++ [newline] ++ marker ++ s).
    rewrite (app_assoc p [newline]).
    unfold markers. rewrite strip_volatile_cons.
    pose proof (@separator_step [newline; newline] (p ++ [newline]) s
                  newlines_2 Hq (or_introl H2)) as S2.
    change (newline :: newline :: marker) with ([newline; newline] ++ marker).
    destruct (contains ([newline; newline] ++ marker)
                ((p ++ [newline]) ++ marker ++ s)).
    + destruct S2 as (x & Hx & ->).
      exists x, [newline; newline], [newline].
      repeat split; auto using newlines_1, newlines_2.
    + rewrite strip_volatile_cons.
      rewrite <- (app_assoc p [newline]).
      change (p ++ [newline] ++ marker ++ s)
        with (p ++ (newline :: marker) ++ s) at 1.
      rewrite contains_mid.
      exists p, [], []. repeat split; try apply newlines_0.
      apply (@before_separator [newline]). exact Hq.
  - (* the bare marker *)
    change (earlier markers marker)
      with [newline :: newline :: marker; newline :: marker] in Hs.
    inversion Hs as [|? ? H2 Hs']; subst.
    inversion Hs' as [|? ? H1 _]; subst.
    change (newline :: newline :: marker) with ([newline; newline] ++ marker) in H2.
    change (newline :: marker) with ([newline] ++ marker) in H1.
    unfold markers. rewrite strip_volatile_cons.
    pose proof (@separator_step [newline; newline] p s
                  newlines_2 Hp (or_introl H2)) as S2.
    change (newline :: newline :: marker) with ([newline; newline] ++ marker).
    destruct (contains ([newline; newline] ++ marker) (p ++ marker ++ s)).
    + destruct S2 as (x & Hx & ->).
      exists x, [newline; newline], []. rewrite app_nil_r.
      repeat split; auto using newlines_0, newlines_2.
    + rewrite strip_volatile_cons.
      pose proof (@separator_step [newline] p s
                    newlines_1 Hp (or_introl H1)) as S1.
      change (newline :: marker) with ([newline] ++ marker).
      destruct (contains ([newline] ++ marker) (p ++ marker ++ s)).
      * destruct S1 as (x & Hx & ->).
        exists x, [newline], []. rewrite app_nil_r.
        repeat split; auto using newlines_0, newlines_1.
      * rewrite strip_volatile_cons, contains_mid.
        exists p, [], []. repeat split; try apply newlines_0.
        apply (@before_separator [] p s). now rewrite app_nil_r.
Qed.

(** C8 (as amended): for a prompt [p] without ["Notes:"], appending a
    volatile-section marker [m] and a suffix [s] in which no marker of
    higher precedence than [m] occurs leaves the fingerprint unchanged. *)
Theorem volatile_suffix_invariance (p m s : pystr) :
  In m Utils.NOTES_SEPARATORS ->
  contains (lit "Notes:") p = false ->
  Forall (fun m' => contains m' s = false) (earlier Utils.NOTES_SEPARATORS m) ->
  Utils.compute_agent_hash (p ++ m ++ s) true = Utils.compute_agent_hash p true.
Proof.
  intros Hm Hp Hs.
  rewrite !utils_compute_agent_hash_spec. unfold fingerprint.
  destruct (@strip_volatile_suffix p m s Hm Hp Hs) as (x & v & w & Hv & Hw & E & ->).
  rewrite (@strip_volatile_clean p Hp).
  now rewrite (@strip_up_to_newlines p w x v Hw Hv E).
Qed.

Lemma volatile_suffix_invariance_witness :
  Utils.compute_agent_hash
    (lit "You review code." ++ (10 :: lit "Notes:") ++ lit " it is Monday") true
  = Utils.compute_agent_hash (lit "You review code.") true.
Proof.
  apply volatile_suffix_invariance.
  - right. left. reflexivity.
  - reflexivity.
  - repeat constructor.
Defined.

(** C8 (as stated) fails: a prompt that mentions ["Notes:"] itself is cut
    there, and no longer once a two-newline marker follows. *)
Lemma volatile_suffix_counterexample :
  let p := lit "See Notes: below" in
  let m := 10 :: 10 :: lit "Notes:" in
  let s := lit " x" in
  In m Utils.NOTES_SEPARATORS /\
  Utils.compute_agent_hash p true = Ok (lit "6863067eb0a2c749") /\
  Utils.compute_agent_hash (p ++ m ++ s) true = Ok (lit "24f80dbba69eaa89") /\
  Utils.compute_agent_hash (p ++ m ++ s) true <> Utils.compute_agent_hash p true.
Proof.
  cbv zeta. split; [|split; [|split]].
  - left. reflexivity.
  - vm_compute. reflexivity.
  - vm_compute. reflexivity.
  - vm_compute. discriminate.
Qed.

End Fingerprints.

(** C1: the shared fingerprint of utils.py does what the specification
    says on every prompt, but the copy in callbacks.py does not: on a
    prompt with a two-newline ["Notes:"] section it cuts at the bare
    marker and does not trim, so it hashes ["A\n\n"] where the
    specification and utils.py hash ["A"]. *)
Theorem callbacks_fingerprint_diverges (repr : pyval -> pystr) :
  let prompt := lit "A" ++ [10; 10] ++ lit "Notes: x" in
  (forall p, Utils.compute_agent_hash p true = Spec.fingerprint p) /\
  Spec.fingerprint prompt = Ok (lit "559aead08264d579") /\
  Callbacks.compute_agent_hash repr (PStr prompt) = Ok (lit "19a3ed52c1c56d45").
Proof.
  cbv zeta. split; [|split].
  - apply utils_compute_agent_hash_spec.
  - vm_compute. reflexivity.
  - vm_compute. reflexivity.
Qed.

(** ** Dictionaries *)

Section Dictionaries.

Lemma key_eqb_eq (a b : pykey) : key_eqb a b = true <-> a = b.
Proof.
  destruct a, b; simpl; split; try congruence; try discriminate.
  - intros H. apply Z.eqb_eq in H. now subst.
  - intros [= ->]. apply Z.eqb_refl.
  - intros H. apply eqb_eq in H. now subst.
  - intros [= ->]. apply eqb_refl.
Qed.

Lemma key_eqb_refl (a : pykey) : key_eqb a a = true.
Proof. now apply key_eqb_eq. Qed.

Lemma dict_get_set (k k' : pykey) (v : pyval) (d : pydict) :
  dict_get k (dict_set k' v d) = if key_eqb k k' then Some v else dict_get k d.
Proof.
  induction d as [|[k0 v0] d IH]; simpl.
  - reflexivity.
  - destruct (key_eqb k' k0) eqn:E0; simpl.
    + apply key_eqb_eq in E0. subst k0.
      destruct (key_eqb k k'); reflexivity.
    + rewrite IH. destruct (key_eqb k k0) eqn:E1; [|reflexivity].
      apply key_eqb_eq in E1. subst k0.
      destruct (key_eqb k k') eqn:E2; [|reflexivity].
      apply key_eqb_eq in E2. subst k'. rewrite key_eqb_refl in E0. discriminate.
Qed.

Lemma dict_get_del (k k' : pykey) (d : pydict) :
  key_eqb k k' = false -> dict_get k (dict_del k' d) = dict_get k d.
Proof.
  intros Hk. induction d as [|[k0 v0] d IH]; simpl; [reflexivity|].
  destruct (key_eqb k' k0) eqn:E0; simpl.
  - apply key_eqb_eq in E0. subst k0. now rewrite Hk.
  - now rewrite IH.
Qed.

End Dictionaries.

(** ** The registry loaders *)

Section Registry.

Lemma agents_dict_spec (items : list pyval) (records : list (pykey * option pyval)) :
  Forall2 is_record items records ->
  forall acc, exists m,
    Callbacks.agents_dict items acc = Ok m /\
    forall k, dict_get k m =
              match Spec.agents_map records k with
              | Some v => Some v
              | None => dict_get k acc
              end.
Proof.
  induction 1 as [|a [h mo] items records Ha _ IH]; intros acc.
  - exists acc. split; [reflexivity|]. reflexivity.
  - destruct Ha as (fields & hv & -> & Hh & Hk & Hm). simpl in Hk, Hm.
    destruct (IH (dict_set h
                    (match mo with Some v => v | None => PStr (lit "sonnet") end)
                    acc)) as (m & Hrun & Hget).
    exists m. split.
    + cbn [Callbacks.agents_dict]. unfold getitem, get. rewrite Hh, Hm.
      cbn [bind]. rewrite Hk. cbn [bind]. exact Hrun.
    + intros k. rewrite Hget. simpl Spec.agents_map.
      destruct (Spec.agents_map records k); [reflexivity|].
      rewrite dict_get_set. now destruct (key_eqb k h).
Qed.

(** callbacks.py accepts the three payload shapes, in this order. *)
Lemma load_agent_registry_shapes (d : pydict) :
  (* 1. a [mappings] field is the map *)
  (forall m, dict_get (KStr (lit "mappings")) d = Some m ->
     Callbacks.load_agent_registry (Content (PDict d)) = m) /\
  (* 2. else an [agents] array of records denotes the map *)
  (forall items records,
     dict_get (KStr (lit "mappings")) d = None ->
     dict_get (KStr (lit "agents")) d = Some (PList items) ->
     Forall2 is_record items records ->
     exists m, Callbacks.load_agent_registry (Content (PDict d)) = PDict m /\
               forall k, dict_get k m = Spec.agents_map records k) /\
  (* 3. else the payload itself is the map *)
  (dict_get (KStr (lit "mappings")) d = None ->
   dict_get (KStr (lit "agents")) d = None ->
   Callbacks.load_agent_registry (Content (PDict d)) = PDict d).
Proof.
  unfold Callbacks.load_agent_registry, dict_mem, getitem. simpl bind.
  split; [|split].
  - intros m ->. reflexivity.
  - intros items records -> -> Hrec. simpl bind.
    destruct (@agents_dict_spec items records Hrec []) as (m & -> & Hget).
    exists m. split; [reflexivity|].
    intros k. rewrite Hget. simpl. now destruct (Spec.agents_map records k).
  - intros -> ->. reflexivity.
Qed.

(** C9: callbacks.py detects the three payload shapes, but
    registry/agent_hashes.py reads the [mappings] field only: an
    [agents] payload, or a bare map, gives it the empty mapping. *)
Theorem load_registry_misses_shapes :
  let record := PDict [ (KStr (lit "hash"), PStr (lit "559aead08264d579"));
                        (KStr (lit "model"), PStr (lit "opus")) ] in
  let agents := PDict [ (KStr (lit "agents"), PList [record]) ] in
  let bare := PDict [ (KStr (lit "559aead08264d579"), PStr (lit "opus")) ] in
  Callbacks.load_agent_registry (Content agents) = bare /\
  Callbacks.load_agent_registry (Content bare) = bare /\
  AgentHashes.ret (AgentHashes.load_registry AgentHashes.initial (Content agents))
    = Ok (PDict []) /\
  AgentHashes.ret (AgentHashes.load_registry AgentHashes.initial (Content bare))
    = Ok (PDict []).
Proof. cbv zeta. repeat split. Qed.

Lemma load_registry_returns (st : AgentHashes.state) (backing : file) (m : pyval) :
  AgentHashes.ret (AgentHashes.load_registry st backing) = Ok m ->
  AgentHashes.after (AgentHashes.load_registry st backing)
  = AgentHashes.mkState m true.
Proof.
  unfold AgentHashes.load_registry.
  destruct st as [reg [|]]; cbn [AgentHashes._REGISTRY_LOADED AgentHashes._AGENT_REGISTRY].
  - cbn. now intros [= ->].
  - destruct backing as [|e|v]; cbn [open_json].
    + cbn. now intros [= <-].
    + destruct e; cbn; try discriminate; now intros [= <-].
    + destruct (get v (lit "mappings") (PDict [])) as [a|]; [|discriminate].
      destruct (AgentHashes.sized a); cbn; [now intros [= ->]|discriminate].
Qed.

Lemma cached_call (m : pyval) (c : AgentHashes.call) (backing : file) :
  is_reload c = false ->
  AgentHashes.perform c (AgentHashes.mkState m true) backing
  = AgentHashes.mkOutcome (cached_answer m c) (AgentHashes.mkState m true) 0.
Proof.
  destruct c; simpl; try reflexivity; discriminate.
Qed.

(** C10: once a load has returned, even with the empty mapping of a
    missing or malformed file, every later [load_registry],
    [get_registry] and [get_model_for_hash] answers from the cached
    mapping, opens the backing file zero times whatever it holds by
    then, and leaves the cache as it is, as long as [reload_registry] is
    not among the calls. *)
Theorem registry_cached_until_reload
    (st : AgentHashes.state) (backing : file) (m : pyval)
    (calls : list (AgentHashes.call * file)) :
  AgentHashes.ret (AgentHashes.load_registry st backing) = Ok m ->
  forallb (fun c => negb (is_reload (fst c))) calls = true ->
  AgentHashes.run (AgentHashes.after (AgentHashes.load_registry st backing)) calls
  = map (fun c => AgentHashes.mkOutcome (cached_answer m (fst c))
                    (AgentHashes.mkState m true) 0) calls.
Proof.
  intros Hret Hcalls. rewrite (@load_registry_returns st backing m Hret).
  induction calls as [|[c f] calls IH]; [reflexivity|].
  simpl in Hcalls. apply andb_true_iff in Hcalls as [Hc Hrest].
  apply negb_true_iff in Hc.
  simpl. rewrite (@cached_call m c f Hc). simpl. now rewrite (IH Hrest).
Qed.

Lemma registry_cached_until_reload_witness :
  let fixed := Content (PDict [ (KStr (lit "mappings"),
                                 PDict [ (KStr (lit "abc"), PStr (lit "opus")) ]) ]) in
  AgentHashes.run
    (AgentHashes.after (AgentHashes.load_registry AgentHashes.initial Absent))
    [ (AgentHashes.LoadRegistry, fixed);
      (AgentHashes.GetModelForHash (lit "abc"), fixed) ]
  = [ AgentHashes.mkOutcome (Ok (PDict [])) (AgentHashes.mkState (PDict []) true) 0;
      AgentHashes.mkOutcome (Ok PNone) (AgentHashes.mkState (PDict []) true) 0 ].
Proof.
  cbv zeta.
  apply (@registry_cached_until_reload AgentHashes.initial Absent (PDict [])).
  - reflexivity.
  - reflexivity.
Defined.

End Registry.

(** ** The credential caches *)

Section Credentials.




End Credentials.

(** ** Routing *)

Section Routing.

Variable repr : pyval -> pystr.

(** The handler applies the same default when [determine_routing]
    raises. *)
Lemma route_on_exception (body agent_registry : pyval)
    (ZAI_API_KEY : option pystr) (original_model : pyval) (e : exn) :
  Callbacks.determine_routing repr body agent_registry ZAI_API_KEY = Raise e ->
  Callbacks.route repr body agent_registry ZAI_API_KEY original_model
  = Callbacks.mkRouting Callbacks.default_api_base original_model None.
Proof. intros H. unfold Callbacks.route. now rewrite H. Qed.

(** C2 (as amended): on a request body from which the system prompt
    can be read without an exception, [determine_routing] returns the
    default decision (the default upstream, the requested model as it
    came, and no alternate-provider key) when that system prompt is absent
    or empty, when the registry is empty, or when the fingerprint is not a
    key of the registry. *)
Theorem routing_falls_back_to_default
    (body agent_registry : pyval) (ZAI_API_KEY : option pystr)
    (original_model system_prompt : pyval) :
  get body (lit "model") (PStr (lit "claude-sonnet-4-20250514")) = Ok original_model ->
  Callbacks.system_prompt_of body = Ok system_prompt ->
  truthy system_prompt = false \/
  truthy agent_registry = false \/
  (exists agent_hash,
     Callbacks.compute_agent_hash repr system_prompt = Ok agent_hash /\
     contains_str agent_hash agent_registry = Ok false) ->
  Callbacks.determine_routing repr body agent_registry ZAI_API_KEY
  = Ok (Callbacks.mkRouting Callbacks.default_api_base original_model None).
Proof.
  intros Hm Hp H. unfold Callbacks.determine_routing.
  rewrite Hm, Hp. cbn [bind].
  destruct (truthy system_prompt) eqn:Es; [|reflexivity].
  destruct (truthy agent_registry) eqn:Er; [|reflexivity].
  destruct H as [H|[H|(h & Hh & Hc)]]; try discriminate.
  cbn [negb orb]. rewrite Hh. cbn [bind]. rewrite Hc. reflexivity.
Qed.

(** [replace] leaves a text without [old] alone, and removes a leading
    [old]. *)
Lemma replace_from_absent (old new s : pystr) :
  contains old s = false -> replace_from old new 0 s = s.
Proof.
  induction s as [|c s IH]; intros H; [reflexivity|].
  rewrite contains_cons in H. apply orb_false_iff in H as [H1 H2].
  cbn [replace_from]. rewrite H1. f_equal. now apply IH.
Qed.

Lemma replace_from_skip (old new x s : pystr) :
  replace_from old new (length x) (x ++ s) = replace_from old new 0 s.
Proof.
  induction x as [|c x IH]; [reflexivity|].
  cbn [length app replace_from]. exact IH.
Qed.

Lemma replace_leading (old new s : pystr) :
  old <> [] ->
  contains old s = false ->
  replace old new (old ++ s) = new ++ s.
Proof.
  intros Hold H. destruct old as [|c old]; [contradiction|].
  unfold replace.
  change ((c :: old) ++ s) with (c :: (old ++ s)).
  cbn [replace_from].
  change (c :: old ++ s) with ((c :: old) ++ s).
  rewrite startswith_app.
  replace (length (c :: old) - 1)%nat with (length old) by (simpl; lia).
  rewrite replace_from_skip.
  now rewrite replace_from_absent.
Qed.

Lemma routing_on_hit (body agent_registry : pyval) (ZAI_API_KEY : option pystr)
    (original_model : pyval) (target_alias : pystr) :
  get body (lit "model") (PStr (lit "claude-sonnet-4-20250514")) = Ok original_model ->
  registry_hit repr body agent_registry target_alias ->
  Callbacks.determine_routing repr body agent_registry ZAI_API_KEY =
  if startswith (lit "zai-") target_alias then
    if Callbacks.key_missing ZAI_API_KEY then
      Ok (Callbacks.mkRouting Callbacks.default_api_base
            match Callbacks.table_get Callbacks.MODEL_ALIAS_MAP
                    (replace (lit "zai-") [] target_alias) with
            | Some m => PStr m
            | None => original_model
            end None)
    else
      match Callbacks.table_get Callbacks.ZAI_MODEL_MAP target_alias with
      | None => Ok (Callbacks.mkRouting Callbacks.default_api_base original_model None)
      | Some m => Ok (Callbacks.mkRouting Callbacks.ZAI_API_BASE (PStr m) ZAI_API_KEY)
      end
  else
    Ok (Callbacks.mkRouting Callbacks.default_api_base
          match Callbacks.table_get Callbacks.MODEL_ALIAS_MAP target_alias with
          | Some m => PStr m
          | None => original_model
          end None).
Proof.
  intros Hm (sp & h & Hp & Hs & Hr & Hh & Hc & Hg).
  unfold Callbacks.determine_routing.
  rewrite Hm, Hp. cbn [bind]. rewrite Hs, Hr. cbn [negb orb].
  rewrite Hh. cbn [bind]. rewrite Hc. cbn [bind negb]. rewrite Hg.
  reflexivity.
Qed.

(** The downgrade where the alias has the prefix once: without an
    alternate-provider key the bare alias goes through the primary
    table, against the default upstream. *)
Lemma zai_downgrade (body agent_registry : pyval) (original_model : pyval)
    (bare : pystr) (ZAI_API_KEY : option pystr) :
  get body (lit "model") (PStr (lit "claude-sonnet-4-20250514")) = Ok original_model ->
  registry_hit repr body agent_registry (lit "zai-" ++ bare) ->
  contains (lit "zai-") bare = false ->
  Callbacks.key_missing ZAI_API_KEY = true ->
  Callbacks.determine_routing repr body agent_registry ZAI_API_KEY
  = Ok (Callbacks.mkRouting Callbacks.default_api_base
          match Callbacks.table_get Callbacks.MODEL_ALIAS_MAP bare with
          | Some m => PStr m
          | None => original_model
          end None).
Proof.
  intros Hm Hit Hbare Hkey.
  rewrite (@routing_on_hit body agent_registry ZAI_API_KEY original_model _ Hm Hit).
  rewrite startswith_app, Hkey.
  rewrite (@replace_leading (lit "zai-") [] bare); [reflexivity|discriminate|exact Hbare].
Qed.

(** With a key configured, an alias the
    alternate-provider table does not know gives the default decision. *)
Lemma zai_unknown_alias (body agent_registry : pyval) (original_model : pyval)
    (target_alias : pystr) (ZAI_API_KEY : option pystr) :
  get body (lit "model") (PStr (lit "claude-sonnet-4-20250514")) = Ok original_model ->
  registry_hit repr body agent_registry target_alias ->
  startswith (lit "zai-") target_alias = true ->
  Callbacks.key_missing ZAI_API_KEY = false ->
  Callbacks.table_get Callbacks.ZAI_MODEL_MAP target_alias = None ->
  Callbacks.determine_routing repr body agent_registry ZAI_API_KEY
  = Ok (Callbacks.mkRouting Callbacks.default_api_base original_model None).
Proof.
  intros Hm Hit Hz Hkey Ht.
  rewrite (@routing_on_hit body agent_registry ZAI_API_KEY original_model _ Hm Hit).
  now rewrite Hz, Hkey, Ht.
Qed.

(** C3: without an alternate-provider key the code does not strip the
    prefix of the alias, it removes every ["zai-"] in it.  The alias
    ["zai-zai-opus"] has the bare alias ["zai-opus"], which the primary
    table does not know, so the requested model should pass through; the
    code resolves ["opus"] instead. *)
Theorem zai_downgrade_removes_every_occurrence :
  let body := PDict [ (KStr (lit "model"), PStr (lit "gpt-x"));
                      (KStr (lit "system"), PStr (lit "A")) ] in
  let registry := PDict [ (KStr (lit "559aead08264d579"),
                           PStr (lit "zai-zai-opus")) ] in
  removeprefix (lit "zai-") (lit "zai-zai-opus") = lit "zai-opus" /\
  Callbacks.table_get Callbacks.MODEL_ALIAS_MAP (lit "zai-opus") = None /\
  replace (lit "zai-") [] (lit "zai-zai-opus") = lit "opus" /\
  Callbacks.determine_routing repr body registry None
  = Ok (Callbacks.mkRouting Callbacks.default_api_base
          (PStr (lit "claude-opus-4-5-20251101")) None).
Proof. cbv zeta. repeat split; vm_compute; reflexivity. Qed.

End Routing.

Lemma routing_falls_back_to_default_witness :
  let body := PDict [ (KStr (lit "model"), PStr (lit "gpt-x"));
                      (KStr (lit "system"), PStr (lit "A")) ] in
  let registry := PDict [ (KStr (lit "0000000000000000"), PStr (lit "opus")) ] in
  Callbacks.determine_routing repr_sample body registry None
  = Ok (Callbacks.mkRouting Callbacks.default_api_base (PStr (lit "gpt-x")) None).
Proof.
  cbv zeta.
  apply routing_falls_back_to_default with (system_prompt := PStr (lit "A")).
  - reflexivity.
  - reflexivity.
  - right. right. exists (lit "559aead08264d579"). split; vm_compute; reflexivity.
Defined.

(** C2 (as stated) fails.  With an empty registry, a request whose
    messages are not dictionaries makes [determine_routing] raise where
    the claim has it return the default decision (the handler applies
    that decision itself when the call raises).  And a system field given
    as a list whose only text is empty has no prompt text, yet it is
    hashed and routed; the same empty text as a string gets the default
    decision. *)
Lemma routing_default_counterexample :
  let malformed := PDict [ (KStr (lit "model"), PStr (lit "gpt-x"));
                           (KStr (lit "messages"), PList [PStr (lit "hi")]) ] in
  let block := PDict [ (KStr (lit "type"), PStr (lit "text"));
                       (KStr (lit "text"), PStr []) ] in
  let as_list := PDict [ (KStr (lit "model"), PStr (lit "gpt-x"));
                         (KStr (lit "system"), PList [block]) ] in
  let as_string := PDict [ (KStr (lit "model"), PStr (lit "gpt-x"));
                           (KStr (lit "system"), PStr []) ] in
  let registry := PDict [ (KStr (lit "e3b0c44298fc1c14"), PStr (lit "opus")) ] in
  let fallback := Callbacks.mkRouting Callbacks.default_api_base
                    (PStr (lit "gpt-x")) None in
  Callbacks.determine_routing repr_sample malformed (PDict []) None
  = Raise AttributeError /\
  Callbacks.route repr_sample malformed (PDict []) None (PStr (lit "gpt-x"))
  = fallback /\
  Callbacks.join_text_blocks [block] = Ok [] /\
  Callbacks.determine_routing repr_sample as_list registry None
  = Ok (Callbacks.mkRouting Callbacks.default_api_base
          (PStr (lit "claude-opus-4-5-20251101")) None) /\
  Callbacks.determine_routing repr_sample as_list registry None <> Ok fallback /\
  Callbacks.determine_routing repr_sample as_string registry None = Ok fallback.
Proof.
  cbv zeta. split; [|split; [|split; [|split; [|split]]]];
    vm_compute; try reflexivity; discriminate.
Qed.

(** ** Outbound headers *)

Section Headers.

Variable repr : pyval -> pystr.
Variable _SESSION_ID : pystr.

Lemma hget_hset (k k' v : pystr) (h : Callbacks.headers) :
  Callbacks.hget k (Callbacks.hset k' v h)
  = if PyStr.eqb k k' then Some v else Callbacks.hget k h.
Proof.
  induction h as [|[k0 v0] h IH]; simpl; [reflexivity|].
  destruct (PyStr.eqb k' k0) eqn:E0; simpl.
  - apply eqb_eq in E0. subst k0. destruct (PyStr.eqb k k'); reflexivity.
  - rewrite IH. destruct (PyStr.eqb k k0) eqn:E1; [|reflexivity].
    apply eqb_eq in E1. subst k0.
    destruct (PyStr.eqb k k') eqn:E2; [|reflexivity].
    apply eqb_eq in E2. subst k'. rewrite eqb_refl in E0. discriminate.
Qed.

Lemma given_lookup (k : pystr) (rh : option Callbacks.headers) :
  match Callbacks.given rh with
  | Some h => Callbacks.hget k h
  | None => None
  end = lookup k rh.
Proof. destruct rh as [[|kv h]|]; reflexivity. Qed.

(** The forwarding loop only looks the listed names up. *)
Lemma forward_loop_lookup (names : list pystr) (h : Callbacks.headers)
    (f : pystr -> option pystr) (hs : Callbacks.headers) :
  (forall k, In k names -> Callbacks.hget k h = f k) ->
  Callbacks.forward_loop names h hs
  = fold_left (fun acc k => match f k with
                            | Some v => Callbacks.hset k v acc
                            | None => acc
                            end) names hs.
Proof.
  revert hs; induction names as [|n names IH]; intros hs H; [reflexivity|].
  simpl. rewrite (H n (or_introl eq_refl)).
  destruct (f n); apply IH; intros k Hk; apply H; now right.
Qed.

Lemma fold_nothing (names : list pystr) (hs : Callbacks.headers) :
  fold_left (fun acc k => match lookup k None with
                          | Some v => Callbacks.hset k v acc
                          | None => acc
                          end) names hs = hs.
Proof. induction names; simpl; auto. Qed.

(** The headers the loop forwards, through [lookup] alone. *)
Lemma forwarded_lookup (rh : option Callbacks.headers) :
  match Callbacks.given rh with
  | Some h => Callbacks.forward_loop Callbacks.forward_headers h []
  | None => []
  end
  = fold_left (fun acc k => match lookup k rh with
                            | Some v => Callbacks.hset k v acc
                            | None => acc
                            end) Callbacks.forward_headers [].
Proof.
  destruct rh as [[|kv h]|]; cbn [Callbacks.given].
  - symmetry. induction Callbacks.forward_headers; simpl; auto.
  - now apply forward_loop_lookup.
  - symmetry. apply fold_nothing.
Qed.

Lemma fold_lookup_ext (names : list pystr) (rh1 rh2 : option Callbacks.headers)
    (hs : Callbacks.headers) :
  (forall k, In k names -> lookup k rh1 = lookup k rh2) ->
  fold_left (fun acc k => match lookup k rh1 with
                          | Some v => Callbacks.hset k v acc
                          | None => acc
                          end) names hs
  = fold_left (fun acc k => match lookup k rh2 with
                            | Some v => Callbacks.hset k v acc
                            | None => acc
                            end) names hs.
Proof.
  revert hs; induction names as [|n names IH]; intros hs H; [reflexivity|].
  simpl. rewrite (H n (or_introl eq_refl)).
  apply IH. intros k Hk. apply H. now right.
Qed.

Lemma forward_headers_not_authorization (k : pystr) :
  In k Callbacks.forward_headers -> k <> lit "authorization".
Proof.
  intros H E. subst k. vm_compute in H.
  repeat (destruct H as [H|H]; [discriminate H|]). exact H.
Qed.

Lemma oauth_headers_agree (rh1 rh2 : option Callbacks.headers) (tok : pyval) :
  (forall k, k <> lit "authorization" -> lookup k rh1 = lookup k rh2) ->
  Callbacks.oauth_headers repr rh1 tok = Callbacks.oauth_headers repr rh2 tok.
Proof.
  intros H. unfold Callbacks.oauth_headers.
  rewrite !forwarded_lookup.
  rewrite (@fold_lookup_ext Callbacks.forward_headers rh1 rh2 []).
  2:{ intros k Hk. apply H. now apply forward_headers_not_authorization. }
  pose proof (given_lookup (lit "anthropic-version") rh1) as V1.
  pose proof (given_lookup (lit "anthropic-version") rh2) as V2.
  assert (V : lookup (lit "anthropic-version") rh1
              = lookup (lit "anthropic-version") rh2).
  { apply H. discriminate. }
  assert (E : match Callbacks.given rh1 with
              | Some rh => match Callbacks.hget (lit "anthropic-version") rh with
                           | Some v => v
                           | None => lit "2023-06-01"
                           end
              | None => lit "2023-06-01"
              end
              = match Callbacks.given rh2 with
                | Some rh => match Callbacks.hget (lit "anthropic-version") rh with
                             | Some v => v
                             | None => lit "2023-06-01"
                             end
                | None => lit "2023-06-01"
                end).
  { destruct (Callbacks.given rh1), (Callbacks.given rh2);
      rewrite <- V1, <- V2 in V; try rewrite V; try reflexivity.
    - now rewrite <- V.
  }
  now rewrite E.
Qed.

Lemma oauth_headers_authorization (rh : option Callbacks.headers) (tok : pyval) :
  Callbacks.hget (lit "authorization") (Callbacks.oauth_headers repr rh tok)
  = Some (lit "Bearer " ++ Callbacks.str_of repr tok).
Proof.
  unfold Callbacks.oauth_headers.
  set (hs0 := match Callbacks.given rh with
              | Some h => Callbacks.forward_loop Callbacks.forward_headers h []
              | None => []
              end).
  set (ver := match Callbacks.given rh with Some _ => _ | None => _ end).
  set (hs := Callbacks.hset (lit "accept") _ _).
  assert (Hhs : Callbacks.hget (lit "authorization") hs
                = Some (lit "Bearer " ++ Callbacks.str_of repr tok)).
  { unfold hs. rewrite !hget_hset.
    change (PyStr.eqb (lit "authorization") (lit "accept")) with false.
    change (PyStr.eqb (lit "authorization") (lit "content-type")) with false.
    change (PyStr.eqb (lit "authorization") (lit "anthropic-version")) with false.
    change (PyStr.eqb (lit "authorization") (lit "authorization")) with true.
    reflexivity. }
  destruct (negb (contains (lit "oauth-2025-04-20") _)); [|exact Hhs].
  destruct (match Callbacks.hget (lit "anthropic-beta") hs with
            | Some v => v | None => [] end);
    rewrite hget_hset;
    change (PyStr.eqb (lit "authorization") (lit "anthropic-beta")) with false;
    exact Hhs.
Qed.

Lemma oauth_headers_beta (rh : option Callbacks.headers) (tok : pyval) :
  exists beta,
    Callbacks.hget (lit "anthropic-beta") (Callbacks.oauth_headers repr rh tok)
    = Some beta /\
    contains (lit "oauth-2025-04-20") beta = true.
Proof.
  unfold Callbacks.oauth_headers.
  set (hs := Callbacks.hset (lit "accept") _ _).
  destruct (Callbacks.hget (lit "anthropic-beta") hs) as [v|] eqn:E.
  - destruct (contains (lit "oauth-2025-04-20") v) eqn:C; cbn [negb].
    + exists v. now split.
    + destruct v as [|c v].
      * exists (lit "oauth-2025-04-20"). split; [|reflexivity].
        rewrite hget_hset. now rewrite eqb_refl.
      * exists (lit "oauth-2025-04-20," ++ c :: v). split.
        -- rewrite hget_hset. now rewrite eqb_refl.
        -- change (lit "oauth-2025-04-20," ++ c :: v)
             with (lit "oauth-2025-04-20" ++ (44 :: c :: v)).
           apply contains_startswith, startswith_app.
  - change (contains (lit "oauth-2025-04-20") []) with false. cbn [negb].
    exists (lit "oauth-2025-04-20"). split; [|reflexivity].
    rewrite hget_hset. now rewrite eqb_refl.
Qed.

(** C5: two requests that differ only in the caller's authorization
    header are handled identically, outbound headers included; and
    on the OAuth route the outbound authorization header is ["Bearer "]
    followed by the token the credential cache returned. *)
Theorem authorization_never_forwarded
    (request_body : result pyval) (rh1 rh2 : option Callbacks.headers)
    (agent_registry : pyval) (ZAI_API_KEY : option pystr)
    (st : Callbacks.state) (current_time : Z) (d : Callbacks.disk) :
  (forall k, k <> lit "authorization" -> lookup k rh1 = lookup k rh2) ->
  Callbacks._handle_messages_request repr _SESSION_ID request_body rh1 agent_registry ZAI_API_KEY
    st current_time d
  = Callbacks._handle_messages_request repr _SESSION_ID request_body rh2 agent_registry ZAI_API_KEY
      st current_time d
  /\
  forall o st',
    Callbacks._handle_messages_request repr _SESSION_ID request_body rh1 agent_registry ZAI_API_KEY
      st current_time d = (inr o, st') ->
    Callbacks.is_zai_route o = false ->
    Callbacks.hget (lit "authorization") (Callbacks.out_headers o)
    = Some (lit "Bearer " ++
            Callbacks.str_of repr
              (fst (fst (fst (Callbacks.load_oauth_credentials false st
                                current_time d))))).
Proof.
  intros H. split.
  - unfold Callbacks._handle_messages_request.
    destruct (_ <- request_body ;; _) as [[[body r] original_model]|]; [|reflexivity].
    destruct (Callbacks.api_key r); [reflexivity|].
    now rewrite (@oauth_headers_agree rh1 rh2 _ H).
  - intros o st'. unfold Callbacks._handle_messages_request.
    destruct (_ <- request_body ;; _) as [[[body r] original_model]|]; [|discriminate].
    destruct (Callbacks.api_key r).
    + destruct (Callbacks.streaming_of body); [|discriminate].
      intros [= <- _]. discriminate.
    + destruct (Callbacks.print [original_model; _]); [|discriminate].
      destruct (negb (truthy _)); [discriminate|].
      destruct (Callbacks.print [_]); [|discriminate].
      destruct (_ <- fst _ ;; _) as [[body' s]|]; [|discriminate].
      intros [= <- _] _. cbn [Callbacks.out_headers].
      apply oauth_headers_authorization.
Qed.

End Headers.

Lemma authorization_never_forwarded_witness :
  let body := Ok (PDict [ (KStr (lit "model"), PStr (lit "claude-x")) ]) in
  let rh1 := Some [ (lit "authorization", lit "Bearer caller-a");
                    (lit "x-app", lit "cli") ] in
  let rh2 := Some [ (lit "x-app", lit "cli");
                    (lit "authorization", lit "Bearer caller-b") ] in
  let d := Callbacks.mkDisk
             (Content (PDict [ (KStr (lit "accessToken"), PStr (lit "tok")) ]))
             Absent Absent Absent in
  Callbacks._handle_messages_request repr_sample (lit "0a1b2c3d") body rh1 (PDict []) None Callbacks.initial 5 d
  = Callbacks._handle_messages_request repr_sample (lit "0a1b2c3d") body rh2 (PDict []) None Callbacks.initial 5 d.
Proof.
  cbv zeta. apply authorization_never_forwarded.
  intros k Hk. unfold lookup. cbn [Callbacks.hget].
  destruct (PyStr.eqb k (lit "authorization")) eqn:E.
  - apply eqb_eq in E. contradiction.
  - reflexivity.
Defined.

(** ** Body normalisation *)

Section Normalisation.

Variable repr : pyval -> pystr.
Variable _SESSION_ID : pystr.

Lemma block_begins (rest : list pyval) :
  begins_with_prefix (PList (Callbacks.claude_code_block :: rest)).
Proof.
  exists Callbacks.CLAUDE_CODE_SYSTEM_PREFIX. split; [reflexivity|].
  apply (@startswith_app Callbacks.CLAUDE_CODE_SYSTEM_PREFIX []).
Qed.

(** A key other than ["system"] does not touch the system field. *)
Lemma system_of_set (k : pystr) (v : pyval) (d : pydict) :
  PyStr.eqb (lit "system") k = false ->
  system_of (dict_set (KStr k) v d) = system_of d.
Proof.
  intros H. unfold system_of. rewrite dict_get_set.
  cbn [key_eqb]. now rewrite H.
Qed.

Lemma system_of_del (k : pystr) (d : pydict) :
  PyStr.eqb (lit "system") k = false ->
  system_of (dict_del (KStr k) d) = system_of d.
Proof.
  intros H. unfold system_of. now rewrite dict_get_del.
Qed.

Lemma system_of_set_system (v : pyval) (d : pydict) :
  system_of (dict_set (KStr (lit "system")) v d) = v.
Proof. unfold system_of. rewrite dict_get_set. now rewrite key_eqb_refl. Qed.

(** The injection step alone. *)
Lemma injection_begins (d : pydict) (body' : pyval) :
  system_shape (PDict d) = true ->
  (needs <- Callbacks.needs_injection (system_of d) ;;
   if needs then Callbacks.inject (system_of d) (PDict d) else Ok (PDict d))
  = Ok body' ->
  exists d', body' = PDict d' /\ begins_with_prefix (system_of d').
Proof.
  unfold system_shape, get. fold (system_of d).
  intros Hshape.
  unfold Callbacks.needs_injection, Callbacks.inject.
  destruct (system_of d) as [| | |s|l|] eqn:E; try discriminate.
  - (* absent *)
    cbn. intros [= <-]. eexists. split; [reflexivity|].
    rewrite system_of_set_system. apply block_begins.
  - (* a string *)
    destruct s as [|c s].
    + cbn. intros [= <-]. eexists. split; [reflexivity|].
      rewrite system_of_set_system. apply block_begins.
    + cbn [truthy negb bind].
      destruct (startswith Callbacks.CLAUDE_CODE_SYSTEM_PREFIX (c :: s)) eqn:P;
        cbn [negb Callbacks.setitem].
      * intros [= <-]. exists d. split; [reflexivity|]. now rewrite E.
      * intros [= <-]. eexists. split; [reflexivity|].
        rewrite system_of_set_system. apply block_begins.
  - (* a list *)
    destruct l as [|first rest].
    + cbn. intros [= <-]. eexists. split; [reflexivity|].
      rewrite system_of_set_system. apply block_begins.
    + cbn [truthy negb].
      destruct first as [| | | | |block];
        try (cbn [bind Callbacks.setitem]; intros [= <-]; eexists;
             split; [reflexivity|]; rewrite system_of_set_system;
             apply block_begins).
      unfold get.
      destruct (dict_get (KStr (lit "text")) block) as [text|] eqn:T.
      * cbn [bind]. destruct text as [| | |t| |]; try discriminate.
        cbn [bind].
        destruct (startswith Callbacks.CLAUDE_CODE_SYSTEM_PREFIX t) eqn:P;
          cbn [negb Callbacks.setitem].
        -- intros [= <-]. exists d. split; [reflexivity|]. rewrite E.
           cbn [begins_with_prefix]. now exists t.
        -- intros [= <-]. eexists. split; [reflexivity|].
           rewrite system_of_set_system. apply block_begins.
      * cbn [bind].
        change (startswith Callbacks.CLAUDE_CODE_SYSTEM_PREFIX []) with false.
        cbn [negb Callbacks.setitem].
        intros [= <-]. eexists. split; [reflexivity|].
        rewrite system_of_set_system. apply block_begins.
Qed.

Lemma normalize_fields_begins (d : pydict) (body' : pyval) :
  system_shape (PDict d) = true ->
  Callbacks.normalize_fields (PDict d) = Ok body' ->
  exists d', body' = PDict d' /\ begins_with_prefix (system_of d').
Proof.
  intros Hshape. unfold Callbacks.normalize_fields.
  unfold get at 1. fold (system_of d). cbn [bind].
  pose proof (@injection_begins d) as Hinj.
  destruct (Callbacks.needs_injection (system_of d)) as [needs|]; [|discriminate].
  cbn [bind] in *.
  destruct (if needs then Callbacks.inject (system_of d) (PDict d) else Ok (PDict d))
    as [body1|]; [|discriminate].
  destruct (Hinj body1 Hshape eq_refl) as (d1 & -> & Hb).
  cbn [bind contains_str].
  destruct (dict_mem (KStr (lit "tools")) d1); cbn [bind contains_str Callbacks.setitem].
  - destruct (dict_mem (KStr (lit "temperature")) d1) eqn:Ht.
    + unfold Callbacks.delitem. rewrite Ht. intros [= <-].
      eexists. split; [reflexivity|]. now rewrite system_of_del.
    + intros [= <-]. now exists d1.
  - destruct (dict_mem (KStr (lit "temperature")) _) eqn:Ht.
    + unfold Callbacks.delitem. rewrite Ht. intros [= <-].
      eexists. split; [reflexivity|].
      rewrite system_of_del, system_of_set; auto.
    + intros [= <-]. eexists. split; [reflexivity|].
      now rewrite system_of_set.
Qed.

(** The three steps succeed on every body with such a system field. *)
Lemma normalize_fields_total (d : pydict) :
  system_shape (PDict d) = true ->
  first_text_ok (system_of d) = true ->
  exists body', Callbacks.normalize_fields (PDict d) = Ok body'.
Proof.
  unfold system_shape, get. fold (system_of d). intros Hshape Htext.
  unfold Callbacks.normalize_fields.
  unfold get at 1. fold (system_of d). cbn [bind].
  assert (Hn : exists needs, Callbacks.needs_injection (system_of d) = Ok needs).
  { unfold Callbacks.needs_injection.
    destruct (system_of d) as [| | |s|l|]; try discriminate.
    - now eexists.
    - destruct s; now eexists.
    - destruct l as [|first rest]; [now eexists|].
      cbn [truthy negb]. destruct first as [| | | | |block]; try now eexists.
      unfold get. cbn [first_text_ok] in Htext.
      destruct (dict_get (KStr (lit "text")) block) as [[| | |t| |]|];
        try discriminate; now eexists. }
  destruct Hn as [needs ->]. cbn [bind].
  assert (Hi : exists d1,
             (if needs then Callbacks.inject (system_of d) (PDict d)
              else Ok (PDict d)) = Ok (PDict d1)).
  { destruct needs; [|now eexists]. unfold Callbacks.inject.
    destruct (system_of d) as [| | |s|l|]; try discriminate.
    - now eexists.
    - destruct (negb (truthy (PStr s))); now eexists.
    - destruct (negb (truthy (PList l))); now eexists. }
  destruct Hi as [d1 ->]. cbn [bind contains_str].
  destruct (dict_mem (KStr (lit "tools")) d1); cbn [bind contains_str Callbacks.setitem].
  - destruct (dict_mem (KStr (lit "temperature")) d1) eqn:Ht; [|now eexists].
    unfold Callbacks.delitem. rewrite Ht. now eexists.
  - destruct (dict_mem (KStr (lit "temperature")) _) eqn:Ht; [|now eexists].
    unfold Callbacks.delitem. rewrite Ht. now eexists.
Qed.

Lemma inject_metadata_system (d : pydict) (st : Callbacks.state)
    (current_time : Z) (dk : Callbacks.disk) (body' : pyval) :
  fst (Callbacks.inject_metadata repr _SESSION_ID (PDict d) st current_time dk)
  = Ok body' ->
  exists d', body' = PDict d' /\ system_of d' = system_of d.
Proof.
  unfold Callbacks.inject_metadata. cbn [contains_str bind].
  destruct (dict_mem (KStr (lit "metadata")) d) eqn:M; cbn [bind Callbacks.setitem].
  - unfold getitem.
    destruct (dict_get (KStr (lit "metadata")) d) as [metadata|]; [|discriminate].
    cbn [bind].
    destruct (contains_str (lit "user_id") metadata) as [[|]|]; cbn [bind fst];
      try discriminate.
    + intros [= <-]. now exists d.
    + destruct (Callbacks.setitem metadata _ _) as [metadata'|]; [|discriminate].
      cbn [bind Callbacks.setitem].
      destruct (Callbacks.print _); [|discriminate].
      cbn [bind]. intros [= <-].
      eexists. split; [reflexivity|]. now rewrite system_of_set.
  - unfold getitem. rewrite dict_get_set, key_eqb_refl. cbn [bind contains_str].
    change (dict_mem (KStr (lit "user_id")) []) with false. cbn [fst].
    cbn [bind Callbacks.setitem].
    destruct (Callbacks.print _); [|discriminate].
    cbn [bind]. intros [= <-].
    eexists. split; [reflexivity|]. now rewrite !system_of_set.
Qed.

(** X28: on the OAuth route, whether the system field is absent, a string
    or a list, the outbound system field begins with the Claude Code
    sentence: as the text of the first segment of the list the handler
    builds, or of the caller's own list or string when it already begins
    so. *)
Theorem oauth_route_system_begins_with_prefix
    (body : pyval) (request_headers : option Callbacks.headers)
    (agent_registry : pyval) (ZAI_API_KEY : option pystr)
    (st st' : Callbacks.state) (current_time : Z) (d : Callbacks.disk)
    (o : Callbacks.outbound) :
  Callbacks._handle_messages_request repr _SESSION_ID (Ok body) request_headers agent_registry
    ZAI_API_KEY st current_time d = (inr o, st') ->
  Callbacks.is_zai_route o = false ->
  system_shape body = true ->
  exists system,
    get (Callbacks.out_body o) (lit "system") PNone = Ok system /\
    begins_with_prefix system.
Proof.
  unfold Callbacks._handle_messages_request. cbn [bind].
  intros H Hroute Hshape.
  destruct body as [| | | | |b]; try discriminate.
  unfold get at 1 in H. cbn [bind] in H.
  destruct (Callbacks.print [_]); [|discriminate]. cbn [bind] in H.
  destruct (Callbacks.debug_system (PDict b)); [|discriminate].
  cbn [bind Callbacks.setitem] in H.
  set (r := Callbacks.route _ _ _ _ _) in H.
  destruct (Callbacks.print [Callbacks.model r]); [|discriminate].
  cbn [bind] in H.
  destruct (Callbacks.api_key r).
  { destruct (Callbacks.streaming_of _); [|discriminate].
    injection H as <- _. discriminate. }
  destruct (Callbacks.print [_; _]); [|discriminate].
  destruct (negb (truthy _)); [discriminate|].
  destruct (Callbacks.print [_]); [|discriminate].
  set (b1 := dict_set _ _ b) in H.
  unfold Callbacks.normalize_body in H.
  assert (Hshape1 : system_shape (PDict b1) = true).
  { unfold system_shape, get in *. unfold b1. rewrite dict_get_set.
    exact Hshape. }
  pose proof (@normalize_fields_begins b1) as Hn.
  destruct (Callbacks.normalize_fields (PDict b1)) as [body2|]; [|discriminate].
  destruct (Hn body2 Hshape1 eq_refl) as (b2 & -> & Hb2).
  pose proof (@inject_metadata_system b2 (snd (Callbacks.load_oauth_credentials
                  false st current_time d)) current_time d) as Hm.
  destruct (fst (Callbacks.inject_metadata _ _ _ _ _ _)) as [body3|];
    [|discriminate].
  destruct (Hm body3 eq_refl) as (b3 & -> & Hb3).
  cbn [bind] in H.
  destruct (Callbacks.streaming_of (PDict b3)); [|discriminate].
  cbn [bind] in H. injection H as <- _.
  cbn [Callbacks.out_body].
  exists (system_of b3). split; [reflexivity|]. now rewrite Hb3.
Qed.

End Normalisation.

Lemma oauth_route_system_begins_with_prefix_witness :
  let body := PDict [ (KStr (lit "model"), PStr (lit "claude-x"));
                      (KStr (lit "system"), PStr (lit "Be brief.")) ] in
  let rh := Some [ (lit "anthropic-beta", lit "prompt-caching-2024-07-31") ] in
  let d := Callbacks.mkDisk
             (Content (PDict [ (KStr (lit "accessToken"), PStr (lit "tok")) ]))
             Absent Absent Absent in
  exists o st',
    Callbacks._handle_messages_request repr_sample (lit "0a1b2c3d") (Ok body) rh (PDict []) None
      Callbacks.initial 5 d = (inr o, st') /\
    exists system,
      get (Callbacks.out_body o) (lit "system") PNone = Ok system /\
      begins_with_prefix system.
Proof.
  cbv zeta.
  destruct (Callbacks._handle_messages_request repr_sample (lit "0a1b2c3d") _ _ _ _ _ _ _)
    as [[r|o] st'] eqn:E.
  - vm_compute in E. discriminate E.
  - exists o, st'. split; [reflexivity|].
    assert (Hz : Callbacks.is_zai_route o = false).
    { pose proof E as E'. vm_compute in E'. injection E' as <- _. reflexivity. }
    exact (@oauth_route_system_begins_with_prefix repr_sample (lit "0a1b2c3d")
             _ _ _ _ _ _ _ _ _ E Hz eq_refl).
Defined.

(** C6: the handler means to make sure that the [anthropic-beta]
    header lists the token ["oauth-2025-04-20"], but it tests for the
    text anywhere in the caller's value.  A caller whose header lists
    ["oauth-2025-04-20-preview"] passes the test: nothing is inserted, and
    the outbound header does not list the token.  With a caller's value
    that lacks the text the token is put in front. *)
Theorem beta_token_missed_by_substring_test :
  let body := Ok (PDict [ (KStr (lit "model"), PStr (lit "claude-x")) ]) in
  let d := Callbacks.mkDisk
             (Content (PDict [ (KStr (lit "accessToken"), PStr (lit "tok")) ]))
             Absent Absent Absent in
  let outbound_beta beta :=
    match Callbacks._handle_messages_request repr_sample (lit "0a1b2c3d") body
            (Some [ (lit "anthropic-beta", beta) ]) (PDict []) None
            Callbacks.initial 5 d with
    | (inr o, _) =>
        if Callbacks.is_zai_route o then None
        else Callbacks.hget (lit "anthropic-beta") (Callbacks.out_headers o)
    | (inl _, _) => None
    end in
  let preview := lit "oauth-2025-04-20-preview,prompt-caching-2024-07-31" in
  outbound_beta preview = Some preview /\
  has_token (lit "oauth-2025-04-20") preview = false /\
  contains (lit "oauth-2025-04-20") preview = true /\
  outbound_beta (lit "prompt-caching-2024-07-31")
  = Some (lit "oauth-2025-04-20,prompt-caching-2024-07-31") /\
  has_token (lit "oauth-2025-04-20")
    (lit "oauth-2025-04-20,prompt-caching-2024-07-31") = true.
Proof.
  cbv zeta. split; [|split; [|split; [|split]]]; vm_compute; reflexivity.
Qed.

(** ** The streaming relay *)

Section Streaming.

Import Callbacks.













End Streaming.

(** * Further properties of the code *)

(** ** The shape of a fingerprint *)

Section Digest.

Import Props.

Lemma round_length (st : list N) (kw : N * N) :
  length (SHA256.round st kw) = length st.
Proof.
  unfold SHA256.round.
  repeat (destruct st as [|? st]; try reflexivity).
Qed.

Lemma fold_round_length (kws : list (N * N)) (st : list N) :
  length (fold_left SHA256.round kws st) = length st.
Proof.
  revert st; induction kws as [|kw kws IH]; intros st; [reflexivity|].
  simpl. now rewrite IH, round_length.
Qed.

Lemma compress_length (h block : list N) :
  length (SHA256.compress h block) = length h.
Proof.
  unfold SHA256.compress.
  rewrite length_map, length_combine, fold_round_length. apply Nat.min_id.
Qed.

Lemma blocks_length (fuel : nat) (h ws : list N) :
  length (SHA256.blocks fuel h ws) = length h.
Proof.
  revert h ws; induction fuel as [|fuel IH]; intros h ws; [reflexivity|].
  simpl. destruct ws; [reflexivity|]. now rewrite IH, compress_length.
Qed.

Lemma be_bytes_octets (n : nat) (x : N) :
  length (SHA256.be_bytes n x) = n /\
  Forall (fun b => b < 256) (SHA256.be_bytes n x).
Proof.
  induction n as [|n [IHl IHf]]; simpl; [split; [reflexivity|constructor]|].
  split; [now rewrite IHl|]. constructor; [|exact IHf].
  change 255 with (N.ones 8). rewrite N.land_ones.
  apply N.mod_lt. discriminate.
Qed.

Lemma digest_octets (msg : bytes) :
  length (SHA256.digest msg) = 32%nat /\
  Forall (fun b => b < 256) (SHA256.digest msg).
Proof.
  unfold SHA256.digest.
  set (ws := SHA256.words (SHA256.pad msg)).
  pose proof (blocks_length (length ws) SHA256.H0 ws) as HL.
  change (length SHA256.H0) with 8%nat in HL.
  destruct (SHA256.blocks (length ws) SHA256.H0 ws)
    as [|a [|b [|c [|d [|e [|f [|g [|h [|]]]]]]]]]; try discriminate.
  cbn [flat_map]. rewrite app_nil_r. split.
  - rewrite !length_app.
    now rewrite !(proj1 (be_bytes_octets 4 _)).
  - repeat (apply Forall_app; split); apply be_bytes_octets.
Qed.

Lemma hexdigit_is_hex (n : N) : n < 16 -> is_hex (SHA256.hexdigit n) = true.
Proof.
  intros H. unfold SHA256.hexdigit, is_hex.
  destruct (N.ltb_spec n 10).
  - apply orb_true_iff. left. apply andb_true_iff.
    split; apply N.leb_le; lia.
  - apply orb_true_iff. right. apply andb_true_iff.
    split; apply N.leb_le; lia.
Qed.

Lemma hex_of_octets (l : list N) :
  Forall (fun b => b < 256) l ->
  length (flat_map (fun b => [SHA256.hexdigit (N.shiftr b 4);
                              SHA256.hexdigit (N.land b 15)]) l)
  = (2 * length l)%nat /\
  forallb is_hex
    (flat_map (fun b => [SHA256.hexdigit (N.shiftr b 4);
                         SHA256.hexdigit (N.land b 15)]) l) = true.
Proof.
  induction 1 as [|b l Hb _ [IHl IHf]]; [split; reflexivity|].
  cbn [flat_map app length forallb]. split; [lia|].
  rewrite IHf, !hexdigit_is_hex; [reflexivity| |].
  - change 15 with (N.ones 4). rewrite N.land_ones.
    apply N.mod_lt. discriminate.
  - rewrite N.shiftr_div_pow2. change (2 ^ 4) with 16.
    apply N.Div0.div_lt_upper_bound. lia.
Qed.

Lemma hexdigest_shape (msg : bytes) :
  length (SHA256.hexdigest msg) = 64%nat /\
  forallb is_hex (SHA256.hexdigest msg) = true.
Proof.
  unfold SHA256.hexdigest.
  destruct (digest_octets msg) as [HL HF].
  destruct (hex_of_octets HF) as [GL GF].
  split; [|exact GF]. rewrite GL, HL. reflexivity.
Qed.

Lemma firstn_hex (n : nat) (s : pystr) :
  forallb is_hex s = true -> forallb is_hex (firstn n s) = true.
Proof.
  revert n; induction s as [|c s IH]; intros [|n] H; try reflexivity.
  simpl in *. apply andb_true_iff in H as [Hc Hs]. now rewrite Hc, IH.
Qed.

Lemma fingerprint_shape (msg : bytes) :
  length (firstn 16 (SHA256.hexdigest msg)) = 16%nat /\
  forallb is_hex (firstn 16 (SHA256.hexdigest msg)) = true.
Proof.
  destruct (hexdigest_shape msg) as [HL HF]. split.
  - rewrite length_firstn, HL. reflexivity.
  - now apply firstn_hex.
Qed.

Lemma utils_hash_length (prompt : pystr) (strip_notes : bool) (h : pystr) :
  Utils.compute_agent_hash prompt strip_notes = Ok h -> length h = 16%nat.
Proof.
  unfold Utils.compute_agent_hash. intros H.
  destruct (if strip_notes then _ else _) as [p|]; [|discriminate].
  cbn [bind] in H. destruct (encode (strip p)) as [data|]; [|discriminate].
  cbn [bind] in H. injection H as <-. apply fingerprint_shape.
Qed.

(** X1: whenever either [compute_agent_hash] returns, what it returns is
    sixteen lowercase hexadecimal digits. *)
Theorem compute_agent_hash_sixteen_hex
    (repr : pyval -> pystr) (prompt : pystr) (strip_notes : bool)
    (system_prompt : pyval) (h : pystr) :
  Utils.compute_agent_hash prompt strip_notes = Ok h \/
  Callbacks.compute_agent_hash repr system_prompt = Ok h ->
  length h = 16%nat /\ forallb is_hex h = true.
Proof.
  intros [H|H].
  - unfold Utils.compute_agent_hash in H.
    destruct (if strip_notes then _ else _) as [p|]; [|discriminate].
    cbn [bind] in H. destruct (encode (strip p)) as [data|]; [|discriminate].
    cbn [bind] in H. injection H as <-. apply fingerprint_shape.
  - unfold Callbacks.compute_agent_hash in H.
    destruct (match system_prompt with PList _ => _ | _ => _ end) as [sp|];
      [|discriminate].
    cbn [bind] in H.
    destruct (if contains _ _ then _ else _) as [t|]; [|discriminate].
    cbn [bind] in H. destruct (encode t) as [data|]; [|discriminate].
    cbn [bind] in H. injection H as <-. apply fingerprint_shape.
Qed.

Lemma compute_agent_hash_sixteen_hex_witness :
  length (lit "559aead08264d579") = 16%nat /\
  forallb is_hex (lit "559aead08264d579") = true.
Proof.
  apply (@compute_agent_hash_sixteen_hex repr_sample (lit "A") true PNone).
  left. vm_compute. reflexivity.
Defined.

End Digest.

(** ** The fingerprint of utils.py *)

Section UtilsFingerprint.

Import Props.

Lemma space_not_in_marker (c : codepoint) : isspace c = true -> ~ In c marker.
Proof.
  intros Hc Hin. vm_compute in Hin.
  repeat (destruct Hin as [<-|Hin]; [vm_compute in Hc; discriminate|]).
  exact Hin.
Qed.

(** Characters the pattern does not have cannot complete a match at the
    end of a text. *)
Lemma contains_tail (n x v : pystr) :
  n <> [] -> Forall (fun c => ~ In c n) v ->
  contains n x = false -> contains n (x ++ v) = false.
Proof.
  intros Hn Hv Hx. induction x as [|b x IH].
  - rewrite app_nil_l. clear Hx.
    induction Hv as [|c v Hc _ IHv].
    + destruct n; [contradiction|reflexivity].
    + rewrite contains_cons, IHv, orb_false_r.
      destruct n as [|a n]; [contradiction|]. simpl.
      destruct (N.eqb_spec a c) as [->|_]; [|reflexivity].
      exfalso. apply Hc. now left.
  - rewrite <- app_comm_cons. rewrite contains_cons in *.
    apply orb_false_iff in Hx as [Hb Hx].
    rewrite (IH Hx), orb_false_r.
    destruct v as [|c v]; [now rewrite app_nil_r|].
    inversion Hv as [|? ? Hc _]; subst.
    destruct (startswith n (b :: x ++ c :: v)) eqn:E; [|reflexivity].
    change (b :: x ++ c :: v) with ((b :: x) ++ c :: v) in E.
    apply startswith_boundary in E; [congruence|exact Hc].
Qed.

Lemma contains_lead (n x v : pystr) (a : codepoint) :
  ~ In a v -> contains (a :: n) (v ++ x) = contains (a :: n) x.
Proof. intros H. now apply contains_skip. Qed.

Lemma marker_absent_between (lead p trail : pystr) :
  spaces lead -> spaces trail -> contains marker p = false ->
  contains marker (lead ++ p ++ trail) = false.
Proof.
  intros Hl Ht Hp.
  change marker with (78 :: lit "otes:").
  rewrite contains_lead.
  - change (78 :: lit "otes:") with marker. apply contains_tail.
    + discriminate.
    + eapply Forall_impl; [|exact Ht]. apply space_not_in_marker.
    + exact Hp.
  - intros Hin. unfold spaces in Hl. rewrite Forall_forall in Hl.
    specialize (Hl _ Hin). vm_compute in Hl. discriminate.
Qed.

(** X2: for a prompt without ["Notes:"], whitespace before and after it does
    not change the fingerprint of utils.py. *)
Theorem fingerprint_ignores_surrounding_whitespace (lead p trail : pystr) :
  forallb isspace lead = true ->
  forallb isspace trail = true ->
  contains (lit "Notes:") p = false ->
  Utils.compute_agent_hash (lead ++ p ++ trail) true
  = Utils.compute_agent_hash p true.
Proof.
  intros Hl Ht Hp.
  assert (Sl : spaces lead) by (apply Forall_forall; now apply forallb_forall).
  assert (St : spaces trail) by (apply Forall_forall; now apply forallb_forall).
  rewrite !utils_compute_agent_hash_spec. unfold fingerprint.
  rewrite (@strip_volatile_clean p Hp).
  rewrite (@strip_volatile_clean _ (@marker_absent_between lead p trail Sl St Hp)).
  rewrite app_assoc, (@strip_spaces (lead ++ p) trail St).
  unfold strip. now rewrite (@lstrip_spaces lead p Sl).
Qed.

Lemma fingerprint_ignores_surrounding_whitespace_witness :
  Utils.compute_agent_hash ([10; 32] ++ lit "You review code." ++ [32; 10; 10]) true
  = Utils.compute_agent_hash (lit "You review code.") true.
Proof.
  apply fingerprint_ignores_surrounding_whitespace; reflexivity.
Defined.

Lemma encode_char_scalar (c : codepoint) :
  scalar c = true -> exists b, encode_char c = Ok b.
Proof.
  unfold scalar, encode_char. intros H.
  assert (R : c < 55296 \/ (57344 <= c /\ c < 1114112)).
  { apply orb_true_iff in H as [H|H].
    - left. now apply N.ltb_lt.
    - right. apply andb_true_iff in H as [H1 H2].
      split; [now apply N.leb_le|now apply N.ltb_lt]. }
  clear H.
  destruct (N.ltb_spec c 128); [now eexists|].
  destruct (N.ltb_spec c 2048); [now eexists|].
  destruct (N.leb_spec 55296 c); destruct (N.leb_spec c 57343); cbn [andb];
    try lia;
    (destruct (N.ltb_spec c 65536); [now eexists|]);
    (destruct (N.ltb_spec c 1114112); [now eexists|]); lia.
Qed.

Lemma encode_scalar (s : pystr) :
  Forall (fun c => scalar c = true) s -> exists data, encode s = Ok data.
Proof.
  induction 1 as [|c s Hc _ [data IH]]; [now exists []|].
  destruct (encode_char_scalar c Hc) as [b Hb].
  exists (b ++ data). simpl. now rewrite Hb, IH.
Qed.

Lemma Forall_lstrip (P : codepoint -> Prop) (s : pystr) :
  Forall P s -> Forall P (lstrip s).
Proof.
  induction 1 as [|c s Hc Hs IH]; [constructor|].
  simpl. destruct (isspace c); [exact IH|now constructor].
Qed.

Lemma Forall_strip (P : codepoint -> Prop) (s : pystr) :
  Forall P s -> Forall P (strip s).
Proof.
  intros H. unfold strip, rstrip.
  apply Forall_rev, Forall_lstrip, Forall_rev, Forall_lstrip, H.
Qed.

Lemma Forall_strip_volatile (P : codepoint -> Prop) (ms : list pystr) (s : pystr) :
  Forall P s -> Forall P (strip_volatile ms s).
Proof.
  intros H. induction ms as [|m ms IH]; [exact H|].
  simpl. destruct (Spec.find m s) as [i|]; [|exact IH].
  rewrite <- (firstn_skipn i s) in H. now apply Forall_app in H as [H _].
Qed.

(** X3: on a text without surrogate code points [compute_agent_hash] of
    utils.py does not raise: it returns a fingerprint. *)
Theorem utils_fingerprint_defined (prompt : pystr) (strip_notes : bool) :
  forallb scalar prompt = true ->
  exists h, Utils.compute_agent_hash prompt strip_notes = Ok h.
Proof.
  intros H.
  assert (F : Forall (fun c => scalar c = true) prompt)
    by (apply Forall_forall; now apply forallb_forall).
  unfold Utils.compute_agent_hash. destruct strip_notes.
  - change Utils.NOTES_SEPARATORS with markers.
    rewrite (strip_notes_loop_spec prompt markers_nonempty). cbn [bind].
    destruct (@encode_scalar (strip (strip_volatile markers prompt))) as [data ->].
    + now apply Forall_strip, Forall_strip_volatile.
    + now eexists.
  - cbn [bind]. destruct (@encode_scalar (strip prompt)) as [data ->].
    + now apply Forall_strip.
    + now eexists.
Qed.

Lemma utils_fingerprint_defined_witness :
  exists h, Utils.compute_agent_hash ([233; 8364; 128512] ++ lit " ok") true = Ok h.
Proof. apply utils_fingerprint_defined. reflexivity. Defined.

End UtilsFingerprint.

(** ** Fingerprint and routing of callbacks.py *)

Section CallbacksRouting.

Import Props.

Variable repr : pyval -> pystr.

Lemma text_blocks_filter (blocks : list pyval) :
  Callbacks.text_blocks (filter is_text_block blocks) = Callbacks.text_blocks blocks.
Proof.
  induction blocks as [|b blocks IH]; [reflexivity|].
  cbn [filter].
  destruct b as [| | | | |d]; cbn [is_text_block Callbacks.text_blocks]; try exact IH.
  unfold get.
  destruct (dict_get (KStr (lit "type")) d) as [ty|] eqn:T; cbn [bind].
  - destruct (eq_str ty (lit "text")) eqn:E; [|exact IH].
    cbn [Callbacks.text_blocks]. unfold get. rewrite T. cbn [bind]. rewrite E.
    now rewrite IH.
  - exact IH.
Qed.

(** X4: the fingerprint of a list prompt reads its text blocks only:
    blocks of another type, and items that are not dictionaries, do not
    change it. *)
Theorem list_fingerprint_reads_text_blocks (blocks : list pyval) :
  Callbacks.compute_agent_hash repr (PList blocks)
  = Callbacks.compute_agent_hash repr (PList (filter is_text_block blocks)).
Proof.
  unfold Callbacks.compute_agent_hash, Callbacks.join_text_blocks.
  now rewrite text_blocks_filter.
Qed.

(** X5: on a string prompt that has no ["Notes:"] and no surrounding
    whitespace the fingerprint of callbacks.py is the one of utils.py, with
    which the registry is generated. *)
Theorem fingerprints_agree_on_plain_prompts (prompt : pystr) :
  contains (lit "Notes:") prompt = false ->
  strip prompt = prompt ->
  Callbacks.compute_agent_hash repr (PStr prompt)
  = Utils.compute_agent_hash prompt true.
Proof.
  intros Hn Hs.
  rewrite utils_compute_agent_hash_spec. unfold fingerprint.
  rewrite (@strip_volatile_clean prompt Hn), Hs.
  unfold Callbacks.compute_agent_hash. cbn [bind]. rewrite Hn. reflexivity.
Qed.

(** X6: the two fingerprints also agree on a prompt whose text, free
    of surrounding whitespace, is followed at once by a bare ["Notes:"]
    section. *)
Theorem fingerprints_agree_on_bare_notes (prompt s : pystr) :
  contains (lit "Notes:") prompt = false ->
  strip prompt = prompt ->
  contains (10 :: 10 :: lit "Notes:") s = false ->
  contains (10 :: lit "Notes:") s = false ->
  Callbacks.compute_agent_hash repr (PStr (prompt ++ lit "Notes:" ++ s))
  = Utils.compute_agent_hash (prompt ++ lit "Notes:" ++ s) true.
Proof.
  intros Hn Hs H2 H1.
  rewrite utils_compute_agent_hash_spec. unfold fingerprint.
  assert (He : Forall (fun m' => contains m' s = false) (earlier markers marker)).
  { change (earlier markers marker)
      with [newline :: newline :: marker; newline :: marker].
    repeat constructor; assumption. }
  assert (Hm : In marker markers) by (right; right; now left).
  change (lit "Notes:") with marker.
  destruct (@strip_volatile_suffix prompt marker s Hm Hn He)
    as (x & v & w & Hv & Hw & E & ->).
  rewrite (@strip_up_to_newlines prompt w x v Hw Hv E), Hs.
  unfold Callbacks.compute_agent_hash. cbn [bind].
  change (lit "Notes:") with marker.
  rewrite contains_mid.
  rewrite (@split_getitem0 marker (prompt ++ marker ++ s)) by discriminate.
  cbn [bind].
  pose proof (@before_separator [] prompt s) as B.
  rewrite !app_nil_l, app_nil_r in B. now rewrite (B Hn).
Qed.

Lemma extract_from_passes_over (pre rest : list pyval) :
  forallb passed_over pre = true ->
  Callbacks.extract_from (pre ++ rest) = Callbacks.extract_from rest.
Proof.
  induction pre as [|msg pre IH]; [reflexivity|].
  cbn [forallb]. intros H. apply andb_true_iff in H as [Hm Hp].
  rewrite <- app_comm_cons. cbn [Callbacks.extract_from].
  destruct msg as [| | | | |d]; try discriminate.
  unfold passed_over in Hm. unfold get.
  destruct (dict_get (KStr (lit "role")) d) as [role|]; cbn [bind].
  - destruct (eq_str role (lit "system")); [|now apply IH].
    destruct (dict_get (KStr (lit "content")) d) as [[| | | | |]|];
      try discriminate; cbn [bind]; now apply IH.
  - now apply IH.
Qed.

(** X7: [extract_system_prompt] returns the content of the first system
    message whose content is a string; the messages before it that are
    not system messages, or are system messages with a content that is
    neither a string nor a list, are passed over. *)
Theorem extract_system_prompt_first_system_message
    (pre post : list pyval) (m : pydict) (s : pystr) :
  forallb passed_over pre = true ->
  dict_get (KStr (lit "role")) m = Some (PStr (lit "system")) ->
  dict_get (KStr (lit "content")) m = Some (PStr s) ->
  Callbacks.extract_system_prompt (PList (pre ++ PDict m :: post))
  = Ok (PStr s).
Proof.
  intros Hpre Hrole Hcontent.
  unfold Callbacks.extract_system_prompt. cbn [Callbacks.iter bind].
  rewrite (@extract_from_passes_over pre _ Hpre).
  cbn [Callbacks.extract_from]. unfold get. rewrite Hrole. cbn [bind].
  change (eq_str (PStr (lit "system")) (lit "system")) with true.
  cbv iota. now rewrite Hcontent.
Qed.

Lemma zai_table_prefix (alias m : pystr) :
  Callbacks.table_get Callbacks.ZAI_MODEL_MAP alias = Some m ->
  startswith (lit "zai-") alias = true.
Proof.
  unfold Callbacks.ZAI_MODEL_MAP. cbn [Callbacks.table_get].
  destruct (PyStr.eqb alias (lit "zai-haiku")) eqn:E1;
    [apply eqb_eq in E1; now subst|].
  destruct (PyStr.eqb alias (lit "zai-sonnet")) eqn:E2;
    [apply eqb_eq in E2; now subst|].
  destruct (PyStr.eqb alias (lit "zai-opus")) eqn:E3;
    [apply eqb_eq in E3; now subst|].
  discriminate.
Qed.

(** The decisions of [determine_routing]: the alternate-provider key
    goes with the alternate-provider upstream only. *)
Lemma determine_routing_cases (body agent_registry : pyval)
    (ZAI_API_KEY : option pystr) (r : Callbacks.routing) :
  Callbacks.determine_routing repr body agent_registry ZAI_API_KEY = Ok r ->
  (Callbacks.api_base r = Callbacks.default_api_base /\ Callbacks.api_key r = None)
  \/
  (Callbacks.api_base r = Callbacks.ZAI_API_BASE /\
   Callbacks.api_key r = ZAI_API_KEY /\
   Callbacks.key_missing ZAI_API_KEY = false /\
   exists alias m,
     Callbacks.table_get Callbacks.ZAI_MODEL_MAP alias = Some m /\
     Callbacks.model r = PStr m).
Proof.
  unfold Callbacks.determine_routing.
  destruct (get body _ _) as [original_model|]; [|discriminate]. cbn [bind].
  destruct (Callbacks.system_prompt_of body) as [sp|]; [|discriminate].
  cbn [bind].
  destruct (negb (truthy sp) || negb (truthy agent_registry)).
  { intros [= <-]. now left. }
  destruct (Callbacks.compute_agent_hash repr sp) as [h|]; [|discriminate].
  cbn [bind].
  destruct (contains_str h agent_registry) as [found|]; [|discriminate].
  cbn [bind]. destruct found; cbn [negb].
  2:{ intros [= <-]. now left. }
  destruct (getitem agent_registry h) as [alias|]; [|discriminate].
  cbn [bind]. destruct alias as [| | |alias| |]; try discriminate.
  destruct (startswith (lit "zai-") alias).
  - destruct (Callbacks.key_missing ZAI_API_KEY) eqn:K.
    + intros [= <-]. now left.
    + destruct (Callbacks.table_get Callbacks.ZAI_MODEL_MAP alias) as [m|] eqn:T.
      * intros [= <-]. right. cbn. repeat split. now exists alias, m.
      * intros [= <-]. now left.
  - intros [= <-]. now left.
Qed.

(** X8: whatever the request and the registry, [determine_routing]
    hands out the alternate-provider key only together with the
    alternate-provider upstream and a model of the alternate-provider
    table, and only when a key is configured; every other decision goes
    to the default upstream without a key. *)
Theorem routing_key_only_for_alternate_provider
    (body agent_registry : pyval) (ZAI_API_KEY : option pystr)
    (r : Callbacks.routing) :
  Callbacks.determine_routing repr body agent_registry ZAI_API_KEY = Ok r ->
  match Callbacks.api_key r with
  | None => Callbacks.api_base r = Callbacks.default_api_base
  | Some k =>
      ZAI_API_KEY = Some k /\ k <> [] /\
      Callbacks.api_base r = Callbacks.ZAI_API_BASE /\
      exists alias m,
        Callbacks.table_get Callbacks.ZAI_MODEL_MAP alias = Some m /\
        Callbacks.model r = PStr m
  end.
Proof.
  intros H. apply determine_routing_cases in H as [[Hb Hk]|(Hb & Hk & Hm & Ht)].
  - now rewrite Hk.
  - rewrite Hk. destruct ZAI_API_KEY as [[|c k]|]; try discriminate.
    repeat split; auto. discriminate.
Qed.

(** X9: a registry hit on an alias of the primary table decides the
    model, whatever model the request asked for and whether or not an
    alternate-provider key is configured. *)
Theorem registry_hit_decides_model
    (body agent_registry : pyval) (ZAI_API_KEY : option pystr)
    (target_alias m : pystr) :
  registry_hit repr body agent_registry target_alias ->
  Callbacks.table_get Callbacks.MODEL_ALIAS_MAP target_alias = Some m ->
  Callbacks.determine_routing repr body agent_registry ZAI_API_KEY
  = Ok (Callbacks.mkRouting Callbacks.default_api_base (PStr m) None).
Proof.
  intros Hit Ht.
  assert (Hm : exists original_model,
             get body (lit "model") (PStr (lit "claude-sonnet-4-20250514"))
             = Ok original_model).
  { destruct Hit as (sp & _ & Hsp & _).
    unfold Callbacks.system_prompt_of in Hsp.
    destruct body; try discriminate. now eexists. }
  destruct Hm as [original_model Hm].
  rewrite (@routing_on_hit repr body agent_registry ZAI_API_KEY original_model _ Hm Hit).
  assert (Hz : startswith (lit "zai-") target_alias = false).
  { revert Ht. unfold Callbacks.MODEL_ALIAS_MAP. cbn [Callbacks.table_get].
    destruct (PyStr.eqb target_alias (lit "haiku")) eqn:E1;
      [apply eqb_eq in E1; now subst|].
    destruct (PyStr.eqb target_alias (lit "sonnet")) eqn:E2;
      [apply eqb_eq in E2; now subst|].
    destruct (PyStr.eqb target_alias (lit "opus")) eqn:E3;
      [apply eqb_eq in E3; now subst|].
    discriminate. }
  now rewrite Hz, Ht.
Qed.

(** X10: with a key configured, a registry hit on an alias of the
    alternate-provider table routes to the alternate provider with the
    table's model and the key. *)
Theorem registry_hit_routes_to_alternate_provider
    (body agent_registry : pyval) (key target_alias m : pystr) :
  registry_hit repr body agent_registry target_alias ->
  key <> [] ->
  Callbacks.table_get Callbacks.ZAI_MODEL_MAP target_alias = Some m ->
  Callbacks.determine_routing repr body agent_registry (Some key)
  = Ok (Callbacks.mkRouting Callbacks.ZAI_API_BASE (PStr m) (Some key)).
Proof.
  intros Hit Hk Ht.
  assert (Hm : exists original_model,
             get body (lit "model") (PStr (lit "claude-sonnet-4-20250514"))
             = Ok original_model).
  { destruct Hit as (sp & _ & Hsp & _).
    unfold Callbacks.system_prompt_of in Hsp.
    destruct body; try discriminate. now eexists. }
  destruct Hm as [original_model Hm].
  rewrite (@routing_on_hit repr body agent_registry (Some key) original_model _ Hm Hit).
  rewrite (@zai_table_prefix _ _ Ht), Ht.
  destruct key; [contradiction|reflexivity].
Qed.

End CallbacksRouting.

Lemma fingerprints_agree_on_plain_prompts_witness :
  Callbacks.compute_agent_hash repr_sample (PStr (lit "You review code."))
  = Utils.compute_agent_hash (lit "You review code.") true.
Proof.
  apply fingerprints_agree_on_plain_prompts; reflexivity.
Defined.

Lemma fingerprints_agree_on_bare_notes_witness :
  Callbacks.compute_agent_hash repr_sample
    (PStr (lit "You review code." ++ lit "Notes:" ++ lit " it is Monday"))
  = Utils.compute_agent_hash
      (lit "You review code." ++ lit "Notes:" ++ lit " it is Monday") true.
Proof.
  apply fingerprints_agree_on_bare_notes; reflexivity.
Defined.

Lemma extract_system_prompt_first_system_message_witness :
  Callbacks.extract_system_prompt
    (PList ([ PDict [ (KStr (lit "role"), PStr (lit "user"));
                      (KStr (lit "content"), PStr (lit "hello")) ];
              PDict [ (KStr (lit "role"), PStr (lit "system"));
                      (KStr (lit "content"), PNone) ] ]
            ++ PDict [ (KStr (lit "role"), PStr (lit "system"));
                       (KStr (lit "content"), PStr (lit "Be brief.")) ]
            :: [ PDict [ (KStr (lit "role"), PStr (lit "system"));
                         (KStr (lit "content"), PStr (lit "Be long.")) ] ]))
  = Ok (PStr (lit "Be brief.")).
Proof.
  apply extract_system_prompt_first_system_message; reflexivity.
Defined.

Lemma routing_key_only_for_alternate_provider_witness :
  let body := PDict [ (KStr (lit "model"), PStr (lit "gpt-x"));
                      (KStr (lit "system"), PStr (lit "A")) ] in
  let registry := PDict [ (KStr (lit "559aead08264d579"), PStr (lit "zai-opus")) ] in
  let r := Callbacks.mkRouting Callbacks.ZAI_API_BASE
             (PStr (lit "anthropic/claude-opus-4-5-20251101")) (Some (lit "k")) in
  Some (lit "k") = Some (lit "k") /\ lit "k" <> [] /\
  Callbacks.api_base r = Callbacks.ZAI_API_BASE /\
  exists alias m,
    Callbacks.table_get Callbacks.ZAI_MODEL_MAP alias = Some m /\
    Callbacks.model r = PStr m.
Proof.
  cbv zeta.
  apply (@routing_key_only_for_alternate_provider repr_sample
           (PDict [ (KStr (lit "model"), PStr (lit "gpt-x"));
                    (KStr (lit "system"), PStr (lit "A")) ])
           (PDict [ (KStr (lit "559aead08264d579"), PStr (lit "zai-opus")) ])
           (Some (lit "k"))
           (Callbacks.mkRouting Callbacks.ZAI_API_BASE
              (PStr (lit "anthropic/claude-opus-4-5-20251101")) (Some (lit "k")))).
  vm_compute. reflexivity.
Defined.

Lemma registry_hit_decides_model_witness :
  Callbacks.determine_routing repr_sample
    (PDict [ (KStr (lit "model"), PStr (lit "gpt-x"));
             (KStr (lit "system"), PStr (lit "A")) ])
    (PDict [ (KStr (lit "559aead08264d579"), PStr (lit "opus")) ])
    (Some (lit "k"))
  = Ok (Callbacks.mkRouting Callbacks.default_api_base
          (PStr (lit "claude-opus-4-5-20251101")) None).
Proof.
  apply registry_hit_decides_model with (target_alias := lit "opus").
  - exists (PStr (lit "A")), (lit "559aead08264d579").
    split; [reflexivity|]. split; [reflexivity|]. split; [reflexivity|].
    split; [vm_compute; reflexivity|]. split; reflexivity.
  - reflexivity.
Defined.

Lemma registry_hit_routes_to_alternate_provider_witness :
  Callbacks.determine_routing repr_sample
    (PDict [ (KStr (lit "model"), PStr (lit "gpt-x"));
             (KStr (lit "system"), PStr (lit "A")) ])
    (PDict [ (KStr (lit "559aead08264d579"), PStr (lit "zai-sonnet")) ])
    (Some (lit "k"))
  = Ok (Callbacks.mkRouting Callbacks.ZAI_API_BASE
          (PStr (lit "anthropic/claude-sonnet-4-20250514")) (Some (lit "k"))).
Proof.
  apply registry_hit_routes_to_alternate_provider with (target_alias := lit "zai-sonnet").
  - exists (PStr (lit "A")), (lit "559aead08264d579").
    split; [reflexivity|]. split; [reflexivity|]. split; [reflexivity|].
    split; [vm_compute; reflexivity|]. split; reflexivity.
  - discriminate.
  - reflexivity.
Defined.

(** ** The handler of /v1/messages *)

Section Handler.

Import Props.

Variable repr : pyval -> pystr.
Variable _SESSION_ID : pystr.

Lemma key_eqb_neq (a b : pykey) : a <> b -> key_eqb a b = false.
Proof.
  intros H. destruct (key_eqb a b) eqn:E; [|reflexivity].
  apply key_eqb_eq in E. contradiction.
Qed.

Lemma dict_get_absent (k : pykey) (d : pydict) :
  ~ In k (map fst d) -> dict_get k d = None.
Proof.
  induction d as [|[k0 v0] d IH]; [reflexivity|].
  cbn [map fst In dict_get]. intros H.
  destruct (key_eqb k k0) eqn:E.
  - apply key_eqb_eq in E. subst. exfalso. apply H. now left.
  - apply IH. intros Hin. apply H. now right.
Qed.

Lemma dict_set_keys (k k0 : pykey) (v : pyval) (d : pydict) :
  In k0 (map fst (dict_set k v d)) -> k0 = k \/ In k0 (map fst d).
Proof.
  induction d as [|[k1 v1] d IH]; cbn [dict_set map fst In].
  - intros [H|[]]. now left.
  - destruct (key_eqb k k1); cbn [map fst In].
    + intros [H|H]; right; [now left|now right].
    + intros [H|H]; [right; now left|].
      destruct (IH H) as [H1|H1]; [now left|right; now right].
Qed.

Lemma dict_set_unique (k : pykey) (v : pyval) (d : pydict) :
  keys_unique d -> keys_unique (dict_set k v d).
Proof.
  unfold keys_unique.
  induction d as [|[k1 v1] d IH]; cbn [dict_set map fst]; intros H.
  - constructor; [intros []|constructor].
  - inversion H as [|? ? Hn Hd]; subst.
    destruct (key_eqb k k1) eqn:E; cbn [map fst].
    + now constructor.
    + constructor; [|now apply IH].
      intros Hin. apply dict_set_keys in Hin as [->|Hin]; [|contradiction].
      rewrite key_eqb_refl in E. discriminate.
Qed.

Lemma dict_del_keys (k k0 : pykey) (d : pydict) :
  In k0 (map fst (dict_del k d)) -> In k0 (map fst d).
Proof.
  induction d as [|[k1 v1] d IH]; cbn [dict_del map fst In]; [tauto|].
  destruct (key_eqb k k1); cbn [map fst In].
  - intros H. now right.
  - intros [H|H]; [now left|right; now apply IH].
Qed.

Lemma dict_del_unique (k : pykey) (d : pydict) :
  keys_unique d -> keys_unique (dict_del k d).
Proof.
  unfold keys_unique.
  induction d as [|[k1 v1] d IH]; cbn [dict_del map fst]; intros H; [constructor|].
  inversion H as [|? ? Hn Hd]; subst.
  destruct (key_eqb k k1); cbn [map fst]; [exact Hd|].
  constructor; [|now apply IH].
  intros Hin. apply Hn. now apply dict_del_keys in Hin.
Qed.

(** In a dictionary, [del d[k]] leaves no [k]. *)
Lemma dict_get_del_same (k : pykey) (d : pydict) :
  keys_unique d -> dict_get k (dict_del k d) = None.
Proof.
  unfold keys_unique.
  induction d as [|[k1 v1] d IH]; cbn [dict_del map fst]; intros H; [reflexivity|].
  inversion H as [|? ? Hn Hd]; subst.
  destruct (key_eqb k k1) eqn:E.
  - apply key_eqb_eq in E. subst. now apply dict_get_absent.
  - cbn [dict_get]. rewrite E. now apply IH.
Qed.

Lemma dict_mem_get (k : pykey) (d : pydict) :
  dict_mem k d = false -> dict_get k d = None.
Proof. unfold dict_mem. now destruct (dict_get k d). Qed.

(** The injection step writes [system] at most. *)
Lemma inject_frame (d : pydict) (body' : pyval) :
  (needs <- Callbacks.needs_injection (system_of d) ;;
   if needs then Callbacks.inject (system_of d) (PDict d) else Ok (PDict d))
  = Ok body' ->
  body' = PDict d \/ exists v, body' = PDict (dict_set (KStr (lit "system")) v d).
Proof.
  destruct (Callbacks.needs_injection (system_of d)) as [[|]|]; cbn [bind];
    try discriminate.
  - unfold Callbacks.inject.
    destruct (negb (truthy (system_of d))); cbn [Callbacks.setitem].
    + intros [= <-]. right. now eexists.
    + destruct (system_of d); cbn [Callbacks.setitem]; intros [= <-];
        (now left) || (right; now eexists).
  - intros [= <-]. now left.
Qed.

(** What the system, tools and temperature steps leave behind. *)
Lemma normalize_fields_frame (d : pydict) (body' : pyval) :
  Callbacks.normalize_fields (PDict d) = Ok body' ->
  exists d',
    body' = PDict d' /\
    dict_mem (KStr (lit "tools")) d' = true /\
    (forall v, dict_get (KStr (lit "tools")) d = Some v ->
               dict_get (KStr (lit "tools")) d' = Some v) /\
    (forall k, key_eqb k (KStr (lit "system")) = false ->
               key_eqb k (KStr (lit "tools")) = false ->
               key_eqb k (KStr (lit "temperature")) = false ->
               dict_get k d' = dict_get k d) /\
    (keys_unique d -> keys_unique d' /\
                      dict_get (KStr (lit "temperature")) d' = None).
Proof.
  unfold Callbacks.normalize_fields.
  unfold get at 1. fold (system_of d). cbn [bind].
  pose proof (@inject_frame d) as Hinj.
  destruct (Callbacks.needs_injection (system_of d)) as [needs|]; [|discriminate].
  cbn [bind] in *.
  destruct (if needs then Callbacks.inject (system_of d) (PDict d) else Ok (PDict d))
    as [body1|]; [|discriminate].
  assert (H1 : exists d1, body1 = PDict d1 /\
             (forall k, key_eqb k (KStr (lit "system")) = false ->
                        dict_get k d1 = dict_get k d) /\
             (keys_unique d -> keys_unique d1)).
  { destruct (Hinj body1 eq_refl) as [->|[v ->]].
    - exists d. now split.
    - eexists. split; [reflexivity|]. split.
      + intros k Hk. rewrite dict_get_set. now rewrite Hk.
      + apply dict_set_unique. }
  clear Hinj. destruct H1 as (d1 & -> & F1 & U1).
  cbn [bind contains_str].
  set (d2 := if dict_mem (KStr (lit "tools")) d1 then d1
             else dict_set (KStr (lit "tools")) (PList []) d1).
  assert (E2 : (b <- (if dict_mem (KStr (lit "tools")) d1 then Ok (PDict d1)
                      else Callbacks.setitem (PDict d1) (lit "tools") (PList [])) ;;
                has_temperature <- contains_str (lit "temperature") b ;;
                if has_temperature then Callbacks.delitem b (lit "temperature")
                else Ok b)
               = if dict_mem (KStr (lit "temperature")) d2
                 then Ok (PDict (dict_del (KStr (lit "temperature")) d2))
                 else Ok (PDict d2)).
  { unfold d2. destruct (dict_mem (KStr (lit "tools")) d1);
      cbn [bind contains_str Callbacks.setitem];
      destruct (dict_mem (KStr (lit "temperature")) _) eqn:Ht;
      unfold Callbacks.delitem; try rewrite Ht; reflexivity. }
  rewrite E2. clear E2.
  assert (T2 : dict_mem (KStr (lit "tools")) d2 = true).
  { unfold d2. destruct (dict_mem (KStr (lit "tools")) d1) eqn:M; [exact M|].
    unfold dict_mem. rewrite dict_get_set. now rewrite key_eqb_refl. }
  assert (V2 : forall v, dict_get (KStr (lit "tools")) d = Some v ->
                         dict_get (KStr (lit "tools")) d2 = Some v).
  { intros v Hv. rewrite <- (F1 (KStr (lit "tools")) eq_refl) in Hv.
    unfold d2. unfold dict_mem. now rewrite Hv. }
  assert (F2 : forall k, key_eqb k (KStr (lit "system")) = false ->
                         key_eqb k (KStr (lit "tools")) = false ->
                         dict_get k d2 = dict_get k d).
  { intros k Hs Ht. rewrite <- (F1 k Hs). unfold d2.
    destruct (dict_mem (KStr (lit "tools")) d1); [reflexivity|].
    rewrite dict_get_set. now rewrite Ht. }
  assert (U2 : keys_unique d -> keys_unique d2).
  { intros U. unfold d2. destruct (dict_mem (KStr (lit "tools")) d1);
      [now apply U1|apply dict_set_unique; now apply U1]. }
  clearbody d2.
  destruct (dict_mem (KStr (lit "temperature")) d2) eqn:M; intros [= <-].
  - eexists. split; [reflexivity|]. split; [|split; [|split]].
    + unfold dict_mem in *. now rewrite dict_get_del.
    + intros v Hv. rewrite dict_get_del; [now apply V2|reflexivity].
    + intros k Hs Ht Hp. rewrite dict_get_del; [now apply F2|exact Hp].
    + intros U. split; [apply dict_del_unique; now apply U2|].
      apply dict_get_del_same. now apply U2.
  - exists d2. split; [reflexivity|]. split; [exact T2|]. split; [exact V2|]. split.
    + intros k Hs Ht _. now apply F2.
    + intros U. split; [now apply U2|]. now apply dict_mem_get.
Qed.

(** What the metadata step leaves behind: the other fields as they
    were; for [metadata], an object with a [user_id] where the request had
    none or an object, and the caller's value untouched where it is a
    string or a list on which the [in] test succeeds. *)
Lemma inject_metadata_frame (d : pydict) (st : Callbacks.state)
    (current_time : Z) (dk : Callbacks.disk) (body' : pyval) :
  fst (Callbacks.inject_metadata repr _SESSION_ID (PDict d) st current_time dk)
  = Ok body' ->
  exists d',
    body' = PDict d' /\
    (forall k, key_eqb k (KStr (lit "metadata")) = false ->
               dict_get k d' = dict_get k d) /\
    match dict_get (KStr (lit "metadata")) d with
    | None =>
        exists user_id,
          dict_get (KStr (lit "metadata")) d'
          = Some (PDict [ (KStr (lit "user_id"), PStr user_id) ])
    | Some (PDict md) =>
        exists md',
          dict_get (KStr (lit "metadata")) d' = Some (PDict md') /\
          dict_mem (KStr (lit "user_id")) md' = true /\
          (dict_mem (KStr (lit "user_id")) md = true -> md' = md) /\
          (forall k, key_eqb k (KStr (lit "user_id")) = false ->
                     dict_get k md' = dict_get k md)
    | Some other =>
        dict_get (KStr (lit "metadata")) d' = Some other /\
        contains_str (lit "user_id") other = Ok true
    end.
Proof.
  unfold Callbacks.inject_metadata. cbn [contains_str bind].
  destruct (dict_mem (KStr (lit "metadata")) d) eqn:M; cbn [bind Callbacks.setitem].
  - unfold getitem.
    destruct (dict_get (KStr (lit "metadata")) d) as [metadata|] eqn:G; [|discriminate].
    cbn [bind].
    destruct (contains_str (lit "user_id") metadata) as [[|]|] eqn:C; cbn [bind fst];
      try discriminate.
    + intros [= <-]. exists d. split; [reflexivity|]. split; [reflexivity|].
      rewrite G. destruct metadata as [| | |t|l|md]; try discriminate.
      * now split.
      * now split.
      * exists md. cbn [contains_str] in C. injection C as C. now repeat split.
    + destruct metadata as [| | | | |md]; try discriminate.
      cbn [bind Callbacks.setitem].
      destruct (Callbacks.print _); [|discriminate].
      cbn [bind]. intros [= <-].
      eexists. split; [reflexivity|]. split.
      * intros k Hk. rewrite dict_get_set. now rewrite Hk.
      * eexists. split; [|split; [|split]].
        -- rewrite dict_get_set. now rewrite key_eqb_refl.
        -- unfold dict_mem. rewrite dict_get_set. now rewrite key_eqb_refl.
        -- cbn [contains_str] in C. injection C as C. congruence.
        -- intros k Hk. rewrite dict_get_set. now rewrite Hk.
  - unfold getitem. rewrite dict_get_set, key_eqb_refl. cbn [bind contains_str].
    change (dict_mem (KStr (lit "user_id")) []) with false. cbn [fst].
    cbn [bind Callbacks.setitem].
    destruct (Callbacks.print _); [|discriminate].
    cbn [bind]. intros [= <-].
    eexists. split; [reflexivity|]. split.
    + intros k Hk. rewrite !dict_get_set. now rewrite Hk.
    + rewrite (dict_mem_get _ _ M). eexists.
      rewrite dict_get_set. now rewrite key_eqb_refl.
Qed.

(** The decision the handler acts on: the one of [determine_routing], or
    the default one when that raises. *)
Lemma route_cases (body agent_registry : pyval) (ZAI_API_KEY : option pystr)
    (original_model : pyval) :
  let r := Callbacks.route repr body agent_registry ZAI_API_KEY original_model in
  (Callbacks.api_base r = Callbacks.default_api_base /\ Callbacks.api_key r = None)
  \/
  (Callbacks.api_base r = Callbacks.ZAI_API_BASE /\
   Callbacks.api_key r = ZAI_API_KEY /\
   Callbacks.key_missing ZAI_API_KEY = false /\
   exists alias m,
     Callbacks.table_get Callbacks.ZAI_MODEL_MAP alias = Some m /\
     Callbacks.model r = PStr m).
Proof.
  cbv zeta. unfold Callbacks.route.
  destruct (Callbacks.determine_routing repr body agent_registry ZAI_API_KEY)
    as [r|e] eqn:E.
  - now apply determine_routing_cases in E.
  - now left.
Qed.

(** The outbound request of the OAuth route, piece by piece. *)
Lemma handler_oauth_route
    (request_body : result pyval) (request_headers : option Callbacks.headers)
    (agent_registry : pyval) (ZAI_API_KEY : option pystr)
    (st st' : Callbacks.state) (current_time : Z) (d : Callbacks.disk)
    (o : Callbacks.outbound) :
  Callbacks._handle_messages_request repr _SESSION_ID request_body request_headers
    agent_registry ZAI_API_KEY st current_time d = (inr o, st') ->
  Callbacks.is_zai_route o = false ->
  exists b original_model,
    request_body = Ok (PDict b) /\
    get (PDict b) (lit "model") (PStr (lit "claude-sonnet-4-20250514"))
    = Ok original_model /\
    let r := Callbacks.route repr (PDict b) agent_registry ZAI_API_KEY original_model in
    let c := Callbacks.load_oauth_credentials false st current_time d in
    Callbacks.api_key r = None /\
    Callbacks.api_url o = Callbacks.api_base r /\
    Callbacks.out_headers o
    = Callbacks.oauth_headers repr request_headers (fst (fst (fst c))) /\
    fst (Callbacks.normalize_body repr _SESSION_ID
           (PDict (dict_set (KStr (lit "model")) (Callbacks.model r) b))
           (snd c) current_time d) = Ok (Callbacks.out_body o).
Proof.
  unfold Callbacks._handle_messages_request.
  destruct request_body as [body|]; [|discriminate]. cbn [bind].
  destruct body as [| | | | |b]; try discriminate.
  unfold get at 1. cbn [bind Callbacks.setitem].
  set (original_model := match dict_get (KStr (lit "model")) b with
                         | Some x => x
                         | None => PStr (lit "claude-sonnet-4-20250514")
                         end).
  destruct (Callbacks.print [original_model]); [|discriminate]. cbn [bind].
  destruct (Callbacks.debug_system (PDict b)); [|discriminate].
  cbn [bind Callbacks.setitem].
  set (r := Callbacks.route _ _ _ _ _).
  destruct (Callbacks.print [Callbacks.model r]); [|discriminate]. cbn [bind].
  intros H Hz. exists b, original_model. split; [reflexivity|].
  split; [reflexivity|]. cbv zeta. fold r.
  destruct (Callbacks.api_key r).
  { destruct (Callbacks.streaming_of _); [|discriminate].
    injection H as <- _. discriminate. }
  destruct (Callbacks.print [_; _]); [|discriminate].
  destruct (negb (truthy _)); [discriminate|].
  destruct (Callbacks.print [_]); [|discriminate].
  destruct (fst (Callbacks.normalize_body _ _ _ _ _ _)) as [body3|]; [|discriminate].
  cbn [bind] in H.
  destruct (Callbacks.streaming_of body3); [|discriminate].
  cbn [bind] in H. injection H as <- _. now repeat split.
Qed.

Lemma hset_names (k k0 v : pystr) (h : Callbacks.headers) :
  In k0 (map fst (Callbacks.hset k v h)) -> k0 = k \/ In k0 (map fst h).
Proof.
  induction h as [|[k1 v1] h IH]; cbn [Callbacks.hset map fst In].
  - intros [H|[]]. now left.
  - destruct (PyStr.eqb k k1); cbn [map fst In].
    + intros [H|H]; right; [now left|now right].
    + intros [H|H]; [right; now left|].
      destruct (IH H) as [H1|H1]; [now left|right; now right].
Qed.

Lemma forward_loop_names (names : list pystr) (rh hs : Callbacks.headers)
    (k : pystr) :
  In k (map fst (Callbacks.forward_loop names rh hs)) ->
  In k names \/ In k (map fst hs).
Proof.
  revert hs. induction names as [|n names IH]; intros hs; cbn [Callbacks.forward_loop].
  - now right.
  - destruct (Callbacks.hget n rh) as [v|]; intros H; apply IH in H as [H|H].
    + left. now right.
    + apply hset_names in H as [->|H]; [left; now left|now right].
    + left. now right.
    + now right.
Qed.

Lemma oauth_headers_names (rh : option Callbacks.headers) (tok : pyval) (k : pystr) :
  In k (map fst (Callbacks.oauth_headers repr rh tok)) -> In k oauth_header_names.
Proof.
  unfold Callbacks.oauth_headers, oauth_header_names.
  set (hs0 := match Callbacks.given rh with
              | Some h => Callbacks.forward_loop Callbacks.forward_headers h []
              | None => []
              end).
  assert (H0 : In k (map fst hs0) -> In k Callbacks.forward_headers).
  { unfold hs0. destruct (Callbacks.given rh); [|intros []].
    intros H. apply forward_loop_names in H as [H|[]]. exact H. }
  set (ver := match Callbacks.given rh with Some _ => _ | None => _ end).
  set (hs := Callbacks.hset (lit "accept") _ _).
  assert (Hhs : In k (map fst hs) ->
                In k (Callbacks.forward_headers
                      ++ [ lit "authorization"; lit "content-type"; lit "accept" ])).
  { unfold hs. intros H. apply in_or_app.
    apply hset_names in H as [->|H]; [right; cbn; tauto|].
    apply hset_names in H as [->|H]; [right; cbn; tauto|].
    apply hset_names in H as [->|H]; [left; cbn; tauto|].
    apply hset_names in H as [->|H]; [right; cbn; tauto|].
    left. now apply H0. }
  destruct (negb (contains (lit "oauth-2025-04-20") _)); [|exact Hhs].
  destruct (match Callbacks.hget (lit "anthropic-beta") hs with
            | Some v => v | None => [] end);
    intros H; apply hset_names in H as [->|H]; try now apply Hhs.
  - apply in_or_app. left. cbn. tauto.
  - apply in_or_app. left. cbn. tauto.
Qed.

(** X11: on the OAuth route the request goes to the default upstream
    and carries no header name beyond the forwarded ones,
    [authorization], [content-type] and [accept]; in particular no
    [x-api-key] and no [cookie] of the caller. *)
Theorem oauth_route_headers_are_listed
    (request_body : result pyval) (request_headers : option Callbacks.headers)
    (agent_registry : pyval) (ZAI_API_KEY : option pystr)
    (st st' : Callbacks.state) (current_time : Z) (d : Callbacks.disk)
    (o : Callbacks.outbound) :
  Callbacks._handle_messages_request repr _SESSION_ID request_body request_headers
    agent_registry ZAI_API_KEY st current_time d = (inr o, st') ->
  Callbacks.is_zai_route o = false ->
  Callbacks.api_url o = Callbacks.default_api_base /\
  (forall k, In k (map fst (Callbacks.out_headers o)) -> In k oauth_header_names) /\
  Callbacks.hget (lit "x-api-key") (Callbacks.out_headers o) = None.
Proof.
  intros H Hz.
  destruct (handler_oauth_route _ _ _ _ _ _ _ H Hz)
    as (b & original_model & _ & _ & Hk & Hu & Hh & _).
  assert (N : forall k, In k (map fst (Callbacks.out_headers o)) ->
                        In k oauth_header_names).
  { intros k. rewrite Hh. apply oauth_headers_names. }
  split; [|split; [exact N|]].
  - rewrite Hu.
    destruct (route_cases (PDict b) agent_registry ZAI_API_KEY original_model)
      as [[Hb _]|(_ & Hk' & Hm & _)]; [exact Hb|].
    rewrite Hk in Hk'. subst ZAI_API_KEY. discriminate.
  - destruct (Callbacks.hget (lit "x-api-key") (Callbacks.out_headers o)) eqn:G;
      [|reflexivity].
    exfalso.
    assert (Hin : In (lit "x-api-key") (map fst (Callbacks.out_headers o))).
    { clear -G. induction (Callbacks.out_headers o) as [|[k1 v1] h IH];
        [discriminate|].
      cbn [Callbacks.hget] in G. cbn [map fst In].
      destruct (PyStr.eqb (lit "x-api-key") k1) eqn:E.
      - left. apply eqb_eq in E. now subst.
      - right. now apply IH. }
    apply N in Hin. vm_compute in Hin.
    repeat (destruct Hin as [Hin|Hin]; [discriminate Hin|]). exact Hin.
Qed.

(** X12: on the OAuth route the outbound body has a [tools] field (the
    caller's, when there was one), and every field other than [model],
    [system], [tools], [temperature] and [metadata] is as the caller sent
    it.  Its [metadata] is an object with a [user_id] when the caller
    sent no metadata (then it holds the generated [user_id] alone) or an
    object (then the caller's entries are kept, its own [user_id]
    included); a caller's metadata that is a string or a list passes on
    untouched, which happens only where the [in] test finds ["user_id"]
    in it. *)
Theorem oauth_route_body_frame
    (request_body : result pyval) (request_headers : option Callbacks.headers)
    (agent_registry : pyval) (ZAI_API_KEY : option pystr)
    (st st' : Callbacks.state) (current_time : Z) (d : Callbacks.disk)
    (o : Callbacks.outbound) :
  Callbacks._handle_messages_request repr _SESSION_ID request_body request_headers
    agent_registry ZAI_API_KEY st current_time d = (inr o, st') ->
  Callbacks.is_zai_route o = false ->
  exists b b',
    request_body = Ok (PDict b) /\
    Callbacks.out_body o = PDict b' /\
    dict_mem (KStr (lit "tools")) b' = true /\
    (forall v, dict_get (KStr (lit "tools")) b = Some v ->
               dict_get (KStr (lit "tools")) b' = Some v) /\
    (forall k, ~ In k normalized_keys -> dict_get k b' = dict_get k b) /\
    match dict_get (KStr (lit "metadata")) b with
    | None =>
        exists user_id,
          dict_get (KStr (lit "metadata")) b'
          = Some (PDict [ (KStr (lit "user_id"), PStr user_id) ])
    | Some (PDict md) =>
        exists md',
          dict_get (KStr (lit "metadata")) b' = Some (PDict md') /\
          dict_mem (KStr (lit "user_id")) md' = true /\
          (dict_mem (KStr (lit "user_id")) md = true -> md' = md) /\
          (forall k, key_eqb k (KStr (lit "user_id")) = false ->
                     dict_get k md' = dict_get k md)
    | Some other =>
        dict_get (KStr (lit "metadata")) b' = Some other /\
        contains_str (lit "user_id") other = Ok true
    end.
Proof.
  intros H Hz.
  destruct (handler_oauth_route _ _ _ _ _ _ _ H Hz)
    as (b & original_model & Hb & _ & _ & _ & _ & Hn).
  cbv zeta in Hn. unfold Callbacks.normalize_body in Hn.
  set (b0 := dict_set (KStr (lit "model")) _ b) in Hn.
  pose proof (@normalize_fields_frame b0) as F.
  destruct (Callbacks.normalize_fields (PDict b0)) as [body2|]; [|discriminate].
  destruct (F body2 eq_refl) as (b2 & -> & T2 & V2 & F2 & _).
  destruct (inject_metadata_frame _ _ _ _ Hn) as (b3 & E3 & F3 & M3).
  assert (M : dict_get (KStr (lit "metadata")) b2 = dict_get (KStr (lit "metadata")) b).
  { rewrite (F2 (KStr (lit "metadata")) eq_refl eq_refl eq_refl).
    unfold b0. now rewrite dict_get_set. }
  rewrite M in M3.
  exists b, b3.
  split; [exact Hb|]. split; [exact E3|]. split; [|split; [|split]].
  - unfold dict_mem in *. now rewrite (F3 (KStr (lit "tools")) eq_refl).
  - intros v Hv. rewrite (F3 (KStr (lit "tools")) eq_refl). apply V2.
    unfold b0. rewrite dict_get_set. exact Hv.
  - intros k Hk. unfold normalized_keys in Hk. cbn [In] in Hk.
    assert (K : forall s, k <> KStr s -> key_eqb k (KStr s) = false)
      by (intros s; apply key_eqb_neq).
    rewrite F3, F2 by (apply K; intros ->; tauto).
    unfold b0. rewrite dict_get_set.
    rewrite (K (lit "model")) by (intros ->; tauto). reflexivity.
  - exact M3.
Qed.

(** X13: on the OAuth route the outbound body of a request whose body
    is a dictionary (each key once) has no [temperature]. *)
Theorem oauth_route_drops_temperature
    (b : pydict) (request_headers : option Callbacks.headers)
    (agent_registry : pyval) (ZAI_API_KEY : option pystr)
    (st st' : Callbacks.state) (current_time : Z) (d : Callbacks.disk)
    (o : Callbacks.outbound) :
  keys_unique b ->
  Callbacks._handle_messages_request repr _SESSION_ID (Ok (PDict b)) request_headers
    agent_registry ZAI_API_KEY st current_time d = (inr o, st') ->
  Callbacks.is_zai_route o = false ->
  get (Callbacks.out_body o) (lit "temperature") PNone = Ok PNone /\
  contains_str (lit "temperature") (Callbacks.out_body o) = Ok false.
Proof.
  intros U H Hz.
  destruct (handler_oauth_route _ _ _ _ _ _ _ H Hz)
    as (b1 & original_model & [= <-] & _ & _ & _ & _ & Hn).
  cbv zeta in Hn. unfold Callbacks.normalize_body in Hn.
  set (b0 := dict_set (KStr (lit "model")) _ b) in Hn.
  assert (U0 : keys_unique b0) by now apply dict_set_unique.
  pose proof (@normalize_fields_frame b0) as F.
  destruct (Callbacks.normalize_fields (PDict b0)) as [body2|]; [|discriminate].
  destruct (F body2 eq_refl) as (b2 & -> & _ & _ & _ & T2).
  destruct (T2 U0) as [_ T].
  destruct (inject_metadata_frame _ _ _ _ Hn) as (b3 & E3 & F3 & _).
  rewrite E3. cbn [get contains_str]. unfold dict_mem.
  rewrite (F3 (KStr (lit "temperature")) eq_refl), T. now split.
Qed.


Lemma print_cons (v : pyval) (vs : list pyval) :
  Callbacks.print [v] = Ok tt -> Callbacks.print vs = Ok tt ->
  Callbacks.print (v :: vs) = Ok tt.
Proof.
  intros Hv Hvs. destruct v; try exact Hvs.
  cbn [Callbacks.print] in *. destruct (encode s); [|discriminate].
  exact Hvs.
Qed.

(** The model names of the two tables can be printed. *)
Lemma table_model_printed (alias m : pystr) :
  Callbacks.table_get Callbacks.MODEL_ALIAS_MAP alias = Some m \/
  Callbacks.table_get Callbacks.ZAI_MODEL_MAP alias = Some m ->
  Callbacks.print [PStr m] = Ok tt.
Proof.
  unfold Callbacks.MODEL_ALIAS_MAP, Callbacks.ZAI_MODEL_MAP.
  cbn [Callbacks.table_get].
  intros [H|H]; revert H;
    repeat (match goal with
            | |- context [PyStr.eqb alias ?k] => destruct (PyStr.eqb alias k)
            end);
    try discriminate; intros [= <-]; vm_compute; reflexivity.
Qed.

(** The model the handler goes on with: the requested one, or one of
    the tables. *)
Lemma route_model (b : pydict) (agent_registry : pyval)
    (ZAI_API_KEY : option pystr) (original_model : pyval) :
  get (PDict b) (lit "model") (PStr (lit "claude-sonnet-4-20250514"))
  = Ok original_model ->
  let r := Callbacks.route repr (PDict b) agent_registry ZAI_API_KEY original_model in
  Callbacks.model r = original_model \/
  exists alias m,
    (Callbacks.table_get Callbacks.MODEL_ALIAS_MAP alias = Some m \/
     Callbacks.table_get Callbacks.ZAI_MODEL_MAP alias = Some m) /\
    Callbacks.model r = PStr m.
Proof.
  intros Hm. cbv zeta. unfold Callbacks.route, Callbacks.determine_routing.
  rewrite Hm. cbn [bind].
  destruct (Callbacks.system_prompt_of (PDict b)) as [sp|]; [|now left].
  cbn [bind].
  destruct (negb (truthy sp) || negb (truthy agent_registry)); [now left|].
  destruct (Callbacks.compute_agent_hash repr sp) as [h|]; [|now left].
  cbn [bind].
  destruct (contains_str h agent_registry) as [[|]|]; cbn [bind negb];
    try now left.
  destruct (getitem agent_registry h) as [alias|]; [|now left].
  cbn [bind]. destruct alias as [| | |alias| |]; try now left.
  destruct (startswith (lit "zai-") alias).
  - destruct (Callbacks.key_missing ZAI_API_KEY).
    + destruct (Callbacks.table_get Callbacks.MODEL_ALIAS_MAP _) as [m|] eqn:T;
        [|now left].
      right. eexists. exists m. split; [left; exact T|reflexivity].
    + destruct (Callbacks.table_get Callbacks.ZAI_MODEL_MAP alias) as [m|] eqn:T;
        [|now left].
      right. exists alias, m. split; [right; exact T|reflexivity].
  - destruct (Callbacks.table_get Callbacks.MODEL_ALIAS_MAP alias) as [m|] eqn:T;
      [|now left].
    right. exists alias, m. split; [left; exact T|reflexivity].
Qed.

(** X15: with no alternate-provider key configured, a request whose
    body is an object is answered 401 when the credential cache yields no
    token, and nothing is sent upstream; this for a request whose
    model name and system text the handler can print (a lone surrogate in
    them ends the request with 500 before). *)
Theorem no_token_answers_401
    (b : pydict) (request_headers : option Callbacks.headers)
    (agent_registry : pyval) (ZAI_API_KEY : option pystr)
    (st : Callbacks.state) (current_time : Z) (d : Callbacks.disk)
    (original_model : pyval) :
  Callbacks.key_missing ZAI_API_KEY = true ->
  truthy (fst (Callbacks.load_oauth_token false st current_time d)) = false ->
  get (PDict b) (lit "model") (PStr (lit "claude-sonnet-4-20250514"))
  = Ok original_model ->
  Callbacks.print [original_model] = Ok tt ->
  Callbacks.debug_system (PDict b) = Ok tt ->
  Callbacks._handle_messages_request repr _SESSION_ID (Ok (PDict b)) request_headers
    agent_registry ZAI_API_KEY st current_time d
  = (inl (Callbacks.JSONResponse 401 (lit "authentication_error")),
     snd (Callbacks.load_oauth_token false st current_time d)).
Proof.
  intros Hk Ht Hm Hp Hs. unfold Callbacks.load_oauth_token in *.
  cbn [fst snd] in *.
  unfold Callbacks._handle_messages_request. cbn [bind].
  rewrite Hm. cbn [bind]. rewrite Hp. cbn [bind]. rewrite Hs.
  cbn [bind Callbacks.setitem].
  pose proof (@route_model b agent_registry ZAI_API_KEY original_model Hm) as M.
  destruct (route_cases (PDict b) agent_registry ZAI_API_KEY original_model)
    as [[_ R]|(_ & _ & R & _)]; [|congruence].
  cbv zeta in M.
  set (r := Callbacks.route _ _ _ _ _) in *.
  assert (P : Callbacks.print [Callbacks.model r] = Ok tt).
  { destruct M as [->|(alias & m & T & ->)]; [exact Hp|].
    now apply (@table_model_printed alias m). }
  rewrite P. cbn [bind]. rewrite R.
  rewrite (@print_cons original_model [Callbacks.model r] Hp P). now rewrite Ht.
Qed.

(** X16: with no registry the proxy does not choose the model: the
    request takes the OAuth route and the outbound body names the model
    the caller asked for, or ["claude-sonnet-4-20250514"] when the caller
    named none. *)
Theorem empty_registry_keeps_requested_model
    (request_body : result pyval) (request_headers : option Callbacks.headers)
    (agent_registry : pyval) (ZAI_API_KEY : option pystr)
    (st st' : Callbacks.state) (current_time : Z) (d : Callbacks.disk)
    (o : Callbacks.outbound) :
  truthy agent_registry = false ->
  Callbacks._handle_messages_request repr _SESSION_ID request_body request_headers
    agent_registry ZAI_API_KEY st current_time d = (inr o, st') ->
  Callbacks.is_zai_route o = false /\
  exists body,
    request_body = Ok body /\
    getitem (Callbacks.out_body o) (lit "model")
    = get body (lit "model") (PStr (lit "claude-sonnet-4-20250514")).
Proof.
  intros Hreg H.
  assert (R : forall b original_model,
             get (PDict b) (lit "model") (PStr (lit "claude-sonnet-4-20250514"))
             = Ok original_model ->
             Callbacks.route repr (PDict b) agent_registry ZAI_API_KEY original_model
             = Callbacks.mkRouting Callbacks.default_api_base original_model None).
  { intros b original_model Hm. unfold Callbacks.route, Callbacks.determine_routing.
    rewrite Hm. cbn [bind].
    destruct (Callbacks.system_prompt_of (PDict b)) as [sp|]; [|reflexivity].
    cbn [bind]. rewrite Hreg. cbn [negb]. now rewrite orb_true_r. }
  assert (Hz : Callbacks.is_zai_route o = false).
  { revert H. unfold Callbacks._handle_messages_request.
    destruct request_body as [body|]; [|discriminate]. cbn [bind].
    destruct body as [| | | | |b]; try discriminate.
    unfold get at 1. cbn [bind].
    destruct (Callbacks.print [_]); [|discriminate]. cbn [bind].
    destruct (Callbacks.debug_system (PDict b)); [|discriminate].
    cbn [bind Callbacks.setitem].
    rewrite (R b _ eq_refl). cbn [Callbacks.api_key Callbacks.model].
    destruct (Callbacks.print [_]); [|discriminate]. cbn [bind].
    destruct (Callbacks.print [_; _]); [|discriminate].
    destruct (negb (truthy _)); [discriminate|].
    destruct (Callbacks.print [_]); [|discriminate].
    destruct (_ <- fst _ ;; _) as [[body' s]|]; [|discriminate].
    now intros [= <- _]. }
  split; [exact Hz|].
  destruct (handler_oauth_route _ _ _ _ _ _ _ H Hz)
    as (b & original_model & Hb & Ho & _ & _ & _ & Hn).
  exists (PDict b). split; [exact Hb|].
  cbv zeta in Hn. rewrite (R b original_model Ho) in Hn.
  cbn [Callbacks.model] in Hn. unfold Callbacks.normalize_body in Hn.
  set (b0 := dict_set (KStr (lit "model")) original_model b) in Hn.
  pose proof (@normalize_fields_frame b0) as F.
  destruct (Callbacks.normalize_fields (PDict b0)) as [body2|]; [|discriminate].
  destruct (F body2 eq_refl) as (b2 & -> & _ & _ & F2 & _).
  destruct (inject_metadata_frame _ _ _ _ Hn) as (b3 & E3 & F3 & _).
  rewrite E3, Ho. unfold getitem.
  rewrite (F3 (KStr (lit "model")) eq_refl).
  rewrite (F2 (KStr (lit "model")) eq_refl eq_refl eq_refl).
  unfold b0. now rewrite dict_get_set, key_eqb_refl.
Qed.

End Handler.

(** ** The credential caches and the registries *)

Section Caches.

Import Props.

(** X17: callbacks.py serves a loaded credential from its cache: once a
    call has returned a token, every unforced call made before the TTL
    has elapsed returns the same triple and leaves the cache alone,
    whatever the files hold by then. *)
Theorem callbacks_credentials_cached_within_ttl
    (force : bool) (st st1 : Callbacks.state) (t0 t : Z) (d0 d : Callbacks.disk)
    (ids : pyval * pyval * pyval) :
  Callbacks.load_oauth_credentials force st t0 d0 = (ids, st1) ->
  truthy (fst (fst ids)) = true ->
  (t - Callbacks._OAUTH_CACHE_TIME st1 < Callbacks._OAUTH_CACHE_TTL)%Z ->
  Callbacks.load_oauth_credentials false st1 t d = (ids, st1) /\
  (force = true -> Callbacks._OAUTH_CACHE_TIME st1 = t0).
Proof.
  intros H Htok Ht.
  assert (C : ids = (Callbacks._OAUTH_TOKEN_CACHE st1,
                     Callbacks._OAUTH_USER_ID_CACHE st1,
                     Callbacks._OAUTH_ACCOUNT_UUID_CACHE st1) /\
              (force = true -> Callbacks._OAUTH_CACHE_TIME st1 = t0)).
  { revert H. unfold Callbacks.load_oauth_credentials.
    destruct (negb force && _ && _) eqn:G.
    - intros [= <- <-]. split; [reflexivity|].
      intros ->. discriminate.
    - destruct (Callbacks.read_credentials d0) as [[[token user_id] account_uuid]|].
      + destruct (truthy token) eqn:T.
        * destruct (Callbacks.progress_message user_id account_uuid); intros [= <- <-].
          -- now split.
          -- discriminate.
        * intros [= <- <-]. cbn in Htok. congruence.
      + intros [= <- <-]. discriminate. }
  destruct C as [-> C]. split; [|exact C].
  cbn [fst] in Htok.
  unfold Callbacks.load_oauth_credentials. cbn [negb andb].
  apply Z.ltb_lt in Ht. rewrite Ht.
  destruct (Callbacks._OAUTH_TOKEN_CACHE st1); try discriminate; reflexivity.
Qed.

(** X18: oauth_hook.py serves a loaded credential from its cache in the
    same way. *)
Theorem oauth_hook_credentials_cached_within_ttl
    (force : bool) (st st1 : OauthHook.state) (t0 t : Z) (c0 c : file)
    (tok : pyval) :
  OauthHook.load_oauth_credentials force st t0 c0 = (Ok tok, st1) ->
  tok <> PNone ->
  (t - OauthHook._LAST_LOAD_TIME st1 < OauthHook._CACHE_TTL_SECONDS)%Z ->
  OauthHook.load_oauth_credentials false st1 t c = (Ok tok, st1) /\
  (force = true -> OauthHook._LAST_LOAD_TIME st1 = t0).
Proof.
  intros H Htok Ht.
  assert (C : OauthHook._OAUTH_TOKEN st1 = tok /\
              (force = true -> OauthHook._LAST_LOAD_TIME st1 = t0)).
  { revert H. unfold OauthHook.load_oauth_credentials.
    destruct (negb force && _ && _) eqn:G.
    - intros [= <- <-]. split; [reflexivity|]. intros ->. discriminate.
    - destruct (open_json c0) as [data|e].
      + destruct (get data (lit "claudeAiOauth") PNone) as [tok'|]; [|discriminate].
        destruct (truthy tok').
        * destruct (get tok' (lit "expiresAt") (PInt 0)); [|discriminate].
          intros [= <- <-]. now split.
        * intros [= <- <-]. now split.
      + destruct e; cbn; intros [= <- <-]; contradiction. }
  destruct C as [E C]. split; [|exact C].
  unfold OauthHook.load_oauth_credentials. cbn [negb andb].
  apply Z.ltb_lt in Ht. rewrite Ht, E.
  destruct tok; try contradiction; reflexivity.
Qed.

(** X19: after [invalidate_credential_cache] the next call reads the
    files again whatever the clock says: it returns what a forced load
    returns.  In callbacks.py and in oauth_hook.py. *)
Theorem invalidation_forces_reload
    (cst : Callbacks.state) (st : OauthHook.state) (t : Z)
    (d : Callbacks.disk) (c : file) :
  fst (Callbacks.load_oauth_credentials false
         (Callbacks.invalidate_credential_cache cst) t d)
  = fst (Callbacks.load_oauth_credentials true cst t d)
  /\
  fst (OauthHook.load_oauth_credentials false
         (OauthHook.invalidate_credential_cache st) t c)
  = fst (OauthHook.load_oauth_credentials true st t c).
Proof.
  split.
  - unfold Callbacks.load_oauth_credentials, Callbacks.invalidate_credential_cache.
    cbn [negb andb Callbacks._OAUTH_TOKEN_CACHE Callbacks.is_None].
    destruct (Callbacks.read_credentials d) as [[[token user_id] account_uuid]|];
      [|reflexivity].
    destruct (truthy token); [|reflexivity].
    destruct (Callbacks.progress_message user_id account_uuid); reflexivity.
  - unfold OauthHook.load_oauth_credentials, OauthHook.invalidate_credential_cache.
    cbn [negb andb OauthHook._OAUTH_TOKEN OauthHook.is_None].
    destruct (open_json c) as [data|e].
    + destruct (get data (lit "claudeAiOauth") PNone) as [tok|]; [|reflexivity].
      destruct (truthy tok); [|reflexivity].
      destruct (get tok (lit "expiresAt") (PInt 0)); reflexivity.
    + destruct e; reflexivity.
Qed.

Lemma read_credentials_identified (d : Callbacks.disk) (token user_id account_uuid : pyval) :
  Callbacks.read_credentials d = Ok (token, user_id, account_uuid) ->
  truthy user_id = true /\ truthy account_uuid = true.
Proof.
  unfold Callbacks.read_credentials.
  destruct (Callbacks.load_token d); [|discriminate]. cbn [bind].
  destruct (Callbacks.load_identity d) as [ids|]; [|discriminate]. cbn [bind].
  destruct (Callbacks.fallback_identity d (fst ids) (snd ids)) as [[uid acct]|];
    [|discriminate].
  cbn [bind fst snd]. intros [= _ <- <-]. split.
  - destruct (truthy uid) eqn:E; [exact E|reflexivity].
  - destruct (truthy acct) eqn:E; [exact E|reflexivity].
Qed.

(** X20: the credential cache of callbacks.py never holds a token
    without a user id and an account id, and no call returns a token
    without them: when the files name none the placeholders stand in. *)
Theorem callbacks_token_comes_with_identity
    (force : bool) (st : Callbacks.state) (t : Z) (d : Callbacks.disk) :
  identified st = true ->
  let r := Callbacks.load_oauth_credentials force st t d in
  identified (snd r) = true /\
  identified (Callbacks.invalidate_credential_cache st) = true /\
  (truthy (fst (fst (fst r))) = true ->
   truthy (snd (fst (fst r))) = true /\ truthy (snd (fst r)) = true).
Proof.
  intros I. cbv zeta. unfold Callbacks.load_oauth_credentials.
  destruct (negb force && _ && _) eqn:G.
  - cbn [fst snd]. split; [exact I|]. split; [reflexivity|].
    intros T. unfold identified in I. rewrite T in I.
    apply andb_true_iff in G as [G _]. apply andb_true_iff in G as [_ G].
    apply negb_true_iff in G. rewrite G in I. cbn [orb andb] in I.
    now apply andb_true_iff in I.
  - pose proof (@read_credentials_identified d) as R.
    destruct (Callbacks.read_credentials d) as [[[token user_id] account_uuid]|].
    + destruct (R _ _ _ eq_refl) as [Ru Ra].
      destruct (truthy token) eqn:T.
      * destruct (Callbacks.progress_message user_id account_uuid); cbn [fst snd].
        -- split; [|split; [reflexivity|now split]].
           unfold identified. cbn. rewrite T, Ru, Ra. apply orb_true_r.
        -- split; [|split; [reflexivity|discriminate]].
           unfold identified. cbn. rewrite T, Ru, Ra. apply orb_true_r.
      * cbn [fst snd]. split; [exact I|]. split; [reflexivity|]. congruence.
    + cbn [fst snd]. split; [exact I|]. split; [reflexivity|discriminate].
Qed.

(** X21: [reload_registry] reads the backing file once, whatever the
    cache held: it returns what a first load of that file returns, and
    the lookups that follow answer from it without another read. *)
Theorem reload_refreshes_lookups
    (st : AgentHashes.state) (backing later : file) (m : pyval)
    (agent_hash : pystr) :
  AgentHashes.ret (AgentHashes.reload_registry st backing) = Ok m ->
  AgentHashes.ret (AgentHashes.load_registry AgentHashes.initial backing) = Ok m /\
  AgentHashes.reads (AgentHashes.reload_registry st backing) = 1%nat /\
  AgentHashes.get_model_for_hash agent_hash
    (AgentHashes.after (AgentHashes.reload_registry st backing)) later
  = AgentHashes.mkOutcome (get m agent_hash PNone) (AgentHashes.mkState m true) 0.
Proof.
  unfold AgentHashes.reload_registry. intros H.
  rewrite (@load_registry_returns _ backing m H).
  split; [|split; [|reflexivity]].
  - revert H. unfold AgentHashes.load_registry.
    cbn [AgentHashes._REGISTRY_LOADED AgentHashes.initial].
    destruct (open_json backing) as [data|e].
    + destruct (get data (lit "mappings") (PDict [])) as [a|]; [|easy].
      now destruct (AgentHashes.sized a).
    + now destruct e.
  - unfold AgentHashes.load_registry.
    cbn [AgentHashes._REGISTRY_LOADED].
    destruct (open_json backing) as [data|e].
    + destruct (get data (lit "mappings") (PDict [])) as [a|]; [|easy].
      now destruct (AgentHashes.sized a).
    + now destruct e.
Qed.

(** X22: when [load_registry] raises, the registry was not loaded
    and the file, neither missing nor malformed, has been opened once.
    Either the failure is one of opening the file or of a payload that
    is not an object: then it is not cached, and the next call reads the
    file again.  Or the [mappings] value of the payload has no length:
    the log line raises [TypeError] after both globals are assigned, and
    the next call returns that value from the cache without a read. *)
Theorem load_registry_failure_cases
    (st : AgentHashes.state) (backing later : file) (e : exn) :
  AgentHashes.ret (AgentHashes.load_registry st backing) = Raise e ->
  AgentHashes._REGISTRY_LOADED st = false /\
  AgentHashes.reads (AgentHashes.load_registry st backing) = 1%nat /\
  backing <> Absent /\ backing <> Unreadable JSONDecodeError /\
  let st1 := AgentHashes.after (AgentHashes.load_registry st backing) in
  ((open_json backing = Raise e \/
    exists data, open_json backing = Ok data /\
                 get data (lit "mappings") (PDict []) = Raise e) /\
   st1 = st /\
   AgentHashes.reads (AgentHashes.load_registry st1 later) = 1%nat)
  \/
  (exists data m,
     open_json backing = Ok data /\
     get data (lit "mappings") (PDict []) = Ok m /\
     AgentHashes.sized m = false /\
     e = TypeError /\
     st1 = AgentHashes.mkState m true /\
     AgentHashes.load_registry st1 later = AgentHashes.mkOutcome (Ok m) st1 0).
Proof.
  unfold AgentHashes.load_registry.
  destruct (AgentHashes._REGISTRY_LOADED st) eqn:L; [discriminate|].
  assert (N : forall f,
             AgentHashes.reads
               (if AgentHashes._REGISTRY_LOADED st
                then AgentHashes.mkOutcome (Ok (AgentHashes._AGENT_REGISTRY st)) st 0
                else
                  match open_json f with
                  | Ok data =>
                      match get data (lit "mappings") (PDict []) with
                      | Ok m =>
                          if AgentHashes.sized m
                          then AgentHashes.mkOutcome (Ok m) (AgentHashes.mkState m true) 1
                          else AgentHashes.mkOutcome (Raise TypeError)
                                 (AgentHashes.mkState m true) 1
                      | Raise e0 => AgentHashes.mkOutcome (Raise e0) st 1
                      end
                  | Raise FileNotFoundError =>
                      AgentHashes.mkOutcome (Ok (PDict []))
                        (AgentHashes.mkState (PDict []) true) 1
                  | Raise JSONDecodeError =>
                      AgentHashes.mkOutcome (Ok (PDict []))
                        (AgentHashes.mkState (PDict []) true) 1
                  | Raise e0 => AgentHashes.mkOutcome (Raise e0) st 1
                  end) = 1%nat).
  { intros f. rewrite L. destruct (open_json f) as [data|[]]; try reflexivity.
    destruct (get data (lit "mappings") (PDict [])) as [a|]; [|reflexivity].
    now destruct (AgentHashes.sized a). }
  destruct backing as [|x|v]; cbn [open_json].
  - discriminate.
  - destruct x; cbn [AgentHashes.ret AgentHashes.after AgentHashes.reads];
      try discriminate; intros [= <-];
      (split; [reflexivity|]); (split; [reflexivity|]);
      (split; [discriminate|]); (split; [discriminate|]);
      cbv zeta; left; (split; [now left|]); (split; [reflexivity|]); apply N.
  - destruct (get v (lit "mappings") (PDict [])) as [m|e0] eqn:G.
    + destruct (AgentHashes.sized m) eqn:Z; [discriminate|].
      cbn [AgentHashes.ret AgentHashes.after AgentHashes.reads]. intros [= <-].
      split; [reflexivity|]. split; [reflexivity|].
      split; [discriminate|]. split; [discriminate|].
      cbv zeta. right. exists v, m. now repeat split.
    + cbn [AgentHashes.ret AgentHashes.after AgentHashes.reads]. intros [= <-].
      split; [reflexivity|]. split; [reflexivity|].
      split; [discriminate|]. split; [discriminate|].
      cbv zeta. left. split; [right; now exists v|].
      split; [reflexivity|]. apply N.
Qed.

Lemma agents_dict_unreadable (items : list pyval) (acc : pydict) :
  existsb unreadable_record items = true ->
  exists e, Callbacks.agents_dict items acc = Raise e.
Proof.
  revert acc. induction items as [|a items IH]; intros acc; [discriminate|].
  cbn [existsb Callbacks.agents_dict]. unfold unreadable_record at 1.
  destruct (getitem a (lit "hash")) as [h|e]; cbn [bind]; [|now eexists].
  destruct (get a (lit "model") (PStr (lit "sonnet"))) as [m|e]; cbn [bind];
    [|now eexists].
  destruct (to_key h) as [k|e]; cbn [bind orb]; [|now eexists].
  intros H. now apply IH.
Qed.

(** X23: in the [agents] format one record that cannot be read (no
    ["hash"], or not an object) costs the whole registry:
    [load_agent_registry] of callbacks.py returns the empty mapping, the
    records that could be read included. *)
Theorem one_unreadable_record_empties_registry (d : pydict) (items : list pyval) :
  dict_get (KStr (lit "mappings")) d = None ->
  dict_get (KStr (lit "agents")) d = Some (PList items) ->
  existsb unreadable_record items = true ->
  Callbacks.load_agent_registry (Content (PDict d)) = PDict [].
Proof.
  intros Hm Ha Hu.
  unfold Callbacks.load_agent_registry, dict_mem, getitem.
  cbn [exists_ open_json bind]. rewrite Hm, Ha. cbn [bind Callbacks.iter].
  destruct (agents_dict_unreadable items [] Hu) as [e ->]. reflexivity.
Qed.

End Caches.

Lemma callbacks_credentials_cached_within_ttl_witness :
  let d0 := Callbacks.mkDisk
              (Content (PDict [ (KStr (lit "accessToken"), PStr (lit "tok")) ]))
              Absent Absent Absent in
  let gone := Callbacks.mkDisk Absent Absent Absent Absent in
  let st1 := Callbacks.mkState (PStr (lit "tok")) (PStr (lit "anonymous"))
               (PStr (lit "default")) 1000 in
  let ids := (PStr (lit "tok"), PStr (lit "anonymous"), PStr (lit "default")) in
  Callbacks.load_oauth_credentials false st1 1059 gone = (ids, st1) /\
  (true = true -> Callbacks._OAUTH_CACHE_TIME st1 = 1000%Z).
Proof.
  cbv zeta.
  apply (@callbacks_credentials_cached_within_ttl true Callbacks.initial _ 1000 1059
           (Callbacks.mkDisk
              (Content (PDict [ (KStr (lit "accessToken"), PStr (lit "tok")) ]))
              Absent Absent Absent)).
  - reflexivity.
  - reflexivity.
  - reflexivity.
Defined.

Lemma oauth_hook_credentials_cached_within_ttl_witness :
  let cred := PDict [ (KStr (lit "accessToken"), PStr (lit "tok")) ] in
  let st1 := OauthHook.mkState cred 1000 in
  OauthHook.load_oauth_credentials false st1 1059 Absent = (Ok cred, st1) /\
  (true = true -> OauthHook._LAST_LOAD_TIME st1 = 1000%Z).
Proof.
  cbv zeta.
  apply (@oauth_hook_credentials_cached_within_ttl true OauthHook.initial _ 1000 1059
           (Content (PDict [ (KStr (lit "claudeAiOauth"),
                              PDict [ (KStr (lit "accessToken"), PStr (lit "tok")) ]) ]))).
  - reflexivity.
  - discriminate.
  - reflexivity.
Defined.

Lemma callbacks_token_comes_with_identity_witness :
  let d := Callbacks.mkDisk
             (Content (PDict [ (KStr (lit "accessToken"), PStr (lit "tok")) ]))
             Absent Absent Absent in
  let r := Callbacks.load_oauth_credentials false Callbacks.initial 5 d in
  Props.identified (snd r) = true /\
  Props.identified (Callbacks.invalidate_credential_cache Callbacks.initial) = true /\
  (truthy (fst (fst (fst r))) = true ->
   truthy (snd (fst (fst r))) = true /\ truthy (snd (fst r)) = true).
Proof.
  cbv zeta. apply callbacks_token_comes_with_identity. reflexivity.
Defined.

Lemma reload_refreshes_lookups_witness :
  let stale := AgentHashes.mkState
                 (PDict [ (KStr (lit "559aead08264d579"), PStr (lit "haiku")) ]) true in
  let fresh := PDict [ (KStr (lit "559aead08264d579"), PStr (lit "opus")) ] in
  let backing := Content (PDict [ (KStr (lit "mappings"), fresh) ]) in
  AgentHashes.ret (AgentHashes.load_registry AgentHashes.initial backing) = Ok fresh /\
  AgentHashes.reads (AgentHashes.reload_registry stale backing) = 1%nat /\
  AgentHashes.get_model_for_hash (lit "559aead08264d579")
    (AgentHashes.after (AgentHashes.reload_registry stale backing)) Absent
  = AgentHashes.mkOutcome (Ok (PStr (lit "opus"))) (AgentHashes.mkState fresh true) 0.
Proof.
  cbv zeta.
  apply (@reload_refreshes_lookups
           (AgentHashes.mkState
              (PDict [ (KStr (lit "559aead08264d579"), PStr (lit "haiku")) ]) true)
           (Content (PDict [ (KStr (lit "mappings"),
                              PDict [ (KStr (lit "559aead08264d579"),
                                       PStr (lit "opus")) ]) ]))
           Absent
           (PDict [ (KStr (lit "559aead08264d579"), PStr (lit "opus")) ])
           (lit "559aead08264d579")).
  reflexivity.
Defined.

Lemma load_registry_failure_cases_witness :
  let st := AgentHashes.initial in
  let backing := Content (PDict [ (KStr (lit "mappings"), PNone) ]) in
  let e := TypeError in
  AgentHashes._REGISTRY_LOADED st = false /\
  AgentHashes.reads (AgentHashes.load_registry st backing) = 1%nat /\
  backing <> Absent /\ backing <> Unreadable JSONDecodeError /\
  let st1 := AgentHashes.after (AgentHashes.load_registry st backing) in
  ((open_json backing = Raise e \/
    exists data, open_json backing = Ok data /\
                 get data (lit "mappings") (PDict []) = Raise e) /\
   st1 = st /\
   AgentHashes.reads (AgentHashes.load_registry st1 Absent) = 1%nat)
  \/
  (exists data m,
     open_json backing = Ok data /\
     get data (lit "mappings") (PDict []) = Ok m /\
     AgentHashes.sized m = false /\
     e = TypeError /\
     st1 = AgentHashes.mkState m true /\
     AgentHashes.load_registry st1 Absent = AgentHashes.mkOutcome (Ok m) st1 0).
Proof.
  cbv zeta.
  apply (@load_registry_failure_cases AgentHashes.initial
           (Content (PDict [ (KStr (lit "mappings"), PNone) ])) Absent TypeError).
  reflexivity.
Defined.

Lemma one_unreadable_record_empties_registry_witness :
  Callbacks.load_agent_registry
    (Content (PDict [ (KStr (lit "agents"),
                       PList [ PDict [ (KStr (lit "hash"), PStr (lit "559aead08264d579"));
                                       (KStr (lit "model"), PStr (lit "opus")) ];
                               PDict [ (KStr (lit "model"), PStr (lit "haiku")) ] ]) ]))
  = PDict [].
Proof.
  apply one_unreadable_record_empties_registry
    with (items := [ PDict [ (KStr (lit "hash"), PStr (lit "559aead08264d579"));
                             (KStr (lit "model"), PStr (lit "opus")) ];
                     PDict [ (KStr (lit "model"), PStr (lit "haiku")) ] ]);
    reflexivity.
Defined.

(** ** generate_hashes.py *)

Section Markdown.

Import Props.

Lemma split_max_from_skip (sep : pystr) (m k : nat) (cur s : pystr) :
  GenerateHashes.split_max_from sep m k cur s
  = GenerateHashes.split_max_from sep m 0 cur (skipn k s).
Proof.
  revert k. induction s as [|c s IH]; intros k.
  - now destruct k.
  - destruct k as [|k]; [reflexivity|].
    cbn [GenerateHashes.split_max_from skipn]. apply IH.
Qed.

Lemma split_max_from_last (sep cur s : pystr) :
  GenerateHashes.split_max_from sep 0 0 cur s = [rev cur ++ s].
Proof. destruct s; cbn [GenerateHashes.split_max_from]; now rewrite ?app_nil_r. Qed.

(** One cut of [split]: at the first occurrence of the separator. *)
Lemma split_max_from_find (sep : pystr) (m : nat) (cur s : pystr) :
  sep <> [] ->
  GenerateHashes.split_max_from sep (S m) 0 cur s
  = match Spec.find sep s with
    | Some i =>
        (rev cur ++ firstn i s)
        :: GenerateHashes.split_max_from sep m 0 [] (skipn (i + length sep) s)
    | None => [rev cur ++ s]
    end.
Proof.
  intros Hsep. revert cur. induction s as [|c s IH]; intros cur.
  - destruct sep as [|a sep]; [contradiction|]. cbn. now rewrite app_nil_r.
  - cbn [GenerateHashes.split_max_from Spec.find].
    destruct (startswith sep (c :: s)) eqn:E.
    + cbn [firstn Nat.add]. rewrite app_nil_r. f_equal.
      rewrite split_max_from_skip.
      destruct sep as [|a sep]; [contradiction|].
      replace (length (a :: sep) - 1)%nat with (length sep) by (simpl; lia).
      reflexivity.
    + rewrite IH. destruct (Spec.find sep s) as [i|]; cbn [option_map].
      * cbn [firstn Nat.add skipn rev]. now rewrite <- app_assoc.
      * cbn [rev]. now rewrite <- app_assoc.
Qed.

(** X24: [extract_prompt_from_markdown] returns what follows the second
    ["---"] of the file, trimmed, whatever stands before the first one
    and however many ["---"] follow; a file with fewer than two is
    returned whole and untrimmed. *)
Theorem extract_prompt_after_second_rule (md_content : pystr) :
  GenerateHashes.extract_prompt_from_markdown md_content
  = Ok (after_frontmatter md_content).
Proof.
  unfold GenerateHashes.extract_prompt_from_markdown, GenerateHashes.split_max,
    after_frontmatter.
  change (lit "---") with [45; 45; 45]. cbn [bind].
  rewrite split_max_from_find by discriminate.
  destruct (Spec.find [45; 45; 45] md_content) as [i|]; [|reflexivity].
  rewrite split_max_from_find by discriminate.
  cbn [length].
  destruct (Spec.find [45; 45; 45] (skipn (i + 3) md_content)) as [j|];
    [|reflexivity].
  rewrite split_max_from_last. reflexivity.
Qed.

End Markdown.

(** ** The hook of agent_routing_hook.py *)

Section RoutingHook.

Import Props.

Variable repr : pyval -> pystr.

Lemma flatten_text (s : pystr) :
  AgentRoutingHook.flatten_content repr (PStr s) = Ok (PStr s).
Proof. reflexivity. Qed.

(** The hash of a Claude Code request is the fingerprint of the second
    system message. *)
Lemma extract_agent_hash_second (m1 m2 : pyval) (more : list pyval)
    (c1 p : pystr) :
  has_text m1 c1 -> has_text m2 p ->
  contains (lit "Claude Code") c1 = true ->
  p <> [] ->
  AgentRoutingHook.extract_agent_hash repr (m1 :: m2 :: more)
  = (h <- Utils.compute_agent_hash p true ;; Ok (Some h)).
Proof.
  unfold has_text. intros H1 H2 Hc Hp.
  unfold AgentRoutingHook.extract_agent_hash, AgentRoutingHook.is_claude_code_request,
    AgentRoutingHook.content_at.
  cbn [length Nat.ltb Nat.leb nth_error]. rewrite H1, H2.
  cbn [bind AgentRoutingHook.flatten_content contains_str]. rewrite Hc.
  cbn [negb]. destruct p as [|c p]; [contradiction|]. reflexivity.
Qed.

(** X25: the hash the routing hook extracts is the fingerprint of the
    second system message, so a volatile section appended to the agent
    prompt does not change it: the per-request notes do not change the
    routing. *)
Theorem agent_hash_ignores_notes_section
    (m1 m2 m2' : pyval) (more more' : list pyval) (c1 p m s : pystr) :
  has_text m1 c1 ->
  contains (lit "Claude Code") c1 = true ->
  has_text m2 p ->
  has_text m2' (p ++ m ++ s) ->
  p <> [] ->
  In m Utils.NOTES_SEPARATORS ->
  contains (lit "Notes:") p = false ->
  Forall (fun m' => contains m' s = false) (earlier Utils.NOTES_SEPARATORS m) ->
  AgentRoutingHook.extract_agent_hash repr (m1 :: m2' :: more')
  = AgentRoutingHook.extract_agent_hash repr (m1 :: m2 :: more)
  /\
  AgentRoutingHook.extract_agent_hash repr (m1 :: m2 :: more)
  = (h <- Spec.fingerprint p ;; Ok (Some h)).
Proof.
  intros H1 Hc H2 H2' Hp Hm Hn Hs.
  rewrite (@extract_agent_hash_second m1 m2 more c1 p H1 H2 Hc Hp).
  rewrite (@extract_agent_hash_second m1 m2' more' c1 (p ++ m ++ s) H1 H2' Hc).
  2:{ destruct p; [contradiction|discriminate]. }
  rewrite !utils_compute_agent_hash_spec. split; [|reflexivity].
  unfold fingerprint.
  destruct (@strip_volatile_suffix p m s Hm Hn Hs) as (x & v & w & Hv & Hw & E & ->).
  rewrite (@strip_volatile_clean p Hn).
  now rewrite (@strip_up_to_newlines p w x v Hw Hv E).
Qed.

Lemma filter_system_length (msgs kept : list pyval) :
  AgentRoutingHook.filter_system msgs = Ok kept ->
  (length kept <= length msgs)%nat.
Proof.
  revert kept. induction msgs as [|m msgs IH]; intros kept.
  - intros [= <-]. reflexivity.
  - cbn [AgentRoutingHook.filter_system].
    destruct (get m (lit "role") PNone) as [role|]; [|discriminate]. cbn [bind].
    destruct (AgentRoutingHook.filter_system msgs) as [k|]; [|discriminate].
    cbn [bind]. specialize (IH k eq_refl).
    destruct (eq_str role (lit "system")); intros [= <-]; cbn [length]; lia.
Qed.


(** The hash the hook works with is never the empty string. *)
Lemma extract_agent_hash_nonempty (system_messages : list pyval) (h : pystr) :
  AgentRoutingHook.extract_agent_hash repr system_messages = Ok (Some h) ->
  h <> [].
Proof.
  unfold AgentRoutingHook.extract_agent_hash.
  destruct (AgentRoutingHook.is_claude_code_request repr system_messages)
    as [[|]|]; cbn [bind negb]; try discriminate.
  destruct (length system_messages <? 2)%nat; [discriminate|].
  destruct (AgentRoutingHook.content_at 1 system_messages) as [c|];
    [|discriminate].
  cbn [bind].
  destruct (AgentRoutingHook.flatten_content repr c) as [agent_content|];
    [|discriminate].
  cbn [bind]. destruct (negb (truthy agent_content)); [discriminate|].
  destruct agent_content as [| | |p| |]; try discriminate.
  cbn [AgentRoutingHook.hash_content].
  destruct (Utils.compute_agent_hash p true) as [h'|] eqn:E; [|discriminate].
  cbn [bind]. intros [= <-].
  apply utils_hash_length in E. now destruct h'.
Qed.

(** X27: on a Claude Code agent request whose fingerprint the loaded
    registry maps to a model, the hook sets [model] to it and records
    the fingerprint and the requested model in [metadata]; every other
    field of the request is as it came, and the registry file is not
    opened. *)
Theorem hook_routes_registered_agent
    (d : pydict) (registry : pyval) (backing : file)
    (system_messages : list pyval) (agent_hash : pystr) (target_model : pyval) :
  (messages <- get (PDict d) (lit "messages") (PList []) ;;
   AgentRoutingHook.extract_system_messages messages) = Ok system_messages ->
  AgentRoutingHook.extract_agent_hash repr system_messages = Ok (Some agent_hash) ->
  get registry agent_hash PNone = Ok target_model ->
  truthy target_model = true ->
  dict_get (KStr (lit "metadata")) d = None ->
  exists d',
    AgentRoutingHook.async_pre_call_hook repr (PDict d) (lit "completion")
      (AgentHashes.mkState registry true) backing
    = AgentRoutingHook.mkOutcome (Ok (PDict d')) (PDict d')
        (AgentHashes.mkState registry true) 0 /\
    dict_get (KStr (lit "model")) d' = Some target_model /\
    dict_get (KStr (lit "metadata")) d'
    = Some (PDict [ (KStr (lit "agent_hash"), PStr agent_hash);
                    (KStr (lit "routed_from"),
                     match dict_get (KStr (lit "model")) d with
                     | Some x => x
                     | None => PStr (lit "unknown")
                     end);
                    (KStr (lit "agent_routed"), PBool true) ]) /\
    forall k, k <> KStr (lit "model") -> k <> KStr (lit "metadata") ->
              dict_get k d' = dict_get k d.
Proof.
  intros Hs Hh Hr Ht Hmd.
  pose proof (extract_agent_hash_nonempty _ Hh) as Hne.
  unfold AgentRoutingHook.async_pre_call_hook.
  change (negb (PyStr.eqb (lit "completion") (lit "completion"))) with false.
  cbv iota.
  destruct (get (PDict d) (lit "messages") (PList [])) as [messages|];
    [|discriminate].
  cbn [bind] in *. rewrite Hs. cbn [bind]. rewrite Hh.
  destruct agent_hash as [|c h]; [contradiction|].
  cbn [AgentHashes.load_registry AgentHashes._REGISTRY_LOADED
       AgentHashes._AGENT_REGISTRY AgentHashes.ret AgentHashes.after
       AgentHashes.reads bind].
  rewrite Hr. cbn [bind get]. rewrite Ht. cbn [negb Callbacks.setitem].
  unfold AgentRoutingHook.tag_metadata. cbn [contains_str bind].
  unfold dict_mem. rewrite dict_get_set.
  change (key_eqb (KStr (lit "metadata")) (KStr (lit "model"))) with false.
  cbv iota. rewrite Hmd. cbn [bind Callbacks.setitem getitem].
  rewrite dict_get_set, key_eqb_refl. cbn [bind Callbacks.setitem dict_set key_eqb].
  change (PyStr.eqb (lit "routed_from") (lit "agent_hash")) with false.
  change (PyStr.eqb (lit "agent_routed") (lit "agent_hash")) with false.
  change (PyStr.eqb (lit "agent_routed") (lit "routed_from")) with false.
  cbv iota. cbn [bind].
  eexists. split; [reflexivity|]. split; [|split].
  - rewrite !dict_get_set.
    change (key_eqb (KStr (lit "model")) (KStr (lit "metadata"))) with false.
    now rewrite key_eqb_refl.
  - rewrite dict_get_set. now rewrite key_eqb_refl.
  - intros k Hk1 Hk2. rewrite !dict_get_set.
    destruct (key_eqb k (KStr (lit "metadata"))) eqn:E1;
      [apply key_eqb_eq in E1; contradiction|].
    destruct (key_eqb k (KStr (lit "model"))) eqn:E2;
      [apply key_eqb_eq in E2; contradiction|].
    reflexivity.
Qed.

End RoutingHook.

Lemma oauth_route_headers_are_listed_witness :
  let body := Ok (PDict [ (KStr (lit "model"), PStr (lit "claude-x")) ]) in
  let rh := Some [ (lit "x-api-key", lit "sk-caller");
                   (lit "cookie", lit "session=1");
                   (lit "x-app", lit "cli") ] in
  let d := Callbacks.mkDisk
             (Content (PDict [ (KStr (lit "accessToken"), PStr (lit "tok")) ]))
             Absent Absent Absent in
  exists o st',
    Callbacks._handle_messages_request repr_sample (lit "0a1b2c3d") body rh (PDict [])
      None Callbacks.initial 5 d = (inr o, st') /\
    (Callbacks.api_url o = Callbacks.default_api_base /\
     (forall k, In k (map fst (Callbacks.out_headers o)) ->
                In k Props.oauth_header_names) /\
     Callbacks.hget (lit "x-api-key") (Callbacks.out_headers o) = None).
Proof.
  cbv zeta.
  destruct (Callbacks._handle_messages_request repr_sample (lit "0a1b2c3d") _ _ _ _ _ _ _)
    as [[r|o] st'] eqn:E.
  - vm_compute in E. discriminate E.
  - exists o, st'. split; [reflexivity|].
    assert (Hz : Callbacks.is_zai_route o = false).
    { pose proof E as E'. vm_compute in E'. injection E' as <- _. reflexivity. }
    exact (@oauth_route_headers_are_listed repr_sample (lit "0a1b2c3d")
             _ _ _ _ _ _ _ _ _ E Hz).
Defined.

Lemma oauth_route_body_frame_witness :
  let b := [ (KStr (lit "model"), PStr (lit "claude-x"));
             (KStr (lit "max_tokens"), PInt 64);
             (KStr (lit "metadata"), PDict [ (KStr (lit "trace"), PStr (lit "t1")) ]);
             (KStr (lit "temperature"), PInt 1) ] in
  let d := Callbacks.mkDisk
             (Content (PDict [ (KStr (lit "accessToken"), PStr (lit "tok")) ]))
             Absent Absent Absent in
  exists o st',
    Callbacks._handle_messages_request repr_sample (lit "0a1b2c3d") (Ok (PDict b)) None
      (PDict []) None Callbacks.initial 5 d = (inr o, st') /\
    exists b0 b',
      Ok (PDict b) = Ok (PDict b0) /\
      Callbacks.out_body o = PDict b' /\
      dict_mem (KStr (lit "tools")) b' = true /\
      (forall v, dict_get (KStr (lit "tools")) b0 = Some v ->
                 dict_get (KStr (lit "tools")) b' = Some v) /\
      (forall k, ~ In k Props.normalized_keys -> dict_get k b' = dict_get k b0) /\
      match dict_get (KStr (lit "metadata")) b0 with
      | None =>
          exists user_id,
            dict_get (KStr (lit "metadata")) b'
            = Some (PDict [ (KStr (lit "user_id"), PStr user_id) ])
      | Some (PDict md) =>
          exists md',
            dict_get (KStr (lit "metadata")) b' = Some (PDict md') /\
            dict_mem (KStr (lit "user_id")) md' = true /\
            (dict_mem (KStr (lit "user_id")) md = true -> md' = md) /\
            (forall k, key_eqb k (KStr (lit "user_id")) = false ->
                       dict_get k md' = dict_get k md)
      | Some other =>
          dict_get (KStr (lit "metadata")) b' = Some other /\
          contains_str (lit "user_id") other = Ok true
      end.
Proof.
  cbv zeta.
  destruct (Callbacks._handle_messages_request repr_sample (lit "0a1b2c3d") _ _ _ _ _ _ _)
    as [[r|o] st'] eqn:E.
  - vm_compute in E. discriminate E.
  - exists o, st'. split; [reflexivity|].
    assert (Hz : Callbacks.is_zai_route o = false).
    { pose proof E as E'. vm_compute in E'. injection E' as <- _. reflexivity. }
    exact (@oauth_route_body_frame repr_sample (lit "0a1b2c3d")
             _ _ _ _ _ _ _ _ _ E Hz).
Defined.

Lemma oauth_route_drops_temperature_witness :
  let b := [ (KStr (lit "model"), PStr (lit "claude-x"));
             (KStr (lit "temperature"), PInt 1) ] in
  let d := Callbacks.mkDisk
             (Content (PDict [ (KStr (lit "accessToken"), PStr (lit "tok")) ]))
             Absent Absent Absent in
  exists o st',
    Callbacks._handle_messages_request repr_sample (lit "0a1b2c3d") (Ok (PDict b)) None
      (PDict []) None Callbacks.initial 5 d = (inr o, st') /\
    (get (Callbacks.out_body o) (lit "temperature") PNone = Ok PNone /\
     contains_str (lit "temperature") (Callbacks.out_body o) = Ok false).
Proof.
  cbv zeta.
  destruct (Callbacks._handle_messages_request repr_sample (lit "0a1b2c3d") _ _ _ _ _ _ _)
    as [[r|o] st'] eqn:E.
  - vm_compute in E. discriminate E.
  - exists o, st'. split; [reflexivity|].
    assert (Hz : Callbacks.is_zai_route o = false).
    { pose proof E as E'. vm_compute in E'. injection E' as <- _. reflexivity. }
    assert (U : Props.keys_unique [ (KStr (lit "model"), PStr (lit "claude-x"));
                                    (KStr (lit "temperature"), PInt 1) ]).
    { unfold Props.keys_unique. cbn [map fst].
      constructor; [|constructor; [|constructor]].
      - intros [H|[]]. discriminate H.
      - intros []. }
    exact (@oauth_route_drops_temperature repr_sample (lit "0a1b2c3d")
             _ _ _ _ _ _ _ _ _ U E Hz).
Defined.


Lemma no_token_answers_401_witness :
  let b := [ (KStr (lit "model"), PStr (lit "claude-x"));
             (KStr (lit "system"), PStr (lit "Be brief.")) ] in
  let d := Callbacks.mkDisk Absent Absent Absent Absent in
  Callbacks._handle_messages_request repr_sample (lit "0a1b2c3d") (Ok (PDict b)) None
    (PDict []) None Callbacks.initial 5 d
  = (inl (Callbacks.JSONResponse 401 (lit "authentication_error")),
     snd (Callbacks.load_oauth_token false Callbacks.initial 5 d)).
Proof.
  cbv zeta.
  apply no_token_answers_401 with (original_model := PStr (lit "claude-x"));
    reflexivity.
Defined.

Lemma empty_registry_keeps_requested_model_witness :
  let d := Callbacks.mkDisk
             (Content (PDict [ (KStr (lit "accessToken"), PStr (lit "tok")) ]))
             Absent Absent Absent in
  exists o st',
    Callbacks._handle_messages_request repr_sample (lit "0a1b2c3d")
      (Ok (PDict [ (KStr (lit "system"), PStr (lit "A")) ])) None
      (PDict []) (Some (lit "zk")) Callbacks.initial 5 d = (inr o, st') /\
    (Callbacks.is_zai_route o = false /\
     exists body,
       Ok (PDict [ (KStr (lit "system"), PStr (lit "A")) ]) = Ok body /\
       getitem (Callbacks.out_body o) (lit "model")
       = get body (lit "model") (PStr (lit "claude-sonnet-4-20250514"))).
Proof.
  cbv zeta.
  destruct (Callbacks._handle_messages_request repr_sample (lit "0a1b2c3d") _ _ _ _ _ _ _)
    as [[r|o] st'] eqn:E.
  - vm_compute in E. discriminate E.
  - exists o, st'. split; [reflexivity|].
    assert (Hr : truthy (PDict []) = false) by reflexivity.
    exact (@empty_registry_keeps_requested_model repr_sample (lit "0a1b2c3d")
             _ _ (PDict []) _ _ _ _ _ _ Hr E).
Defined.

Lemma agent_hash_ignores_notes_section_witness :
  let m1 := PDict [ (KStr (lit "role"), PStr (lit "system"));
                    (KStr (lit "content"), PStr (lit "You are Claude Code.")) ] in
  let m2 := PDict [ (KStr (lit "role"), PStr (lit "system"));
                    (KStr (lit "content"), PStr (lit "You review code.")) ] in
  let m2' := PDict [ (KStr (lit "role"), PStr (lit "system"));
                     (KStr (lit "content"),
                      PStr (lit "You review code." ++ (10 :: lit "Notes:")
                            ++ lit " it is Monday")) ] in
  AgentRoutingHook.extract_agent_hash repr_sample [m1; m2']
  = AgentRoutingHook.extract_agent_hash repr_sample [m1; m2]
  /\
  AgentRoutingHook.extract_agent_hash repr_sample [m1; m2]
  = (h <- Spec.fingerprint (lit "You review code.") ;; Ok (Some h)).
Proof.
  cbv zeta.
  apply (@agent_hash_ignores_notes_section repr_sample _ _ _ [] []
           (lit "You are Claude Code.") (lit "You review code.")
           (10 :: lit "Notes:") (lit " it is Monday")).
  - reflexivity.
  - reflexivity.
  - reflexivity.
  - reflexivity.
  - discriminate.
  - right. left. reflexivity.
  - reflexivity.
  - repeat constructor.
Defined.


Lemma hook_routes_registered_agent_witness :
  let m1 := PDict [ (KStr (lit "role"), PStr (lit "system"));
                    (KStr (lit "content"), PStr (lit "You are Claude Code.")) ] in
  let m2 := PDict [ (KStr (lit "role"), PStr (lit "system"));
                    (KStr (lit "content"), PStr (lit "You review code.")) ] in
  let d := [ (KStr (lit "model"), PStr (lit "gpt-x"));
             (KStr (lit "messages"), PList [m1; m2]) ] in
  let registry := PDict [ (KStr (lit "e0a7b83ec2b56546"), PStr (lit "opus")) ] in
  exists d',
    AgentRoutingHook.async_pre_call_hook repr_sample (PDict d) (lit "completion")
      (AgentHashes.mkState registry true) Absent
    = AgentRoutingHook.mkOutcome (Ok (PDict d')) (PDict d')
        (AgentHashes.mkState registry true) 0 /\
    dict_get (KStr (lit "model")) d' = Some (PStr (lit "opus")) /\
    dict_get (KStr (lit "metadata")) d'
    = Some (PDict [ (KStr (lit "agent_hash"), PStr (lit "e0a7b83ec2b56546"));
                    (KStr (lit "routed_from"),
                     match dict_get (KStr (lit "model")) d with
                     | Some x => x
                     | None => PStr (lit "unknown")
                     end);
                    (KStr (lit "agent_routed"), PBool true) ]) /\
    forall k, k <> KStr (lit "model") -> k <> KStr (lit "metadata") ->
              dict_get k d' = dict_get k d.
Proof.
  cbv zeta.
  apply hook_routes_registered_agent
    with (system_messages :=
            [ PDict [ (KStr (lit "role"), PStr (lit "system"));
                      (KStr (lit "content"), PStr (lit "You are Claude Code.")) ];
              PDict [ (KStr (lit "role"), PStr (lit "system"));
                      (KStr (lit "content"), PStr (lit "You review code.")) ] ]).
  - reflexivity.
  - vm_compute. reflexivity.
  - reflexivity.
  - reflexivity.
  - reflexivity.
Defined.
